(** * PennyWise backend: a shallow embedding of [main.py]

    The FastAPI application of [main.py] is embedded as pure functions over
    an explicit database state.  Python [str] values are byte strings
    ([string], UTF-8 encoded), Python [float] values are IEEE-754 doubles
    ([PrimFloat.float]), path parameters and row ids are integers ([Z]).
    A handler that raises [HTTPException] returns the [HTTPException]
    constructor of [Result]; one that returns normally returns [Ok].

    The SQLite store is modelled at the level of the statements the handlers
    issue: a table is the list of its rows in rowid order, [INSERT] appends
    under the next [AUTOINCREMENT] id, [DELETE] and [UPDATE] act on the rows
    the [WHERE] clause selects, and a primary key rejects a second row with
    the same key.  [sqlite3] binds a NaN as [NULL], which the [REAL NOT NULL]
    columns refuse: the statement raises [sqlite3.IntegrityError], which no
    handler catches ([Uncaught]; the server answers 500).

    Outside the model: an id is a SQLite [INTEGER], so the handlers are
    modelled for ids in the signed 64-bit range ([in_int64]; [sqlite3]
    raises [OverflowError] when it is asked to bind any other [int]);
    SQLite holds the [REAL] -0.0 as 0.0, while the model keeps the sign of a
    zero; the date is parsed as ASCII (see [Strptime]). *)

From Stdlib Require Import ZArith List String Ascii Bool Lia.
From Stdlib Require Import Floats DecimalString.
From Stdlib Require Import Permutation Sorted.
Import ListNotations.

Local Open Scope Z_scope.
Local Open Scope string_scope.
Local Open Scope list_scope.

(** ** [hashlib.sha256]

    [hash_password] calls [hashlib.sha256(...).hexdigest()].  The digest is
    the SHA-256 function of FIPS 180-4 on 32-bit words, written here on [Z]
    with the wrap-around modulo [2^32] explicit. *)
Module Sha256.

Definition w32 (x : Z) : Z := Z.land x 4294967295.

Definition add32 (x y : Z) : Z := w32 (x + y).

Definition rotr (n x : Z) : Z :=
  Z.lor (Z.shiftr x n) (w32 (Z.shiftl x (32 - n))).

Definition not32 (x : Z) : Z := Z.lxor x 4294967295.

Definition Ch (x y z : Z) : Z := Z.lxor (Z.land x y) (Z.land (not32 x) z).

Definition Maj (x y z : Z) : Z :=
  Z.lxor (Z.lxor (Z.land x y) (Z.land x z)) (Z.land y z).

Definition Sigma0 (x : Z) : Z :=
  Z.lxor (Z.lxor (rotr 2 x) (rotr 13 x)) (rotr 22 x).

Definition Sigma1 (x : Z) : Z :=
  Z.lxor (Z.lxor (rotr 6 x) (rotr 11 x)) (rotr 25 x).

Definition sigma0 (x : Z) : Z :=
  Z.lxor (Z.lxor (rotr 7 x) (rotr 18 x)) (Z.shiftr x 3).

Definition sigma1 (x : Z) : Z :=
  Z.lxor (Z.lxor (rotr 17 x) (rotr 19 x)) (Z.shiftr x 10).

(** The constants of the standard are the first 32 bits of the fractional
    parts of the cube roots (for [K]) and of the square roots (for [H0]) of
    the first 64 and the first 8 prime numbers. *)
Definition is_prime (n : Z) : bool :=
  (2 <=? n)%Z
  && forallb (fun d => negb (n mod d =? 0)%Z)
             (map Z.of_nat (seq 2 (Z.to_nat n - 2))).

Definition primes : list Z :=
  firstn 64 (filter is_prime (map Z.of_nat (seq 2 310))).

(** The integer cube root of [x], one bit at a time from bit [n - 1]. *)
Fixpoint cbrt_bits (n : nat) (x r : Z) : Z :=
  match n with
  | O => r
  | S n' =>
      let c := r + 2 ^ Z.of_nat n' in
      if (c * c * c <=? x)%Z then cbrt_bits n' x c else cbrt_bits n' x r
  end.

Definition frac32_cbrt (p : Z) : Z := w32 (cbrt_bits 40 (p * 2 ^ 96) 0).

Definition frac32_sqrt (p : Z) : Z := w32 (Z.sqrt (p * 2 ^ 64)).

Definition K : list Z := Eval vm_compute in map frac32_cbrt primes.

(** The eight working variables / chaining values. *)
Record state : Type := mkState
  { ha : Z; hb : Z; hc : Z; hd : Z; he : Z; hf : Z; hg : Z; hh : Z }.

Definition H0 : state :=
  mkState (frac32_sqrt 2) (frac32_sqrt 3) (frac32_sqrt 5) (frac32_sqrt 7)
          (frac32_sqrt 11) (frac32_sqrt 13) (frac32_sqrt 17) (frac32_sqrt 19).

(** Padding: the byte [0x80], zero bytes up to 56 modulo 64, and the bit
    length of the message as a 64-bit big-endian integer. *)
Definition be_bytes (n : nat) (x : Z) : list Z :=
  map (fun i => Z.land (Z.shiftr x (8 * Z.of_nat i)) 255) (rev (seq 0 n)).

Definition pad (msg : list Z) : list Z :=
  let l := Z.of_nat (List.length msg) in
  let k := Z.to_nat ((55 - l) mod 64) in
  msg ++ [128] ++ repeat 0 k ++ be_bytes 8 (8 * l).

Fixpoint be_words (bs : list Z) : list Z :=
  match bs with
  | b0 :: b1 :: b2 :: b3 :: rest =>
      (Z.lor (Z.shiftl b0 24)
         (Z.lor (Z.shiftl b1 16) (Z.lor (Z.shiftl b2 8) b3)))
      :: be_words rest
  | _ => []
  end.

Fixpoint blocks (fuel : nat) (ws : list Z) : list (list Z) :=
  match fuel, ws with
  | S fuel', _ :: _ => firstn 16 ws :: blocks fuel' (skipn 16 ws)
  | _, _ => []
  end.

(** Message schedule: 48 further words after the 16 of the block. *)
Fixpoint schedule (n : nat) (w : list Z) : list Z :=
  match n with
  | O => w
  | S n' =>
      let t := List.length w in
      let x := add32 (add32 (sigma1 (nth (t - 2) w 0)) (nth (t - 7) w 0))
                     (add32 (sigma0 (nth (t - 15) w 0)) (nth (t - 16) w 0)) in
      schedule n' (w ++ [x])
  end.

Definition round (s : state) (kw : Z * Z) : state :=
  let t1 := add32 (add32 (add32 (hh s) (Sigma1 (he s)))
                         (add32 (Ch (he s) (hf s) (hg s)) (fst kw)))
                  (snd kw) in
  let t2 := add32 (Sigma0 (ha s)) (Maj (ha s) (hb s) (hc s)) in
  mkState (add32 t1 t2) (ha s) (hb s) (hc s)
          (add32 (hd s) t1) (he s) (hf s) (hg s).

Definition compress (s : state) (block : list Z) : state :=
  let r := fold_left round (combine K (schedule 48 block)) s in
  mkState (add32 (ha s) (ha r)) (add32 (hb s) (hb r))
          (add32 (hc s) (hc r)) (add32 (hd s) (hd r))
          (add32 (he s) (he r)) (add32 (hf s) (hf r))
          (add32 (hg s) (hg r)) (add32 (hh s) (hh r)).

Definition digest (msg : list Z) : state :=
  let ws := be_words (pad msg) in
  fold_left compress (blocks (List.length ws) ws) H0.

(** [hexdigest]: each word as eight lower-case hexadecimal digits. *)
Definition hex_digit (n : Z) : ascii :=
  nth (Z.to_nat (Z.land n 15))
      (list_ascii_of_string "0123456789abcdef") "0"%char.

Definition hex_word (x : Z) (tail : string) : string :=
  String (hex_digit (Z.shiftr x 28))
 (String (hex_digit (Z.shiftr x 24))
 (String (hex_digit (Z.shiftr x 20))
 (String (hex_digit (Z.shiftr x 16))
 (String (hex_digit (Z.shiftr x 12))
 (String (hex_digit (Z.shiftr x 8))
 (String (hex_digit (Z.shiftr x 4))
 (String (hex_digit x) tail))))))).

Definition hex_state (s : state) : string :=
  hex_word (ha s) (hex_word (hb s) (hex_word (hc s) (hex_word (hd s)
 (hex_word (he s) (hex_word (hf s) (hex_word (hg s) (hex_word (hh s)
  ""))))))).

(** [str.encode()]: the bytes of the (UTF-8) string. *)
Definition encode (s : string) : list Z :=
  map (fun c => Z.of_N (N_of_ascii c)) (list_ascii_of_string s).

Definition hexdigest (s : string) : string := hex_state (digest (encode s)).

End Sha256.

(** [hash_password], line 74. *)
Definition hash_password (password : string) : string :=
  Sha256.hexdigest password.

(** ** SHA-256 as FIPS 180-4 states it

    A second definition of the digest, written from the text of the standard
    and independently of [Sha256]: words are numbers below [2^32] with
    shifts as division and multiplication, the constants are the printed
    tables, the padding length is the smallest solution of the standard's
    congruence, the blocks and words are indexed into the padded message,
    the message schedule is the recurrence for [W_t], and the rounds are the
    loop on [t].  [hash_password_is_sha256] proves that [hash_password]
    computes this function. *)
Module Fips180.

(** Section 3.2: operations on words. *)
Definition SHR (n x : Z) : Z := x / 2 ^ n.

Definition SHL (n x : Z) : Z := (x * 2 ^ n) mod 2 ^ 32.

Definition ROTR (n x : Z) : Z := Z.lor (SHR n x) (SHL (32 - n) x).

Definition complement (x : Z) : Z := Z.lxor x (2 ^ 32 - 1).

(** Section 4.1.2: the six logical functions. *)
Definition Ch (x y z : Z) : Z :=
  Z.lxor (Z.land x y) (Z.land (complement x) z).

Definition Maj (x y z : Z) : Z :=
  Z.lxor (Z.lxor (Z.land x y) (Z.land x z)) (Z.land y z).

Definition Sigma0 (x : Z) : Z :=
  Z.lxor (Z.lxor (ROTR 2 x) (ROTR 13 x)) (ROTR 22 x).

Definition Sigma1 (x : Z) : Z :=
  Z.lxor (Z.lxor (ROTR 6 x) (ROTR 11 x)) (ROTR 25 x).

Definition sigma0 (x : Z) : Z :=
  Z.lxor (Z.lxor (ROTR 7 x) (ROTR 18 x)) (SHR 3 x).

Definition sigma1 (x : Z) : Z :=
  Z.lxor (Z.lxor (ROTR 17 x) (ROTR 19 x)) (SHR 10 x).

(** Sections 4.2.2 and 5.3.3: the constants, as printed. *)
Definition hex_value (c : ascii) : Z :=
  let n := Z.of_nat (nat_of_ascii c) in
  if (n <? 58)%Z then n - 48 else n - 87.

Definition hex_number (s : string) : Z :=
  fold_left (fun acc c => 16 * acc + hex_value c) (list_ascii_of_string s) 0.

Definition K : list Z :=
  map hex_number
    ["428a2f98"; "71374491"; "b5c0fbcf"; "e9b5dba5"; "3956c25b"; "59f111f1";
     "923f82a4"; "ab1c5ed5"; "d807aa98"; "12835b01"; "243185be"; "550c7dc3";
     "72be5d74"; "80deb1fe"; "9bdc06a7"; "c19bf174"; "e49b69c1"; "efbe4786";
     "0fc19dc6"; "240ca1cc"; "2de92c6f"; "4a7484aa"; "5cb0a9dc"; "76f988da";
     "983e5152"; "a831c66d"; "b00327c8"; "bf597fc7"; "c6e00bf3"; "d5a79147";
     "06ca6351"; "14292967"; "27b70a85"; "2e1b2138"; "4d2c6dfc"; "53380d13";
     "650a7354"; "766a0abb"; "81c2c92e"; "92722c85"; "a2bfe8a1"; "a81a664b";
     "c24b8b70"; "c76c51a3"; "d192e819"; "d6990624"; "f40e3585"; "106aa070";
     "19a4c116"; "1e376c08"; "2748774c"; "34b0bcb5"; "391c0cb3"; "4ed8aa4a";
     "5b9cca4f"; "682e6ff3"; "748f82ee"; "78a5636f"; "84c87814"; "8cc70208";
     "90befffa"; "a4506ceb"; "bef9a3f7"; "c67178f2"].

(** The eight words of a hash value, and the working variables [a] to [h]. *)
Definition words : Type := (Z * Z * Z * Z * Z * Z * Z * Z)%type.

Definition H0 : words :=
  (hex_number "6a09e667", hex_number "bb67ae85", hex_number "3c6ef372",
   hex_number "a54ff53a", hex_number "510e527f", hex_number "9b05688c",
   hex_number "1f83d9ab", hex_number "5be0cd19").

(** Section 5.1.1: the bit 1, then [k] zero bits for the smallest [k >= 0]
    with [l + 1 + k = 448] modulo 512, then the length [l] in bits as a
    64-bit number.  On a message of whole bytes the bit 1 and the first
    seven zero bits are the byte [0x80]. *)
Definition zero_bits (l : Z) : Z :=
  hd 0 (filter (fun k => ((l + 1 + k) mod 512 =? 448)%Z)
               (map Z.of_nat (seq 0 512))).

(** The [n] digits of [x] in base 256, most significant first. *)
Definition base256 (n : nat) (x : Z) : list Z :=
  map (fun i => (x / 256 ^ Z.of_nat i) mod 256) (rev (seq 0 n)).

Definition padding (msg : list Z) : list Z :=
  let l := 8 * Z.of_nat (List.length msg) in
  msg ++ [128] ++ repeat 0 (Z.to_nat ((zero_bits l - 7) / 8))
      ++ base256 8 l.

(** Section 5.2.1: the padded message is [N] blocks of 512 bits; word [t]
    of block [i] is [M padded i t], four bytes read as a big-endian
    number. *)
Definition N (padded : list Z) : nat := (List.length padded / 64)%nat.

Definition M (padded : list Z) (i t : nat) : Z :=
  let byte j := nth (64 * i + 4 * t + j)%nat padded 0 in
  byte 0%nat * 2 ^ 24 + byte 1%nat * 2 ^ 16 + byte 2%nat * 2 ^ 8
  + byte 3%nat.

(** Section 6.2.2, step 1: the message schedule
    [W_t = M_t] for [t < 16] and
    [W_t = sigma1 W_(t-2) + W_(t-7) + sigma0 W_(t-15) + W_(t-16)] after. *)
Fixpoint W_rec (fuel : nat) (block : nat -> Z) (t : nat) : Z :=
  match fuel with
  | O => 0
  | S fuel' =>
      if (t <? 16)%nat then block t
      else (sigma1 (W_rec fuel' block (t - 2)) + W_rec fuel' block (t - 7)
            + sigma0 (W_rec fuel' block (t - 15))
            + W_rec fuel' block (t - 16)) mod 2 ^ 32
  end.

Definition W (block : nat -> Z) (t : nat) : Z := W_rec (S t) block t.

(** Steps 2 and 3: the working variables after [t] rounds. *)
Fixpoint rounds (block : nat -> Z) (init : words) (t : nat) : words :=
  match t with
  | O => init
  | S t' =>
      let '(a, b, c, d, e, f, g, h) := rounds block init t' in
      let T1 := (h + Sigma1 e + Ch e f g + nth t' K 0 + W block t')
                mod 2 ^ 32 in
      let T2 := (Sigma0 a + Maj a b c) mod 2 ^ 32 in
      ((T1 + T2) mod 2 ^ 32, a, b, c, (d + T1) mod 2 ^ 32, e, f, g)
  end.

(** Step 4: the next hash value. *)
Definition next_hash (block : nat -> Z) (H : words) : words :=
  let '(a, b, c, d, e, f, g, h) := rounds block H 64 in
  let '(H_0, H_1, H_2, H_3, H_4, H_5, H_6, H_7) := H in
  ((a + H_0) mod 2 ^ 32, (b + H_1) mod 2 ^ 32, (c + H_2) mod 2 ^ 32,
   (d + H_3) mod 2 ^ 32, (e + H_4) mod 2 ^ 32, (f + H_5) mod 2 ^ 32,
   (g + H_6) mod 2 ^ 32, (h + H_7) mod 2 ^ 32).

(** The hash value after the first [i] blocks. *)
Fixpoint hash_value (padded : list Z) (i : nat) : words :=
  match i with
  | O => H0
  | S i' => next_hash (M padded i') (hash_value padded i')
  end.

(** The message digest: the eight words of the last hash value, 32 bytes. *)
Definition digest (msg : list Z) : list Z :=
  let '(H_0, H_1, H_2, H_3, H_4, H_5, H_6, H_7) :=
    hash_value (padding msg) (N (padding msg)) in
  flat_map (base256 4) [H_0; H_1; H_2; H_3; H_4; H_5; H_6; H_7].

(** [hexdigest]: two lower-case hexadecimal digits for each byte. *)
Definition hex_char (n : Z) : ascii :=
  ascii_of_nat (Z.to_nat (if (n <? 10)%Z then 48 + n else 87 + n)).

Definition hexdigest (s : string) : string :=
  string_of_list_ascii
    (flat_map (fun b => [hex_char (b / 16); hex_char (b mod 16)])
       (digest (map (fun c => Z.of_nat (nat_of_ascii c))
                    (list_ascii_of_string s)))).

End Fips180.

(** The chaining value of [Sha256] as the eight words of the standard. *)
Definition words_of (s : Sha256.state) : Fips180.words :=
  (Sha256.ha s, Sha256.hb s, Sha256.hc s, Sha256.hd s,
   Sha256.he s, Sha256.hf s, Sha256.hg s, Sha256.hh s).


(** ** [datetime.datetime.strptime(s, "%Y-%m-%d")]

    [_strptime] compiles the format to the regular expression
    [(?P<Y>\d\d\d\d)-(?P<m>1[0-2]|0[1-9]|[1-9])-(?P<d>3[0-1]|[1-2]\d|0[1-9]|[1-9]| [1-9])],
    matches it at the start of the string, raises [ValueError] when it does
    not match or when unconverted data remains after the match, and then
    builds the date, which raises [ValueError] for a day the month does not
    have or for year 0.  Alternatives are listed in the order the regular
    expression tries them.  [\d] is the ASCII digit here; the decimal digits
    of other scripts, which Python's [\d] also matches on [str], are not
    modelled. *)
Module Strptime.

Definition is_digit (c : ascii) : bool :=
  ((48 <=? nat_of_ascii c) && (nat_of_ascii c <=? 57))%nat.

Definition in_range (lo hi c : ascii) : bool :=
  ((nat_of_ascii lo <=? nat_of_ascii c)
   && (nat_of_ascii c <=? nat_of_ascii hi))%nat.

Definition digit_val (c : ascii) : Z := Z.of_nat (nat_of_ascii c) - 48.

(** [1[0-2] | 0[1-9] | [1-9]]: every way the month group can match a prefix
    of [s], as (value, rest). *)
Definition alt_month (s : string) : list (Z * string) :=
  (match s with
   | String a (String b r) =>
       if Ascii.eqb a "1" && in_range "0" "2" b
       then [(10 + digit_val b, r)] else []
   | _ => []
   end) ++
  (match s with
   | String a (String b r) =>
       if Ascii.eqb a "0" && in_range "1" "9" b
       then [(digit_val b, r)] else []
   | _ => []
   end) ++
  (match s with
   | String a r => if in_range "1" "9" a then [(digit_val a, r)] else []
   | _ => []
   end).

(** [3[0-1] | [1-2]\d | 0[1-9] | [1-9] | " "[1-9]]. *)
Definition alt_day (s : string) : list (Z * string) :=
  (match s with
   | String a (String b r) =>
       if Ascii.eqb a "3" && in_range "0" "1" b
       then [(30 + digit_val b, r)] else []
   | _ => []
   end) ++
  (match s with
   | String a (String b r) =>
       if in_range "1" "2" a && is_digit b
       then [(10 * digit_val a + digit_val b, r)] else []
   | _ => []
   end) ++
  (match s with
   | String a (String b r) =>
       if Ascii.eqb a "0" && in_range "1" "9" b
       then [(digit_val b, r)] else []
   | _ => []
   end) ++
  (match s with
   | String a r => if in_range "1" "9" a then [(digit_val a, r)] else []
   | _ => []
   end) ++
  (match s with
   | String a (String b r) =>
       if Ascii.eqb a " " && in_range "1" "9" b
       then [(digit_val b, r)] else []
   | _ => []
   end).

(** The first way the tail [-(?P<d>...)] matches after a month alternative:
    the day and what is left of the string. *)
Definition match_day (s : string) : option (Z * string) :=
  match s with
  | String c r => if Ascii.eqb c "-" then hd_error (alt_day r) else None
  | EmptyString => None
  end.

(** Backtracking over the month alternatives: the first one after which the
    rest of the expression matches. *)
Fixpoint match_month (alts : list (Z * string))
  : option (Z * Z * string) :=
  match alts with
  | [] => None
  | (m, r) :: alts' =>
      match match_day r with
      | Some (d, r') => Some (m, d, r')
      | None => match_month alts'
      end
  end.

(** [re.match]: year, month, day and the unconverted remainder. *)
Definition regex_match (s : string) : option (Z * Z * Z * string) :=
  match s with
  | String y1 (String y2 (String y3 (String y4 (String c r)))) =>
      if is_digit y1 && is_digit y2 && is_digit y3 && is_digit y4
         && Ascii.eqb c "-"
      then match match_month (alt_month r) with
           | Some (m, d, r') =>
               Some (1000 * digit_val y1 + 100 * digit_val y2
                     + 10 * digit_val y3 + digit_val y4, m, d, r')
           | None => None
           end
      else None
  | _ => None
  end.

Definition is_leap (y : Z) : bool :=
  ((y mod 4 =? 0) && (negb (y mod 100 =? 0) || (y mod 400 =? 0)))%Z.

Definition days_in_month (y m : Z) : Z :=
  match m with
  | 2 => if is_leap y then 29 else 28
  | 4 | 6 | 9 | 11 => 30
  | _ => 31
  end.

(** A [datetime.date]. *)
Record date : Type := mkDate { year : Z; month : Z; day : Z }.

(** [date(year, month, day)]: [None] stands for [ValueError]. *)
Definition make_date (y m d : Z) : option date :=
  if ((1 <=? y) && (y <=? 9999) && (1 <=? m) && (m <=? 12)
      && (1 <=? d) && (d <=? days_in_month y m))%Z
  then Some (mkDate y m d) else None.

(** [strptime(s, "%Y-%m-%d").date()]: [None] stands for [ValueError]. *)
Definition strptime (s : string) : option date :=
  match regex_match s with
  | Some (y, m, d, EmptyString) => make_date y m d
  | _ => None
  end.

Definition digit_char (n : Z) : ascii :=
  ascii_of_nat (Z.to_nat (48 + n mod 10)).

(** [date.isoformat()], ["%04d-%02d-%02d"]: what the [sqlite3] adapter binds
    for a [datetime.date] parameter. *)
Definition isoformat (d : date) : string :=
  String (digit_char (year d / 1000))
 (String (digit_char (year d / 100))
 (String (digit_char (year d / 10))
 (String (digit_char (year d))
 (String "-"
 (String (digit_char (month d / 10))
 (String (digit_char (month d))
 (String "-"
 (String (digit_char (day d / 10))
 (String (digit_char (day d)) ""))))))))).

End Strptime.

(** ** Pydantic models (lines 78-101) *)

Module UserLogin.
Record t : Type := mk { email : string; password : string }.
End UserLogin.

Module UserRegister.
Record t : Type := mk { email : string; password : string }.
End UserRegister.

Module Expense.
Record t : Type := mk
  { description : string; amount : float; category : string; date : string }.
End Expense.

(** [ExpenseInDB(Expense)]; a row of the [expenses] table has the same
    columns and is represented by the same record. *)
Module ExpenseInDB.
Record t : Type := mk
  { id : Z; description : string; amount : float; category : string;
    date : string }.
End ExpenseInDB.

Module Goal.
Record t : Type := mk
  { description : string; amount : float; progress : float }.
End Goal.

(** [GoalInDB(Goal)]; also a row of the [goals] table. *)
Module GoalInDB.
Record t : Type := mk
  { id : Z; description : string; amount : float; progress : float }.
End GoalInDB.

(** The JSON body of a goal request before validation: a field that is
    missing or [null] is [None].  All three fields of [Goal] are declared
    without a default, so validation rejects a body that lacks one. *)
Module RawGoal.
Record t : Type := mk
  { description : option string; amount : option float;
    progress : option float }.

Definition validate (raw : t) : option Goal.t :=
  match description raw, amount raw, progress raw with
  | Some d, Some a, Some p => Some (Goal.mk d a p)
  | _, _, _ => None
  end.
End RawGoal.

(** ** Responses *)

Inductive Result (A : Type) : Type :=
| Ok (body : A)
| HTTPException (status_code : Z) (detail : string)
| RequestValidationError
| Uncaught (exception : string).
Arguments Ok {A} body.
Arguments HTTPException {A} status_code detail.
Arguments RequestValidationError {A}.
Arguments Uncaught {A} exception.

(** [{"message": ...}] *)
Record Message : Type := mkMessage { message : string }.

(** One entry of the graph endpoint, [{"date": ..., "total": ...}]. *)
Record GraphPoint : Type := mkGraphPoint { gp_date : string; total : float }.

(** ** The database (lines 52-69)

    Three tables.  A table is the list of its rows in rowid order; for the
    two [AUTOINCREMENT] tables the state also holds the largest id ever
    handed out (the table's entry in [sqlite_sequence]). *)
Record DB : Type := mkDB
  { users : list (string * string);
    expenses : list ExpenseInDB.t;
    expenses_seq : Z;
    goals : list GoalInDB.t;
    goals_seq : Z }.

(** [init_db] on a fresh file. *)
Definition init_db : DB := mkDB [] [] 0 [] 0.

(** [cursor.lastrowid] after an insert into an [AUTOINCREMENT] table: one
    more than the largest id the table holds or has ever held. *)
Definition lastrowid (seq : Z) (ids : list Z) : Z :=
  Z.max seq (fold_right Z.max 0 ids) + 1.

(** Python truthiness of a [str] and of a [float]. *)
Definition truthy_str (s : string) : bool :=
  match s with EmptyString => false | String _ _ => true end.

Definition truthy_float (x : float) : bool := negb (PrimFloat.eqb x 0%float).

(** The values [sqlite3] can bind as a SQLite [INTEGER]. *)
Definition in_int64 (n : Z) : Prop := - 2 ^ 63 <= n < 2 ^ 63.

(** A [float] bound to a [REAL NOT NULL] column is refused when it is a NaN,
    which [sqlite3_bind_double] binds as [NULL]. *)
Definition binds_null (x : float) : bool := PrimFloat.is_nan x.

(** The string is ASCII: every character is below 128. *)
Definition is_ascii (s : string) : bool :=
  forallb (fun c => (nat_of_ascii c <? 128)%nat) (list_ascii_of_string s).

(** [str(n)] for an [int]. *)
Definition str_int (n : Z) : string := NilZero.string_of_int (Z.to_int n).

(** ** [register_user] (lines 108-120)

    [email] is the primary key of [users]: the insert raises
    [sqlite3.IntegrityError] when a row with that email exists. *)
Definition register_user (user : UserRegister.t) (db : DB)
  : Result Message * DB :=
  let hashed_password := hash_password (UserRegister.password user) in
  if existsb (fun r => String.eqb (fst r) (UserRegister.email user)) (users db)
  then (HTTPException 400 "Email already registered", db)
  else (Ok (mkMessage "User registered successfully"),
        mkDB (users db ++ [(UserRegister.email user, hashed_password)])
             (expenses db) (expenses_seq db) (goals db) (goals_seq db)).

(** ** [login_user] (lines 123-133) *)
Definition login_user (user : UserLogin.t) (db : DB) : Result Message * DB :=
  let record :=
    find (fun r => String.eqb (fst r) (UserLogin.email user)) (users db) in
  match record with
  | Some r =>
      if String.eqb (snd r) (hash_password (UserLogin.password user))
      then (Ok (mkMessage "Login successful"), db)
      else (HTTPException 401 "Invalid credentials", db)
  | None => (HTTPException 401 "Invalid credentials", db)
  end.

(** ** [ORDER BY date ASC]

    [date] is a [TEXT] column with the default [BINARY] collation: values
    compare byte by byte.  The rows are read in rowid order and sorted; rows
    with equal keys keep the order in which they were read. *)
Fixpoint insert_by_date (x : ExpenseInDB.t) (l : list ExpenseInDB.t)
  : list ExpenseInDB.t :=
  match l with
  | [] => [x]
  | y :: l' =>
      if String.leb (ExpenseInDB.date x) (ExpenseInDB.date y)
      then x :: y :: l'
      else y :: insert_by_date x l'
  end.

Definition order_by_date (rows : list ExpenseInDB.t) : list ExpenseInDB.t :=
  fold_right insert_by_date [] rows.

(** ** [defaultdict(float)] (lines 182-185)

    A [dict] iterates in the order in which its keys were first inserted, so
    it is an association list; [expense_data[k] += a] on a missing key starts
    from [float()], which is [0.0]. *)
Fixpoint dict_add (d : list (string * float)) (k : string) (a : float)
  : list (string * float) :=
  match d with
  | [] => [(k, (0 + a)%float)]
  | (k', v) :: d' =>
      if String.eqb k' k then (k', (v + a)%float) :: d'
      else (k', v) :: dict_add d' k a
  end.

(** [goal.progress if goal.progress is not None else existing_goal["progress"]]
    (line 235), on the value the test inspects: [None] is Python's [None]. *)
Definition merge_progress (incoming : option float) (existing : float)
  : float :=
  match incoming with
  | Some p => p
  | None => existing
  end.

(** ** The application

    [Claims] is the type of a decoded Firebase token and [verify_id_token]
    is [firebase_admin.auth.verify_id_token], an external service: [None]
    stands for any exception it raises. *)
Section App.

Variable Claims : Type.
Variable verify_id_token : string -> option Claims.

(** [verify_token] (lines 32-38). *)
Definition verify_token (token : string) : Result Claims :=
  match verify_id_token token with
  | Some decoded_token => Ok decoded_token
  | None => HTTPException 401 "Invalid or expired token"
  end.

(** [user=Depends(verify_token)]: FastAPI calls the dependency before the
    handler and passes its result as [user]; an exception raised by the
    dependency is the response and the handler is not called. *)
Definition Depends {A : Type} (dependency : Result Claims)
    (handler : Claims -> DB -> Result A * DB) (db : DB) : Result A * DB :=
  match dependency with
  | Ok user => handler user db
  | HTTPException status_code detail => (HTTPException status_code detail, db)
  | RequestValidationError => (RequestValidationError, db)
  | Uncaught exception => (Uncaught exception, db)
  end.

(** [protected_route] (lines 40-43): [{"message": ..., "user": user}]. *)
Definition protected_route (user : Claims) (db : DB)
  : Result (string * Claims) * DB :=
  (Ok ("Welcome to a protected route!", user), db).

(** [root] (lines 103-105). *)
Definition root (db : DB) : Result Message * DB :=
  (Ok (mkMessage "Welcome to PennyWise API"), db).

(** [add_expense] (lines 136-152).  The row holds [formatted_date] as the
    [sqlite3] adapter binds it; the response holds [expense.dict()], the
    submitted fields, and the new id.  The [INSERT] of line 147 is refused
    when the amount is a NaN. *)
Definition add_expense (expense : Expense.t) (user : Claims) (db : DB)
  : Result ExpenseInDB.t * DB :=
  match Strptime.strptime (Expense.date expense) with
  | None => (HTTPException 400 "Invalid date format. Use YYYY-MM-DD", db)
  | Some formatted_date =>
      if binds_null (Expense.amount expense)
      then (Uncaught "sqlite3.IntegrityError", db)
      else
      let expense_id :=
        lastrowid (expenses_seq db) (map ExpenseInDB.id (expenses db)) in
      (Ok (ExpenseInDB.mk expense_id (Expense.description expense)
             (Expense.amount expense) (Expense.category expense)
             (Expense.date expense)),
       mkDB (users db)
            (expenses db ++
             [ExpenseInDB.mk expense_id (Expense.description expense)
                (Expense.amount expense) (Expense.category expense)
                (Strptime.isoformat formatted_date)])
            expense_id (goals db) (goals_seq db))
  end.

(** [get_expenses] (lines 155-162). *)
Definition get_expenses (user : Claims) (db : DB)
  : Result (list ExpenseInDB.t) * DB :=
  let expenses := order_by_date (expenses db) in
  (Ok (map (fun expense =>
              ExpenseInDB.mk (ExpenseInDB.id expense)
                (ExpenseInDB.description expense) (ExpenseInDB.amount expense)
                (ExpenseInDB.category expense) (ExpenseInDB.date expense))
           expenses),
   db).

(** [delete_expense] (lines 165-172), for an id [sqlite3] can bind
    ([in_int64]). *)
Definition delete_expense (expense_id : Z) (user : Claims) (db : DB)
  : Result Message * DB :=
  (Ok (mkMessage
         ("Expense " ++ str_int expense_id ++ " deleted successfully")%string),
   mkDB (users db)
        (filter (fun row => negb (ExpenseInDB.id row =? expense_id)%Z)
                (expenses db))
        (expenses_seq db) (goals db) (goals_seq db)).

(** [get_expenses_graph] (lines 175-186). *)
Definition get_expenses_graph (user : Claims) (db : DB)
  : Result (list GraphPoint) * DB :=
  let expenses := order_by_date (expenses db) in
  let expense_data :=
    fold_left (fun d expense =>
                 dict_add d (ExpenseInDB.date expense)
                            (ExpenseInDB.amount expense))
              expenses [] in
  let formatted_data :=
    map (fun item => mkGraphPoint (fst item) (snd item)) expense_data in
  (Ok formatted_data, db).

(** [create_goal] (lines 189-203).  The [INSERT] of line 194 is refused when
    the amount or the progress is a NaN. *)
Definition create_goal (goal : Goal.t) (user : Claims) (db : DB)
  : Result GoalInDB.t * DB :=
  if binds_null (Goal.amount goal) || binds_null (Goal.progress goal)
  then (Uncaught "sqlite3.IntegrityError", db)
  else
  let goal_id := lastrowid (goals_seq db) (map GoalInDB.id (goals db)) in
  (Ok (GoalInDB.mk goal_id (Goal.description goal) (Goal.amount goal)
         (Goal.progress goal)),
   mkDB (users db) (expenses db) (expenses_seq db)
        (goals db ++
         [GoalInDB.mk goal_id (Goal.description goal) (Goal.amount goal)
            (Goal.progress goal)])
        goal_id).

(** [get_goals] (lines 206-217). *)
Definition get_goals (user : Claims) (db : DB)
  : Result (list GoalInDB.t) * DB :=
  (Ok (map (fun row =>
              GoalInDB.mk (GoalInDB.id row) (GoalInDB.description row)
                (GoalInDB.amount row) (GoalInDB.progress row))
           (goals db)),
   db).

(** [update_goal] (lines 220-245), for an id [sqlite3] can bind
    ([in_int64]).  The [UPDATE] of line 237 is refused when the merged amount
    or the progress is a NaN. *)
Definition update_goal (goal_id : Z) (goal : Goal.t) (user : Claims) (db : DB)
  : Result GoalInDB.t * DB :=
  match find (fun row => (GoalInDB.id row =? goal_id)%Z) (goals db) with
  | None => (HTTPException 404 "Goal not found", db)
  | Some existing_goal =>
      let updated_description :=
        if truthy_str (Goal.description goal) then Goal.description goal
        else GoalInDB.description existing_goal in
      let updated_amount :=
        if truthy_float (Goal.amount goal) then Goal.amount goal
        else GoalInDB.amount existing_goal in
      let updated_progress :=
        merge_progress (Some (Goal.progress goal))
                       (GoalInDB.progress existing_goal) in
      if binds_null updated_amount || binds_null updated_progress
      then (Uncaught "sqlite3.IntegrityError", db)
      else
      (Ok (GoalInDB.mk goal_id updated_description updated_amount
             updated_progress),
       mkDB (users db) (expenses db) (expenses_seq db)
            (map (fun row =>
                    if (GoalInDB.id row =? goal_id)%Z
                    then GoalInDB.mk (GoalInDB.id row) updated_description
                           updated_amount updated_progress
                    else row)
                 (goals db))
            (goals_seq db))
  end.

(** [delete_goal] (lines 248-261), for an id [sqlite3] can bind
    ([in_int64]); [cursor.rowcount] is the number of rows the [DELETE]
    removed. *)
Definition delete_goal (goal_id : Z) (user : Claims) (db : DB)
  : Result Message * DB :=
  let rowcount :=
    List.length
      (filter (fun row => (GoalInDB.id row =? goal_id)%Z) (goals db)) in
  if (rowcount =? 0)%nat
  then (HTTPException 404 "Goal not found", db)
  else (Ok (mkMessage "Goal deleted successfully"),
        mkDB (users db) (expenses db) (expenses_seq db)
             (filter (fun row => negb (GoalInDB.id row =? goal_id)%Z)
                     (goals db))
             (goals_seq db)).

(** ** Routing

    A request as the application receives it: the route, the token supplied
    to [verify_token] on the routes that depend on it, the path parameter
    and the body. *)
Inductive Request : Type :=
| GET_root
| POST_register (user : UserRegister.t)
| POST_login (user : UserLogin.t)
| GET_protected (token : string)
| POST_expenses (token : string) (expense : Expense.t)
| GET_expenses (token : string)
| DELETE_expenses (token : string) (expense_id : Z)
| GET_expenses_graph (token : string)
| POST_goals (token : string) (goal : RawGoal.t)
| GET_goals (token : string)
| PATCH_goals (token : string) (goal_id : Z) (goal : RawGoal.t)
| DELETE_goals (token : string) (goal_id : Z).

Inductive Body : Type :=
| MessageBody (m : Message)
| ProtectedBody (msg : string) (user : Claims)
| ExpenseBody (e : ExpenseInDB.t)
| ExpensesBody (l : list ExpenseInDB.t)
| GraphBody (l : list GraphPoint)
| GoalBody (g : GoalInDB.t)
| GoalsBody (l : list GoalInDB.t).

Definition respond {A : Type} (f : A -> Body) (r : Result A * DB)
  : Result Body * DB :=
  match fst r with
  | Ok body => (Ok (f body), snd r)
  | HTTPException status_code detail =>
      (HTTPException status_code detail, snd r)
  | RequestValidationError => (RequestValidationError, snd r)
  | Uncaught exception => (Uncaught exception, snd r)
  end.

(** A handler with a [goal: Goal] body parameter runs on the validated
    model; a body that fails validation is answered by FastAPI. *)
Definition with_goal {A : Type} (raw : RawGoal.t)
    (handler : Goal.t -> Claims -> DB -> Result A * DB)
    (user : Claims) (db : DB) : Result A * DB :=
  match RawGoal.validate raw with
  | Some goal => handler goal user db
  | None => (RequestValidationError, db)
  end.

(** The request is gated when its route declares [Depends(verify_token)]. *)
Definition token_of (req : Request) : option string :=
  match req with
  | GET_root | POST_register _ | POST_login _ => None
  | GET_protected token | POST_expenses token _ | GET_expenses token
  | DELETE_expenses token _ | GET_expenses_graph token
  | POST_goals token _ | GET_goals token | PATCH_goals token _ _
  | DELETE_goals token _ => Some token
  end.

Definition handle (req : Request) (db : DB) : Result Body * DB :=
  match req with
  | GET_root => respond MessageBody (root db)
  | POST_register user => respond MessageBody (register_user user db)
  | POST_login user => respond MessageBody (login_user user db)
  | GET_protected token =>
      respond (fun b => ProtectedBody (fst b) (snd b))
              (Depends (verify_token token) protected_route db)
  | POST_expenses token expense =>
      respond ExpenseBody
              (Depends (verify_token token) (add_expense expense) db)
  | GET_expenses token =>
      respond ExpensesBody (Depends (verify_token token) get_expenses db)
  | DELETE_expenses token expense_id =>
      respond MessageBody
              (Depends (verify_token token) (delete_expense expense_id) db)
  | GET_expenses_graph token =>
      respond GraphBody (Depends (verify_token token) get_expenses_graph db)
  | POST_goals token goal =>
      respond GoalBody
              (Depends (verify_token token) (with_goal goal create_goal) db)
  | GET_goals token =>
      respond GoalsBody (Depends (verify_token token) get_goals db)
  | PATCH_goals token goal_id goal =>
      respond GoalBody
              (Depends (verify_token token)
                       (with_goal goal (update_goal goal_id)) db)
  | DELETE_goals token goal_id =>
      respond MessageBody
              (Depends (verify_token token) (delete_goal goal_id) db)
  end.

End App.

Arguments verify_token {Claims} verify_id_token token.
Arguments Depends {Claims A} dependency handler db.
Arguments protected_route {Claims} user db.
Arguments add_expense {Claims} expense user db.
Arguments get_expenses {Claims} user db.
Arguments delete_expense {Claims} expense_id user db.
Arguments get_expenses_graph {Claims} user db.
Arguments create_goal {Claims} goal user db.
Arguments get_goals {Claims} user db.
Arguments update_goal {Claims} goal_id goal user db.
Arguments delete_goal {Claims} goal_id user db.
Arguments with_goal {Claims A} raw handler user db.
Arguments respond {Claims A} f r.
Arguments handle {Claims} verify_id_token req db.
Arguments MessageBody {Claims} m.
Arguments ProtectedBody {Claims} msg user.
Arguments ExpenseBody {Claims} e.
Arguments ExpensesBody {Claims} l.
Arguments GraphBody {Claims} l.
Arguments GoalBody {Claims} g.
Arguments GoalsBody {Claims} l.

(** The states the service can be in: what a sequence of requests makes of
    the freshly initialised database. *)
Inductive reachable {Claims : Type} (verify_id_token : string -> option Claims)
  : DB -> Prop :=
| reachable_init : reachable verify_id_token init_db
| reachable_step (db : DB) (req : Request) :
    reachable verify_id_token db ->
    reachable verify_id_token (snd (handle verify_id_token req db)).

(** ** Vocabulary of the statements *)

(** [x] does not come after [y] in the byte order of their dates. *)
Definition date_le (x y : ExpenseInDB.t) : Prop :=
  String.leb (ExpenseInDB.date x) (ExpenseInDB.date y) = true.

(** The row's date is exactly [d]. *)
Definition has_date (d : string) (row : ExpenseInDB.t) : bool :=
  String.eqb (ExpenseInDB.date row) d.

Definition expense_id_lt (x y : ExpenseInDB.t) : Prop :=
  ExpenseInDB.id x < ExpenseInDB.id y.

Definition goal_id_lt (x y : GoalInDB.t) : Prop :=
  GoalInDB.id x < GoalInDB.id y.

(** What the schema and [AUTOINCREMENT] maintain: ids grow along each table
    and no email occurs twice. *)
Definition db_ok (db : DB) : Prop :=
  StronglySorted expense_id_lt (expenses db)
  /\ StronglySorted goal_id_lt (goals db)
  /\ NoDup (map fst (users db)).

(** [SELECT ... WHERE id = ?] followed by [fetchone()]. *)
Definition lookup_goal (goal_id : Z) (db : DB) : option GoalInDB.t :=
  find (fun row => (GoalInDB.id row =? goal_id)%Z) (goals db).

(** [SELECT password FROM users WHERE email = ?] followed by [fetchone()]. *)
Definition lookup_password (email : string) (db : DB) : option string :=
  option_map snd (find (fun r => String.eqb (fst r) email) (users db)).

(** Left-to-right floating-point sum starting from [0.0]. *)
Definition float_sum (l : list float) : float :=
  fold_left PrimFloat.add l 0%float.

(** [expense_data[k]] for a key that is present. *)
Definition dict_get (d : list (string * float)) (k : string) : option float :=
  option_map snd (find (fun kv => String.eqb (fst kv) k) d).

(** The loop of lines 183-184 from a dictionary [d]. *)
Definition accumulate (rows : list ExpenseInDB.t) (d : list (string * float))
  : list (string * float) :=
  fold_left (fun d expense =>
               dict_add d (ExpenseInDB.date expense)
                          (ExpenseInDB.amount expense))
            rows d.

Definition date_lt (d1 d2 : string) : Prop := String.ltb d1 d2 = true.

(** What a gated route runs once [verify_token] has returned [user]: the
    handler on the right of [Depends] in [handle]. *)
Definition endpoint {Claims : Type} (req : Request) (user : Claims) (db : DB)
  : Result (Body Claims) * DB :=
  match req with
  | GET_root => respond MessageBody (root db)
  | POST_register u => respond MessageBody (register_user u db)
  | POST_login u => respond MessageBody (login_user u db)
  | GET_protected _ =>
      respond (fun b => ProtectedBody (fst b) (snd b)) (protected_route user db)
  | POST_expenses _ expense => respond ExpenseBody (add_expense expense user db)
  | GET_expenses _ => respond ExpensesBody (get_expenses user db)
  | DELETE_expenses _ expense_id =>
      respond MessageBody (delete_expense expense_id user db)
  | GET_expenses_graph _ => respond GraphBody (get_expenses_graph user db)
  | POST_goals _ goal => respond GoalBody (with_goal goal create_goal user db)
  | GET_goals _ => respond GoalsBody (get_goals user db)
  | PATCH_goals _ goal_id goal =>
      respond GoalBody (with_goal goal (update_goal goal_id) user db)
  | DELETE_goals _ goal_id => respond MessageBody (delete_goal goal_id user db)
  end.

(** The string is accepted by [strptime(s, "%Y-%m-%d")]. *)
Definition parses_as_date (s : string) : Prop :=
  exists d, Strptime.strptime s = Some d.

(** A store with the goal of the update example. *)
Definition db_save : DB :=
  mkDB [] [] 0 [GoalInDB.mk 1 "Save" 100 50] 1.

(** A verifier that accepts the token ["valid"] only. *)
Definition demo_verify (token : string) : option string :=
  if String.eqb token "valid" then Some "uid-1" else None.

(** A store with one expense. *)
Definition db_lunch : DB :=
  mkDB [] [ExpenseInDB.mk 1 "lunch" 12 "food" "2024-03-05"] 1 [] 0.

(** A date of the calendar, as [datetime.date] accepts it. *)
Definition valid_date (d : Strptime.date) : Prop :=
  1 <= Strptime.year d <= 9999
  /\ 1 <= Strptime.month d <= 12
  /\ 1 <= Strptime.day d
     <= Strptime.days_in_month (Strptime.year d) (Strptime.month d).

(** The month and day part of an ISO date, ["-MM-DD"] without the first
    dash. *)
Definition iso_month_day (m d : Z) : string :=
  String (Strptime.digit_char (m / 10))
 (String (Strptime.digit_char m)
 (String "-"
 (String (Strptime.digit_char (d / 10))
 (String (Strptime.digit_char d) "")))).

(** The expression reads ["MM-DD"] back as month [m] and day [d] with
    nothing left over. *)
Definition reads_month_day (m d : Z) : bool :=
  match Strptime.match_month (Strptime.alt_month (iso_month_day m d)) with
  | Some (m', d', EmptyString) => (m' =? m)%Z && (d' =? d)%Z
  | _ => false
  end.

(** The three expenses of the graph example. *)
Definition db_three : DB :=
  mkDB []
       [ExpenseInDB.mk 1 "a" 10 "food" "2024-01-01";
        ExpenseInDB.mk 2 "b" 5 "food" "2024-01-01";
        ExpenseInDB.mk 3 "c" 2 "rent" "2024-01-02"] 3 [] 0.

(** A store with one registered user. *)
Definition db_alice : DB :=
  snd (register_user (UserRegister.mk "alice@example.org" "s3cret") init_db).

(** ** Vocabulary of the further statements *)

(** The store after a sequence of requests, served in order. *)
Definition run {Claims : Type} (verify_id_token : string -> option Claims)
    (reqs : list Request) (db : DB) : DB :=
  fold_left (fun db req => snd (handle verify_id_token req db)) reqs db.

(** The routes whose handler issues no [INSERT], [UPDATE] or [DELETE]. *)
Definition read_only (req : Request) : bool :=
  match req with
  | GET_root | POST_login _ | GET_protected _ | GET_expenses _
  | GET_expenses_graph _ | GET_goals _ => true
  | POST_register _ | POST_expenses _ _ | DELETE_expenses _ _
  | POST_goals _ _ | PATCH_goals _ _ _ | DELETE_goals _ _ => false
  end.

(** The routes that write to the [users], [expenses] and [goals] table. *)
Definition writes_users (req : Request) : bool :=
  match req with POST_register _ => true | _ => false end.

Definition writes_expenses (req : Request) : bool :=
  match req with
  | POST_expenses _ _ | DELETE_expenses _ _ => true
  | _ => false
  end.

Definition writes_goals (req : Request) : bool :=
  match req with
  | POST_goals _ _ | PATCH_goals _ _ _ | DELETE_goals _ _ => true
  | _ => false
  end.

(** [a] is the same day as [b] or an earlier one. *)
Definition date_before_eq (a b : Strptime.date) : Prop :=
  Strptime.year a < Strptime.year b
  \/ (Strptime.year a = Strptime.year b
      /\ (Strptime.month a < Strptime.month b
          \/ (Strptime.month a = Strptime.month b
              /\ Strptime.day a <= Strptime.day b))).

(** The string is a date of the calendar written as [YYYY-MM-DD]. *)
Definition iso_date (s : string) : Prop :=
  exists d, valid_date d /\ s = Strptime.isoformat d.

(** The dates of the two rows parse, and the first is not after the
    second. *)
Definition chronological (x y : ExpenseInDB.t) : Prop :=
  exists a b,
    Strptime.strptime (ExpenseInDB.date x) = Some a
    /\ Strptime.strptime (ExpenseInDB.date y) = Some b
    /\ date_before_eq a b.

(** A verifier that accepts every token as the given user, and one that
    accepts none. *)
Definition accept_all {Claims : Type} (user : Claims) (token : string)
  : option Claims := Some user.

Definition reject_all {Claims : Type} (token : string) : option Claims := None.

(** Every stored id lies between 1 and the table's id counter. *)
Definition ids_in_range (db : DB) : Prop :=
  Forall (fun e => 1 <= ExpenseInDB.id e <= expenses_seq db) (expenses db)
  /\ Forall (fun g => 1 <= GoalInDB.id g <= goals_seq db) (goals db).

(** Every stored expense carries a date of the calendar in ISO form. *)
Definition dates_iso (db : DB) : Prop :=
  Forall (fun e => iso_date (ExpenseInDB.date e)) (expenses db).

(** Every [REAL NOT NULL] column holds a number. *)
Definition no_nan (db : DB) : Prop :=
  Forall (fun e => PrimFloat.is_nan (ExpenseInDB.amount e) = false)
         (expenses db)
  /\ Forall (fun g => PrimFloat.is_nan (GoalInDB.amount g) = false
                      /\ PrimFloat.is_nan (GoalInDB.progress g) = false)
            (goals db).

(** A short session: a registration, two expenses added out of order, one of
    them with an unpadded date, a goal, and a deletion with a bad token. *)
Definition session : list Request :=
  [POST_register (UserRegister.mk "alice@example.org" "s3cret");
   POST_expenses "valid" (Expense.mk "tea" 3 "food" "2024-3-6");
   POST_expenses "valid" (Expense.mk "rent" 700 "home" "2024-03-01");
   POST_goals "valid" (RawGoal.mk (Some "Save") (Some 100%float)
                                  (Some 50%float));
   DELETE_expenses "expired" 1].

Definition db_session : DB := run demo_verify session init_db.

(** The total the graph endpoint reports for the date [d], if it reports
    one. *)
Definition graph_total {Claims : Type} (user : Claims) (db : DB) (d : string)
  : option float :=
  match fst (get_expenses_graph user db) with
  | Ok pts =>
      option_map total (find (fun p => String.eqb (gp_date p) d) pts)
  | _ => None
  end.

(** ** The spellings of a date that the format [%Y-%m-%d] accepts

    Written from the words of the format, not from the parser: four digits
    for the year; two digits for the month, or one when the month has one;
    two digits for the day, or one when the day has one, alone or after a
    space. *)
Definition one_digit (n : Z) : string := String (Strptime.digit_char n) "".

Definition two_digits (n : Z) : string :=
  String (Strptime.digit_char (n / 10)) (one_digit n).

Definition four_digits (n : Z) : string :=
  String (Strptime.digit_char (n / 1000))
         (String (Strptime.digit_char (n / 100)) (two_digits n)).

Definition month_texts (m : Z) : list string :=
  two_digits m :: (if (m <? 10)%Z then [one_digit m] else []).

Definition day_texts (d : Z) : list string :=
  two_digits d
  :: (if (d <? 10)%Z then [one_digit d; String " " (one_digit d)] else []).

Definition month_day_texts (m d : Z) : list string :=
  flat_map (fun mt => map (fun dt => (mt ++ "-" ++ dt)%string) (day_texts d))
           (month_texts m).

Definition spellings (d : Strptime.date) : list string :=
  map (fun md => (four_digits (Strptime.year d) ++ "-" ++ md)%string)
      (month_day_texts (Strptime.month d) (Strptime.day d)).

(** [s] is one of the accepted spellings of the calendar date [d]. *)
Definition written_as (s : string) (d : Strptime.date) : Prop :=
  valid_date d /\ In s (spellings d).

(** [s] is an accepted spelling of some calendar date. *)
Definition well_written (s : string) : Prop := exists d, written_as s d.

(** The expression reads every spelling of month [m] and day [d] back as
    [m] and [d] with nothing left over. *)
Definition reads_texts (m d : Z) : bool :=
  forallb (fun md =>
             match Strptime.match_month (Strptime.alt_month md) with
             | Some (m', d', EmptyString) => (m' =? m)%Z && (d' =? d)%Z
             | _ => false
             end)
          (month_day_texts m d).

(** The characters from [lo] to [hi]. *)
Definition chars_between (lo hi : ascii) : list ascii :=
  map ascii_of_nat
      (seq (nat_of_ascii lo) (nat_of_ascii hi - nat_of_ascii lo + 1)).

(** * Properties *)

(** ** The byte order on strings *)
Section StringOrder.

Lemma ascii_compare_refl (a : ascii) : Ascii.compare a a = Eq.
Proof. unfold Ascii.compare. apply N.compare_refl. Qed.

Lemma ascii_compare_lt_trans (a b c : ascii) :
  Ascii.compare a b = Lt -> Ascii.compare b c = Lt -> Ascii.compare a c = Lt.
Proof.
  unfold Ascii.compare. rewrite !N.compare_lt_iff. apply N.lt_trans.
Qed.

Lemma string_compare_refl (s : string) : String.compare s s = Eq.
Proof.
  induction s as [|a s IH]; simpl; [reflexivity|].
  now rewrite ascii_compare_refl.
Qed.

Lemma string_compare_lt_trans (s1 : string) :
  forall s2 s3, String.compare s1 s2 = Lt -> String.compare s2 s3 = Lt ->
                String.compare s1 s3 = Lt.
Proof.
  induction s1 as [|a s1 IH]; intros [|b s2] [|c s3]; simpl;
    try discriminate; try reflexivity.
  destruct (Ascii.compare a b) eqn:Hab; try discriminate;
    destruct (Ascii.compare b c) eqn:Hbc; try discriminate; intros H1 H2.
  - apply Ascii.compare_eq_iff in Hab, Hbc. subst.
    rewrite ascii_compare_refl. eauto.
  - apply Ascii.compare_eq_iff in Hab. subst. now rewrite Hbc.
  - apply Ascii.compare_eq_iff in Hbc. subst. now rewrite Hab.
  - now rewrite (ascii_compare_lt_trans a b c).
Qed.

Lemma leb_refl (s : string) : String.leb s s = true.
Proof. unfold String.leb. now rewrite string_compare_refl. Qed.

Lemma leb_trans (s1 s2 s3 : string) :
  String.leb s1 s2 = true -> String.leb s2 s3 = true ->
  String.leb s1 s3 = true.
Proof.
  unfold String.leb.
  destruct (String.compare s1 s2) eqn:H12; try discriminate;
    destruct (String.compare s2 s3) eqn:H23; try discriminate; intros _ _.
  - apply String.compare_eq_iff in H12, H23. subst.
    now rewrite string_compare_refl.
  - apply String.compare_eq_iff in H12. subst. now rewrite H23.
  - apply String.compare_eq_iff in H23. subst. now rewrite H12.
  - now rewrite (string_compare_lt_trans s1 s2 s3).
Qed.

Lemma leb_false_leb (s1 s2 : string) :
  String.leb s1 s2 = false -> String.leb s2 s1 = true.
Proof.
  intros H. destruct (String.leb_total s1 s2) as [H'|H']; congruence.
Qed.

Lemma ltb_leb_neq (s1 s2 : string) :
  String.ltb s1 s2 = true <-> String.leb s1 s2 = true /\ s1 <> s2.
Proof.
  unfold String.ltb, String.leb.
  destruct (String.compare s1 s2) eqn:H; split; try (intros [? ?]);
    try discriminate; try tauto.
  - apply String.compare_eq_iff in H. contradiction.
  - intros _. split; [reflexivity|]. intros ->.
    rewrite string_compare_refl in H. discriminate.
Qed.

End StringOrder.

(** ** [ORDER BY date ASC] sorts, keeps every row and is stable *)
Section OrderBy.

Lemma insert_by_date_perm (x : ExpenseInDB.t) (l : list ExpenseInDB.t) :
  Permutation (x :: l) (insert_by_date x l).
Proof.
  induction l as [|y l IH]; simpl; [reflexivity|].
  destruct (String.leb _ _); [reflexivity|].
  rewrite perm_swap. now constructor.
Qed.

Lemma order_by_date_perm (rows : list ExpenseInDB.t) :
  Permutation rows (order_by_date rows).
Proof.
  induction rows as [|x rows IH]; simpl; [constructor|].
  rewrite <- insert_by_date_perm. now constructor.
Qed.

Lemma insert_by_date_Forall (P : ExpenseInDB.t -> Prop) x l :
  P x -> Forall P l -> Forall P (insert_by_date x l).
Proof.
  intros Hx Hl. induction Hl as [|y l Hy Hl IH]; simpl.
  - now repeat constructor.
  - destruct (String.leb _ _); repeat constructor; assumption.
Qed.

Lemma insert_by_date_sorted x l :
  StronglySorted date_le l -> StronglySorted date_le (insert_by_date x l).
Proof.
  induction 1 as [|y l Hs IH Hy]; simpl.
  - repeat constructor.
  - destruct (String.leb _ _) eqn:Hle.
    + constructor; [now constructor|].
      constructor; [exact Hle|].
      eapply Forall_impl; [|exact Hy].
      intros z Hz. eapply leb_trans; [exact Hle|exact Hz].
    + constructor; [exact IH|].
      apply insert_by_date_Forall; [|exact Hy].
      now apply leb_false_leb.
Qed.

Lemma order_by_date_sorted (rows : list ExpenseInDB.t) :
  StronglySorted date_le (order_by_date rows).
Proof.
  induction rows as [|x rows IH]; simpl; [constructor|].
  now apply insert_by_date_sorted.
Qed.

(** Inserting [x] into a sorted list puts it in front of the rows that have
    its date. *)
Lemma insert_by_date_filter d x l :
  StronglySorted date_le l ->
  filter (has_date d) (insert_by_date x l) = filter (has_date d) (x :: l).
Proof.
  induction 1 as [|y l Hs IH Hy]; [reflexivity|].
  cbn [insert_by_date].
  destruct (String.leb _ _) eqn:Hle; [reflexivity|].
  cbn [filter] in *. rewrite IH.
  destruct (has_date d x) eqn:Hx, (has_date d y) eqn:Hy'; try reflexivity.
  unfold has_date in Hx, Hy'. apply String.eqb_eq in Hx, Hy'.
  rewrite Hx, Hy', leb_refl in Hle. discriminate.
Qed.

Lemma order_by_date_stable d (rows : list ExpenseInDB.t) :
  filter (has_date d) (order_by_date rows) = filter (has_date d) rows.
Proof.
  induction rows as [|x rows IH]; [reflexivity|].
  cbn [order_by_date fold_right].
  rewrite insert_by_date_filter by apply order_by_date_sorted.
  cbn [filter]. fold (order_by_date rows). now rewrite IH.
Qed.

End OrderBy.

(** ** The invariant of the store *)
Section Invariant.

Lemma fold_max_ge (ids : list Z) :
  Forall (fun i => i <= fold_right Z.max 0 ids) ids.
Proof.
  induction ids as [|i ids IH]; constructor; simpl; [lia|].
  eapply Forall_impl; [|exact IH]. intros; simpl in *; lia.
Qed.

Lemma lastrowid_fresh (seq : Z) (ids : list Z) :
  Forall (fun i => i < lastrowid seq ids) ids.
Proof.
  eapply Forall_impl; [|apply fold_max_ge].
  unfold lastrowid. intros; simpl in *; lia.
Qed.

Lemma lastrowid_not_in (seq : Z) (ids : list Z) :
  ~ In (lastrowid seq ids) ids.
Proof.
  intros H. pose proof (lastrowid_fresh seq ids) as F.
  rewrite Forall_forall in F. specialize (F _ H). lia.
Qed.

Lemma sorted_snoc {A : Type} (R : A -> A -> Prop) (l : list A) (x : A) :
  StronglySorted R l -> Forall (fun y => R y x) l ->
  StronglySorted R (l ++ [x]).
Proof.
  induction 1 as [|y l Hs IH Hy]; intros F; simpl.
  - repeat constructor.
  - inversion F; subst. constructor; [now apply IH|].
    apply Forall_app. split; [exact Hy|]. now repeat constructor.
Qed.

Lemma sorted_filter {A : Type} (R : A -> A -> Prop) (f : A -> bool) l :
  StronglySorted R l -> StronglySorted R (filter f l).
Proof.
  induction 1 as [|y l Hs IH Hy]; simpl; [constructor|].
  destruct (f y); [|exact IH].
  constructor; [exact IH|].
  rewrite Forall_forall in *. intros z Hz.
  apply filter_In in Hz. now apply Hy.
Qed.

Lemma existsb_email_In (email : string) (rows : list (string * string)) :
  existsb (fun r => String.eqb (fst r) email) rows = true
  <-> In email (map fst rows).
Proof.
  rewrite existsb_exists, in_map_iff. split.
  - intros (r & Hr & He). apply String.eqb_eq in He. eauto.
  - intros (r & He & Hr). exists r. split; [exact Hr|].
    now apply String.eqb_eq.
Qed.

Lemma db_ok_init : db_ok init_db.
Proof. repeat split; constructor. Qed.

Lemma db_ok_register (user : UserRegister.t) (db : DB) :
  db_ok db -> db_ok (snd (register_user user db)).
Proof.
  intros (He & Hg & Hu). unfold register_user.
  destruct (existsb _ _) eqn:Hex; repeat split; simpl; auto.
  rewrite map_app. simpl.
  assert (Hn : ~ In (UserRegister.email user) (map fst (users db))).
  { rewrite <- existsb_email_In. congruence. }
  clear Hex. induction Hu as [|e l Hne Hu IH]; simpl.
  - repeat constructor. auto.
  - constructor.
    + rewrite in_app_iff. simpl in *. intuition congruence.
    + apply IH. simpl in Hn. tauto.
Qed.

Lemma db_ok_add_expense {Claims : Type} expense (user : Claims) (db : DB) :
  db_ok db -> db_ok (snd (add_expense expense user db)).
Proof.
  intros (He & Hg & Hu). unfold add_expense.
  destruct (Strptime.strptime _); [destruct (binds_null _)|];
    repeat split; simpl; auto.
  apply sorted_snoc; [exact He|].
  pose proof (lastrowid_fresh (expenses_seq db)
                (map ExpenseInDB.id (expenses db))) as F.
  rewrite Forall_map in F. exact F.
Qed.

Lemma db_ok_create_goal {Claims : Type} goal (user : Claims) (db : DB) :
  db_ok db -> db_ok (snd (create_goal goal user db)).
Proof.
  intros (He & Hg & Hu). unfold create_goal.
  destruct (_ || _); repeat split; simpl; auto.
  apply sorted_snoc; [exact Hg|].
  pose proof (lastrowid_fresh (goals_seq db)
                (map GoalInDB.id (goals db))) as F.
  rewrite Forall_map in F. exact F.
Qed.

Lemma db_ok_update_goal {Claims : Type} goal_id goal (user : Claims) db :
  db_ok db -> db_ok (snd (update_goal goal_id goal user db)).
Proof.
  intros (He & Hg & Hu). unfold update_goal.
  destruct (find _ _); [destruct (_ || _)|]; repeat split; simpl; auto.
  unfold goal_id_lt in *.
  match goal with |- StronglySorted _ (map ?f _) => set (g := f) end.
  assert (Hg' : forall row, GoalInDB.id (g row) = GoalInDB.id row).
  { intros row. unfold g. now destruct (_ =? _)%Z. }
  clearbody g. induction Hg as [|y l Hs IH Hy]; simpl; constructor; auto.
  rewrite Forall_forall in *. intros z Hz.
  apply in_map_iff in Hz. destruct Hz as (z' & <- & Hz').
  rewrite !Hg'. auto.
Qed.

Lemma db_ok_handle {Claims : Type} (verify_id_token : string -> option Claims)
    (req : Request) (db : DB) :
  db_ok db -> db_ok (snd (handle verify_id_token req db)).
Proof.
  intros Hok.
  assert (Hresp : forall A (f : A -> Body Claims) (r : Result A * DB),
             snd (respond f r) = snd r).
  { intros A f [[b|c d| |e] db']; reflexivity. }
  assert (Hdep : forall A (h : Claims -> DB -> Result A * DB) token,
             (forall user, db_ok (snd (h user db))) ->
             db_ok (snd (Depends (verify_token verify_id_token token) h db))).
  { intros A h token Hh. unfold Depends, verify_token.
    destruct (verify_id_token token); simpl; auto. }
  assert (Hwith : forall A raw (h : Goal.t -> Claims -> DB -> Result A * DB),
             (forall goal user, db_ok (snd (h goal user db))) ->
             forall user, db_ok (snd (with_goal raw h user db))).
  { intros A raw h Hh user. unfold with_goal.
    destruct (RawGoal.validate raw); simpl; auto. }
  destruct req; cbn [handle]; rewrite Hresp.
  - exact Hok.
  - now apply db_ok_register.
  - unfold login_user. destruct (find _ _) as [r|]; [|exact Hok].
    destruct (String.eqb _ _); exact Hok.
  - apply Hdep. intros; exact Hok.
  - apply Hdep. intros. now apply db_ok_add_expense.
  - apply Hdep. intros; exact Hok.
  - apply Hdep. intros. destruct Hok as (He & Hg & Hu).
    repeat split; simpl; auto. now apply sorted_filter.
  - apply Hdep. intros; exact Hok.
  - apply Hdep. apply Hwith. intros. now apply db_ok_create_goal.
  - apply Hdep. intros; exact Hok.
  - apply Hdep. apply Hwith. intros. now apply db_ok_update_goal.
  - apply Hdep. intros. destruct Hok as (He & Hg & Hu). unfold delete_goal.
    destruct (_ =? _)%nat; repeat split; simpl; auto.
    now apply sorted_filter.
Qed.

(** Every state the service reaches satisfies the invariant. *)
Lemma reachable_db_ok {Claims : Type}
    (verify_id_token : string -> option Claims) (db : DB) :
  reachable verify_id_token db -> db_ok db.
Proof.
  induction 1 as [|db req Hr IH].
  - apply db_ok_init.
  - now apply db_ok_handle.
Qed.

End Invariant.

(** ** The accumulation of the graph endpoint *)
Section Graph.

Lemma dict_add_keys d k a :
  map fst (dict_add d k a) =
  if existsb (String.eqb k) (map fst d) then map fst d else map fst d ++ [k].
Proof.
  induction d as [|[k' v] d IH]; simpl; [reflexivity|].
  rewrite (String.eqb_sym k k').
  destruct (String.eqb k' k); simpl; [reflexivity|].
  rewrite IH. now destruct (existsb _ _).
Qed.

Lemma existsb_eqb_In (k : string) (l : list string) :
  existsb (String.eqb k) l = true <-> In k l.
Proof.
  rewrite existsb_exists. split.
  - intros (x & Hx & He). apply String.eqb_eq in He. now subst.
  - intros H. exists k. split; [exact H|apply String.eqb_refl].
Qed.

Lemma dict_add_get d k a k' :
  dict_get (dict_add d k a) k' =
  if String.eqb k k'
  then Some (match dict_get d k with
             | Some v => v + a
             | None => 0 + a
             end)%float
  else dict_get d k'.
Proof.
  unfold dict_get.
  induction d as [|[k0 v] d IH]; simpl.
  - now destruct (String.eqb k k').
  - destruct (String.eqb k0 k) eqn:E0; simpl.
    + apply String.eqb_eq in E0. subst k0.
      now destruct (String.eqb k k').
    + destruct (String.eqb k0 k') eqn:E1; simpl.
      * apply String.eqb_eq in E1. subst k0.
        rewrite String.eqb_sym, E0. reflexivity.
      * exact IH.
Qed.

Lemma accumulate_keys rows :
  forall d k, In k (map fst (accumulate rows d)) <->
              In k (map fst d) \/ In k (map ExpenseInDB.date rows).
Proof.
  induction rows as [|e rows IH]; intros d k; simpl; [tauto|].
  unfold accumulate in *. simpl. rewrite IH, dict_add_keys.
  destruct (existsb _ _) eqn:Hex.
  - apply existsb_eqb_In in Hex. intuition (subst; auto).
  - rewrite in_app_iff. simpl. tauto.
Qed.

Lemma accumulate_NoDup rows :
  forall d, NoDup (map fst d) -> NoDup (map fst (accumulate rows d)).
Proof.
  induction rows as [|e rows IH]; intros d Hd; simpl; [exact Hd|].
  unfold accumulate in *. simpl. apply IH. rewrite dict_add_keys.
  destruct (existsb _ _) eqn:Hex; [exact Hd|].
  assert (Hn : ~ In (ExpenseInDB.date e) (map fst d)).
  { rewrite <- existsb_eqb_In. congruence. }
  clear Hex. induction Hd as [|x l Hx Hd IHd]; simpl.
  - repeat constructor. auto.
  - constructor.
    + rewrite in_app_iff. simpl in *. intuition congruence.
    + apply IHd. simpl in Hn. tauto.
Qed.

(** The value under [k] after the loop: the value it had, or [0.0], plus the
    amounts of the rows dated [k], added one by one in the order read. *)
Lemma accumulate_get rows :
  forall d k,
    dict_get (accumulate rows d) k =
    match dict_get d k, filter (has_date k) rows with
    | None, [] => None
    | None, rs => Some (fold_left PrimFloat.add (map ExpenseInDB.amount rs) 0%float)
    | Some v, rs => Some (fold_left PrimFloat.add (map ExpenseInDB.amount rs) v)
    end.
Proof.
  induction rows as [|e rows IH]; intros d k.
  - simpl. now destruct (dict_get d k).
  - change (accumulate (e :: rows) d)
      with (accumulate rows
              (dict_add d (ExpenseInDB.date e) (ExpenseInDB.amount e))).
    rewrite IH, dict_add_get. cbn [filter].
    destruct (has_date k e) eqn:E; unfold has_date in E; rewrite E.
    + apply String.eqb_eq in E. subst k.
      destruct (dict_get d (ExpenseInDB.date e));
        destruct (filter _ rows); reflexivity.
    + reflexivity.
Qed.

Lemma dict_get_In d k v :
  NoDup (map fst d) -> In (k, v) d -> dict_get d k = Some v.
Proof.
  unfold dict_get. induction d as [|[k0 v0] d IH]; simpl; [tauto|].
  intros Hnd [H|H].
  - inversion H; subst. now rewrite String.eqb_refl.
  - inversion Hnd; subst.
    destruct (String.eqb k0 k) eqn:E.
    + apply String.eqb_eq in E. subst k0.
      exfalso. apply H2. apply in_map_iff. now exists (k, v).
    + now apply IH.
Qed.

(** Over rows sorted by date the keys come out strictly ascending. *)
Lemma accumulate_sorted rows :
  forall d,
    StronglySorted date_lt (map fst d) ->
    StronglySorted date_le rows ->
    (forall k r, In k (map fst d) -> In r rows ->
                 String.leb k (ExpenseInDB.date r) = true) ->
    StronglySorted date_lt (map fst (accumulate rows d)).
Proof.
  induction rows as [|e rows IH]; intros d Hd Hrows Hle; [exact Hd|].
  change (accumulate (e :: rows) d)
    with (accumulate rows
            (dict_add d (ExpenseInDB.date e) (ExpenseInDB.amount e))).
  inversion Hrows as [|? ? Hrows' He]; subst.
  rewrite Forall_forall in He.
  apply IH; [|exact Hrows'|]; rewrite dict_add_keys;
    destruct (existsb _ _) eqn:Hex.
  - exact Hd.
  - apply sorted_snoc; [exact Hd|].
    rewrite Forall_forall. intros k Hk. apply ltb_leb_neq. split.
    + apply Hle; simpl; auto.
    + intros ->. apply existsb_eqb_In in Hk. congruence.
  - intros k r Hk Hr. apply Hle; simpl; auto.
  - intros k r Hk Hr. rewrite in_app_iff in Hk. destruct Hk as [Hk|[<-|[]]].
    + apply Hle; simpl; auto.
    + now apply He.
Qed.

End Graph.

(** ** Expenses: listing and the graph *)

(** C7.  The expense list returns every stored expense (a permutation of the
    table), in ascending order of the date string, and the expenses that share
    a date appear in the order in which they are stored, which is the order of
    their ids in every state that satisfies the store invariant, and so in
    every state the service reaches from the initial database. *)
Theorem get_expenses_sorted_stable :
  forall (Claims : Type) (user : Claims) (db : DB),
  exists l,
    get_expenses user db = (Ok l, db)
    /\ Permutation (expenses db) l
    /\ StronglySorted date_le l
    /\ (forall d, filter (has_date d) l = filter (has_date d) (expenses db))
    /\ (db_ok db ->
        forall d, StronglySorted expense_id_lt (filter (has_date d) l))
    /\ (forall verify_id_token : string -> option Claims,
          reachable verify_id_token db ->
          forall d, StronglySorted expense_id_lt (filter (has_date d) l)).
Proof.
  intros Claims user db. exists (order_by_date (expenses db)).
  assert (Hid : forall l : list ExpenseInDB.t,
             map (fun e => ExpenseInDB.mk (ExpenseInDB.id e)
                             (ExpenseInDB.description e) (ExpenseInDB.amount e)
                             (ExpenseInDB.category e) (ExpenseInDB.date e)) l
             = l).
  { induction l as [|[i de a c da] l IH]; simpl; congruence. }
  assert (Hids : db_ok db -> forall d,
             StronglySorted expense_id_lt
               (filter (has_date d) (order_by_date (expenses db)))).
  { intros (He & _) d. rewrite order_by_date_stable.
    now apply sorted_filter. }
  split; [|split; [|split; [|split; [|split]]]].
  - unfold get_expenses. now rewrite Hid.
  - apply order_by_date_perm.
  - apply order_by_date_sorted.
  - intros d. apply order_by_date_stable.
  - exact Hids.
  - intros verify_id_token Hreach. apply Hids.
    now apply (reachable_db_ok verify_id_token).
Qed.

(** C3.  The graph endpoint returns one point per distinct date of the
    table; its total is the sum of the amounts of the expenses with exactly
    that date, added in stored order starting from [0.0]; the points are in
    strictly ascending date order.  On the three expenses of the claim it
    returns the two points of the claim. *)
Theorem get_expenses_graph_totals :
  (forall (Claims : Type) (user : Claims) (db : DB),
   exists pts,
     get_expenses_graph user db = (Ok pts, db)
     /\ NoDup (map gp_date pts)
     /\ (forall d, In d (map gp_date pts)
                   <-> In d (map ExpenseInDB.date (expenses db)))
     /\ (forall p, In p pts ->
           total p = float_sum (map ExpenseInDB.amount
                                  (filter (has_date (gp_date p))
                                          (expenses db))))
     /\ StronglySorted date_lt (map gp_date pts))
  /\ get_expenses_graph tt db_three
     = (Ok [mkGraphPoint "2024-01-01" 15; mkGraphPoint "2024-01-02" 2],
        db_three).
Proof.
  split; [|vm_compute; reflexivity].
  intros Claims user db.
  set (rows := order_by_date (expenses db)).
  set (acc := accumulate rows []).
  exists (map (fun item => mkGraphPoint (fst item) (snd item)) acc).
  assert (Hkeys : map gp_date
                    (map (fun item => mkGraphPoint (fst item) (snd item)) acc)
                  = map fst acc).
  { rewrite map_map. apply map_ext. reflexivity. }
  rewrite Hkeys.
  assert (Hnd : NoDup (map fst acc)).
  { apply accumulate_NoDup. constructor. }
  split; [reflexivity|]. split; [exact Hnd|]. split; [|split].
  - intros d. unfold acc. rewrite accumulate_keys. simpl.
    split.
    + intros [[]|H]. apply in_map_iff in H. destruct H as (r & <- & Hr).
      apply in_map. eapply Permutation_in; [|exact Hr].
      symmetry. apply order_by_date_perm.
    + intros H. right. apply in_map_iff in H. destruct H as (r & <- & Hr).
      apply in_map. eapply Permutation_in; [|exact Hr].
      apply order_by_date_perm.
  - intros p Hp. apply in_map_iff in Hp. destruct Hp as ([k v] & <- & Hin).
    simpl. pose proof (dict_get_In acc k v Hnd Hin) as Hget.
    unfold acc in Hget. rewrite accumulate_get in Hget. simpl in Hget.
    unfold rows in Hget. rewrite order_by_date_stable in Hget.
    unfold float_sum.
    destruct (filter (has_date k) (expenses db)); [discriminate|].
    now inversion Hget.
  - apply accumulate_sorted.
    + constructor.
    + apply order_by_date_sorted.
    + intros k r [].
Qed.

(** ** Goals: partial update *)

Lemma find_goal_updated (goal_id : Z) d a p (l : list GoalInDB.t) row :
  find (fun row => (GoalInDB.id row =? goal_id)%Z) l = Some row ->
  find (fun row => (GoalInDB.id row =? goal_id)%Z)
       (map (fun row => if (GoalInDB.id row =? goal_id)%Z
                        then GoalInDB.mk (GoalInDB.id row) d a p else row) l)
  = Some (GoalInDB.mk goal_id d a p).
Proof.
  induction l as [|x l IH]; simpl; [discriminate|].
  destruct (GoalInDB.id x =? goal_id)%Z eqn:E; simpl.
  - intros _. rewrite E. apply Z.eqb_eq in E. now rewrite E.
  - rewrite E. exact IH.
Qed.

(** An update that finds its goal and binds no NaN returns the merged goal
    and stores it. *)
Lemma update_goal_found (Claims : Type) (user : Claims) (goal_id : Z)
    (goal : Goal.t) (db : DB) (existing : GoalInDB.t) :
  lookup_goal goal_id db = Some existing ->
  PrimFloat.is_nan (Goal.amount goal) = false ->
  PrimFloat.is_nan (Goal.progress goal) = false ->
  PrimFloat.is_nan (GoalInDB.amount existing) = false ->
  exists g,
    fst (update_goal goal_id goal user db) = Ok g
    /\ lookup_goal goal_id (snd (update_goal goal_id goal user db)) = Some g
    /\ GoalInDB.id g = goal_id
    /\ GoalInDB.description g =
         (if truthy_str (Goal.description goal)
          then Goal.description goal else GoalInDB.description existing)
    /\ GoalInDB.amount g =
         (if truthy_float (Goal.amount goal)
          then Goal.amount goal else GoalInDB.amount existing)
    /\ GoalInDB.progress g = Goal.progress goal.
Proof.
  intros H Na Np Ne. unfold lookup_goal in *. unfold update_goal. rewrite H.
  unfold binds_null, merge_progress. rewrite Np, orb_false_r.
  assert (Nm : PrimFloat.is_nan
                 (if truthy_float (Goal.amount goal)
                  then Goal.amount goal else GoalInDB.amount existing)
               = false).
  { now destruct (truthy_float _). }
  rewrite Nm.
  eexists. split; [reflexivity|]. cbn [snd goals].
  split; [|repeat split].
  apply find_goal_updated with (row := existing). exact H.
Qed.

(** An update that finds its goal and binds a NaN is refused by the store:
    nothing is returned and nothing is written. *)
Lemma update_goal_refused (Claims : Type) (user : Claims) (goal_id : Z)
    (goal : Goal.t) (db : DB) (existing : GoalInDB.t) :
  lookup_goal goal_id db = Some existing ->
  PrimFloat.is_nan
    (if truthy_float (Goal.amount goal)
     then Goal.amount goal else GoalInDB.amount existing) = true
  \/ PrimFloat.is_nan (Goal.progress goal) = true ->
  update_goal goal_id goal user db = (Uncaught "sqlite3.IntegrityError", db).
Proof.
  intros H N. unfold lookup_goal in H. unfold update_goal. rewrite H.
  unfold binds_null, merge_progress.
  destruct N as [N|N]; rewrite N; [|rewrite orb_true_r]; reflexivity.
Qed.



(** An incoming description or amount that is truthy replaces the stored
    one. *)
Lemma update_goal_truthy (Claims : Type) (user : Claims) (goal_id : Z)
    (goal : Goal.t) (db : DB) (existing : GoalInDB.t) :
  lookup_goal goal_id db = Some existing ->
  truthy_str (Goal.description goal) = true ->
  truthy_float (Goal.amount goal) = true ->
  PrimFloat.is_nan (Goal.amount goal) = false ->
  PrimFloat.is_nan (Goal.progress goal) = false ->
  fst (update_goal goal_id goal user db)
  = Ok (GoalInDB.mk goal_id (Goal.description goal) (Goal.amount goal)
          (Goal.progress goal)).
Proof.
  intros H Hd Ha Na Np. unfold lookup_goal in H. unfold update_goal.
  rewrite H, Hd, Ha. unfold binds_null, merge_progress.
  rewrite Na, Np. reflexivity.
Qed.

(** ** Expenses: adding *)

Lemma forallb_range (f : Z -> bool) (lo : Z) (n : nat) :
  forallb f (map (fun i => lo + Z.of_nat i) (seq 0 n)) = true ->
  forall x, lo <= x < lo + Z.of_nat n -> f x = true.
Proof.
  rewrite forallb_forall. intros H x Hx. apply H.
  apply in_map_iff. exists (Z.to_nat (x - lo)). split; [lia|].
  apply in_seq. lia.
Qed.

Lemma digit_char_spec (n : Z) :
  Strptime.is_digit (Strptime.digit_char n) = true
  /\ Strptime.digit_val (Strptime.digit_char n) = n mod 10.
Proof.
  unfold Strptime.digit_char.
  pose proof (Z.mod_pos_bound n 10 eq_refl) as B.
  set (k := n mod 10) in *. clearbody k.
  pose proof (forallb_range
    (fun k => Strptime.is_digit (ascii_of_nat (Z.to_nat (48 + k)))
              && (Strptime.digit_val (ascii_of_nat (Z.to_nat (48 + k))) =? k)%Z)
    0 10 eq_refl k) as H.
  cbv beta in H. apply andb_true_iff in H; [|lia].
  destruct H as [H1 H2]. apply Z.eqb_eq in H2. now split.
Qed.

Lemma reads_month_day_all (m d : Z) :
  1 <= m <= 12 -> 1 <= d <= 31 -> reads_month_day m d = true.
Proof.
  intros Hm Hd.
  pose proof (forallb_range
    (fun m => forallb (reads_month_day m)
                (map (fun i => 1 + Z.of_nat i) (seq 0 31)))
    1 12) as H.
  cbv beta in H. specialize (H ltac:(vm_compute; reflexivity) m ltac:(lia)).
  apply (forallb_range _ 1 31 H). lia.
Qed.

Lemma days_in_month_bound (y m : Z) :
  28 <= Strptime.days_in_month y m <= 31.
Proof.
  unfold Strptime.days_in_month.
  repeat match goal with
         | |- context [match ?x with _ => _ end] => destruct x
         end; lia.
Qed.

(** What [strptime] accepts is a date of the calendar. *)
Lemma strptime_valid (s : string) (d : Strptime.date) :
  Strptime.strptime s = Some d -> valid_date d.
Proof.
  unfold Strptime.strptime.
  destruct (Strptime.regex_match s) as [[[[y m] dd] [|c r]]|];
    try discriminate.
  unfold Strptime.make_date.
  destruct (_ && _) eqn:E; [|discriminate].
  intros H. inversion H; subst d. unfold valid_date. simpl.
  repeat (apply andb_true_iff in E; destruct E as [E ?]).
  rewrite Z.leb_le in *. lia.
Qed.

(** Every date of the calendar, written as [YYYY-MM-DD], is accepted and
    read back as itself. *)
Lemma strptime_isoformat (d : Strptime.date) :
  valid_date d -> Strptime.strptime (Strptime.isoformat d) = Some d.
Proof.
  destruct d as [y m dd]. unfold valid_date. simpl.
  intros (Hy & Hm & Hd).
  pose proof (days_in_month_bound y m) as Hb.
  pose proof (reads_month_day_all m dd Hm ltac:(lia)) as Hr.
  unfold reads_month_day, iso_month_day in Hr.
  unfold Strptime.strptime, Strptime.regex_match, Strptime.isoformat.
  cbn [Strptime.year Strptime.month Strptime.day].
  destruct (digit_char_spec (y / 1000)) as [D1 V1].
  destruct (digit_char_spec (y / 100)) as [D2 V2].
  destruct (digit_char_spec (y / 10)) as [D3 V3].
  destruct (digit_char_spec y) as [D4 V4].
  rewrite D1, D2, D3, D4, V1, V2, V3, V4. cbn [andb Ascii.eqb Bool.eqb].
  destruct (Strptime.match_month _) as [[[m' d'] [|c r]]|];
    try discriminate.
  apply andb_true_iff in Hr. destruct Hr as [Em Ed].
  apply Z.eqb_eq in Em, Ed. subst m' d'.
  replace (1000 * ((y / 1000) mod 10) + 100 * ((y / 100) mod 10)
           + 10 * ((y / 10) mod 10) + y mod 10) with y by
    (Z.to_euclidean_division_equations; lia).
  unfold Strptime.make_date.
  destruct (_ && _) eqn:E; [reflexivity|].
  exfalso. revert E.
  repeat (rewrite andb_false_iff). rewrite !Z.leb_gt. lia.
Qed.

Lemma isoformat_length (d : Strptime.date) :
  String.length (Strptime.isoformat d) = 10%nat.
Proof. reflexivity. Qed.

Lemma in_range_In (lo hi c : ascii) :
  Strptime.in_range lo hi c = true -> In c (chars_between lo hi).
Proof.
  unfold Strptime.in_range, chars_between. intros H.
  apply andb_true_iff in H. destruct H as [H1 H2].
  apply Nat.leb_le in H1, H2.
  rewrite <- (ascii_nat_embedding c). apply in_map. apply in_seq. lia.
Qed.

Lemma is_digit_In (c : ascii) :
  Strptime.is_digit c = true -> In c (chars_between "0" "9").
Proof. intros H. apply in_range_In. exact H. Qed.

Lemma digit_of_char (c : ascii) :
  Strptime.is_digit c = true ->
  c = Strptime.digit_char (Strptime.digit_val c)
  /\ 0 <= Strptime.digit_val c <= 9.
Proof.
  intros H. apply is_digit_In in H. cbv in H.
  repeat (destruct H as [<-|H]; [split; [reflexivity|cbv; split; discriminate]|]).
  destruct H.
Qed.

Lemma digit_char_mod (a b : Z) :
  a mod 10 = b mod 10 -> Strptime.digit_char a = Strptime.digit_char b.
Proof. unfold Strptime.digit_char. now intros ->. Qed.

Ltac enum_chars H :=
  cbv [chars_between nat_of_ascii N_of_ascii N_of_digits] in H;
  simpl in H;
  repeat (destruct H as [<-|H]; [|]); try destruct H.

Ltac give_text :=
  match goal with
  | |- exists t, _ /\ String ?a (String ?b ?r) = (t ++ ?r)%string =>
      exists (String a (String b ""))
  | |- exists t, _ /\ String ?a ?r = (t ++ ?r)%string =>
      exists (String a "")
  end; split; [vm_compute; intuition|reflexivity].

Ltac alt_case E :=
  match type of E with
  | (Ascii.eqb ?a ?k && Strptime.in_range ?lo ?hi ?b) = true =>
      let E1 := fresh in let E2 := fresh in
      apply andb_true_iff in E; destruct E as [E1 E2];
      apply Ascii.eqb_eq in E1; subst a;
      apply in_range_In in E2; enum_chars E2
  | (Strptime.in_range ?lo ?hi ?a && Strptime.is_digit ?b) = true =>
      let E1 := fresh in let E2 := fresh in
      apply andb_true_iff in E; destruct E as [E1 E2];
      apply in_range_In in E1; apply is_digit_In in E2;
      enum_chars E1; enum_chars E2
  | Strptime.in_range ?lo ?hi ?a = true =>
      apply in_range_In in E; enum_chars E
  end.

Lemma alt_month_In (r : string) (m : Z) (r1 : string) :
  In (m, r1) (Strptime.alt_month r) ->
  exists mt, In mt (month_texts m) /\ r = (mt ++ r1)%string.
Proof.
  unfold Strptime.alt_month. rewrite !in_app_iff.
  destruct r as [|a [|b r2]].
  - simpl. tauto.
  - intros [[]|[[]|H]].
    destruct (Strptime.in_range "1" "9" a) eqn:E; [|destruct H].
    destruct H as [H|[]]. inversion H; subst. alt_case E; give_text.
  - intros [H|[H|H]].
    + destruct (_ && _) eqn:E; [|destruct H].
      destruct H as [H|[]]. inversion H; subst. alt_case E; give_text.
    + destruct (_ && _) eqn:E; [|destruct H].
      destruct H as [H|[]]. inversion H; subst. alt_case E; give_text.
    + destruct (Strptime.in_range "1" "9" a) eqn:E; [|destruct H].
      destruct H as [H|[]]. inversion H; subst. alt_case E; give_text.
Qed.

Lemma alt_day_In (r : string) (d : Z) (r1 : string) :
  In (d, r1) (Strptime.alt_day r) ->
  exists dt, In dt (day_texts d) /\ r = (dt ++ r1)%string.
Proof.
  unfold Strptime.alt_day. rewrite !in_app_iff.
  destruct r as [|a [|b r2]].
  - simpl. tauto.
  - intros [[]|[[]|[[]|[H|[]]]]].
    destruct (Strptime.in_range "1" "9" a) eqn:E; [|destruct H].
    destruct H as [H|[]]. inversion H; subst. alt_case E; give_text.
  - intros [H|[H|[H|[H|H]]]].
    + destruct (_ && _) eqn:E; [|destruct H].
      destruct H as [H|[]]. inversion H; subst. alt_case E; give_text.
    + destruct (_ && _) eqn:E; [|destruct H].
      destruct H as [H|[]]. inversion H; subst. alt_case E; give_text.
    + destruct (_ && _) eqn:E; [|destruct H].
      destruct H as [H|[]]. inversion H; subst. alt_case E; give_text.
    + destruct (Strptime.in_range "1" "9" a) eqn:E; [|destruct H].
      destruct H as [H|[]]. inversion H; subst. alt_case E; give_text.
    + destruct (_ && _) eqn:E; [|destruct H].
      destruct H as [H|[]]. inversion H; subst. alt_case E; give_text.
Qed.

Lemma match_day_In (r : string) (d : Z) (r1 : string) :
  Strptime.match_day r = Some (d, r1) ->
  exists dt, In dt (day_texts d) /\ r = ("-" ++ dt ++ r1)%string.
Proof.
  unfold Strptime.match_day. destruct r as [|c r2]; [discriminate|].
  destruct (Ascii.eqb c "-") eqn:E; [|discriminate].
  apply Ascii.eqb_eq in E. subst c. intros H.
  assert (Hin : In (d, r1) (Strptime.alt_day r2)).
  { destruct (Strptime.alt_day r2); [discriminate|].
    inversion H; subst. now left. }
  destruct (alt_day_In r2 d r1 Hin) as (dt & Hdt & ->).
  exists dt. split; [exact Hdt|reflexivity].
Qed.

Lemma match_month_In (alts : list (Z * string)) (m d : Z) (r1 : string) :
  Strptime.match_month alts = Some (m, d, r1) ->
  exists r, In (m, r) alts /\ Strptime.match_day r = Some (d, r1).
Proof.
  induction alts as [|[m0 r0] alts IH]; simpl; [discriminate|].
  destruct (Strptime.match_day r0) as [[d0 r']|] eqn:E.
  - intros H. inversion H; subst. exists r0. auto.
  - intros H. destruct (IH H) as (r & Hin & Hd). exists r. auto.
Qed.

Lemma append_nil_r (a : string) : (a ++ "")%string = a.
Proof. induction a as [|x a IH]; simpl; congruence. Qed.

(** What the expression matches after the year is a spelling of the month
    and the day it returns. *)
Lemma match_month_texts (r : string) (m d : Z) :
  Strptime.match_month (Strptime.alt_month r) = Some (m, d, EmptyString) ->
  In r (month_day_texts m d).
Proof.
  intros H. apply match_month_In in H. destruct H as (r1 & Hin & Hd).
  apply alt_month_In in Hin. destruct Hin as (mt & Hmt & ->).
  apply match_day_In in Hd. destruct Hd as (dt & Hdt & ->).
  unfold month_day_texts. apply in_flat_map. exists mt. split; [exact Hmt|].
  apply in_map_iff. exists dt. split; [|exact Hdt].
  now rewrite append_nil_r.
Qed.

Lemma reads_texts_all (m d : Z) :
  1 <= m <= 12 -> 1 <= d <= 31 -> reads_texts m d = true.
Proof.
  intros Hm Hd.
  pose proof (forallb_range
    (fun m => forallb (reads_texts m)
                (map (fun i => 1 + Z.of_nat i) (seq 0 31)))
    1 12) as H.
  cbv beta in H. specialize (H ltac:(vm_compute; reflexivity) m ltac:(lia)).
  apply (forallb_range _ 1 31 H). lia.
Qed.

Lemma year_digits (y1 y2 y3 y4 : ascii) :
  Strptime.is_digit y1 = true -> Strptime.is_digit y2 = true ->
  Strptime.is_digit y3 = true -> Strptime.is_digit y4 = true ->
  String y1 (String y2 (String y3 (String y4 "")))
  = four_digits (1000 * Strptime.digit_val y1 + 100 * Strptime.digit_val y2
                 + 10 * Strptime.digit_val y3 + Strptime.digit_val y4).
Proof.
  intros H1 H2 H3 H4.
  destruct (digit_of_char y1 H1) as [E1 B1].
  destruct (digit_of_char y2 H2) as [E2 B2].
  destruct (digit_of_char y3 H3) as [E3 B3].
  destruct (digit_of_char y4 H4) as [E4 B4].
  set (a := Strptime.digit_val y1) in *.
  set (b := Strptime.digit_val y2) in *.
  set (c := Strptime.digit_val y3) in *.
  set (e := Strptime.digit_val y4) in *. clearbody a b c e.
  unfold four_digits, two_digits, one_digit.
  subst y1 y2 y3 y4.
  set (Y := 1000 * a + 100 * b + 10 * c + e).
  rewrite (digit_char_mod (Y / 1000) a), (digit_char_mod (Y / 100) b),
    (digit_char_mod (Y / 10) c), (digit_char_mod Y e);
    [reflexivity| | | |]; subst Y;
    Z.to_euclidean_division_equations; lia.
Qed.

(** The parser accepts exactly the declared spellings: [strptime] returns
    the date [d] on [s] when, and only when, [d] is a date of the calendar
    and [s] is one of its spellings. *)
Lemma strptime_spec (s : string) (d : Strptime.date) :
  Strptime.strptime s = Some d <-> written_as s d.
Proof.
  split.
  - intros H. split; [exact (strptime_valid s d H)|].
    revert H. unfold Strptime.strptime, Strptime.regex_match.
    destruct s as [|y1 [|y2 [|y3 [|y4 [|c r]]]]]; try discriminate.
    destruct (_ && _) eqn:E; [|discriminate].
    apply andb_true_iff in E. destruct E as [E Ec].
    apply andb_true_iff in E. destruct E as [E D4].
    apply andb_true_iff in E. destruct E as [E D3].
    apply andb_true_iff in E. destruct E as [D1 D2].
    apply Ascii.eqb_eq in Ec. subst c.
    destruct (Strptime.match_month _) as [[[m dd] r']|] eqn:M;
      [|discriminate].
    destruct r' as [|x r']; [|discriminate].
    unfold Strptime.make_date. destruct (_ && _); [|discriminate].
    intros [= <-].
    unfold spellings. cbn [Strptime.year Strptime.month Strptime.day].
    apply in_map_iff. exists r. split; [|now apply match_month_texts].
    change (String y1 (String y2 (String y3 (String y4 (String "-" r)))))
      with ((String y1 (String y2 (String y3 (String y4 "")))
             ++ "-" ++ r)%string).
    rewrite (year_digits y1 y2 y3 y4 D1 D2 D3 D4). reflexivity.
  - intros [Hv Hin]. destruct d as [y m dd].
    unfold valid_date in Hv. cbn [Strptime.year Strptime.month Strptime.day] in *.
    destruct Hv as (Hy & Hm & Hd).
    pose proof (days_in_month_bound y m) as Hb.
    unfold spellings in Hin.
    cbn [Strptime.year Strptime.month Strptime.day] in Hin.
    apply in_map_iff in Hin. destruct Hin as (md & <- & Hmd).
    pose proof (reads_texts_all m dd Hm ltac:(lia)) as Hr.
    unfold reads_texts in Hr. rewrite forallb_forall in Hr.
    specialize (Hr md Hmd).
    unfold Strptime.strptime, Strptime.regex_match, four_digits, two_digits,
      one_digit. cbn [String.append].
    destruct (digit_char_spec (y / 1000)) as [D1 V1].
    destruct (digit_char_spec (y / 100)) as [D2 V2].
    destruct (digit_char_spec (y / 10)) as [D3 V3].
    destruct (digit_char_spec y) as [D4 V4].
    rewrite D1, D2, D3, D4, V1, V2, V3, V4. cbn [andb Ascii.eqb Bool.eqb].
    destruct (Strptime.match_month _) as [[[m' d'] [|c r]]|];
      try discriminate.
    apply andb_true_iff in Hr. destruct Hr as [Em Ed].
    apply Z.eqb_eq in Em, Ed. subst m' d'.
    replace (1000 * ((y / 1000) mod 10) + 100 * ((y / 100) mod 10)
             + 10 * ((y / 10) mod 10) + y mod 10) with y by
      (Z.to_euclidean_division_equations; lia).
    unfold Strptime.make_date.
    destruct (_ && _) eqn:E; [reflexivity|].
    exfalso. revert E.
    repeat (rewrite andb_false_iff). rewrite !Z.leb_gt. lia.
Qed.

Lemma iso_date_well_written (s : string) : iso_date s -> well_written s.
Proof.
  intros (d & Hv & ->). exists d. split; [exact Hv|].
  unfold spellings, month_day_texts, month_texts, day_texts.
  simpl. left. reflexivity.
Qed.




(** With an accepted date and a NaN amount the insert is refused: nothing is
    returned and nothing is written. *)
Lemma add_expense_refused (Claims : Type) (user : Claims)
    (expense : Expense.t) (db : DB) (d : Strptime.date) :
  Strptime.strptime (Expense.date expense) = Some d ->
  PrimFloat.is_nan (Expense.amount expense) = true ->
  add_expense expense user db = (Uncaught "sqlite3.IntegrityError", db).
Proof.
  intros Hd Hn. unfold add_expense, binds_null. now rewrite Hd, Hn.
Qed.


(** ** Deleting *)

Lemma filter_id_absent {A : Type} (key : A -> Z) (x : Z) (l : list A) :
  ~ In x (map key l) -> filter (fun row => negb (key row =? x)%Z) l = l.
Proof.
  induction l as [|y l IH]; simpl; [reflexivity|]. intros H.
  destruct (key y =? x)%Z eqn:E.
  - apply Z.eqb_eq in E. tauto.
  - simpl. f_equal. apply IH. tauto.
Qed.

Lemma rowcount_zero {A : Type} (key : A -> Z) (x : Z) (l : list A) :
  (List.length (filter (fun row => (key row =? x)%Z) l) =? 0)%nat = true
  <-> ~ In x (map key l).
Proof.
  induction l as [|y l IH]; simpl; [tauto|].
  destruct (key y =? x)%Z eqn:E; simpl.
  - apply Z.eqb_eq in E. split; [discriminate|tauto].
  - apply Z.eqb_neq in E. rewrite IH. tauto.
Qed.

(** C4.  For every id that is an SQLite integer (signed 64 bits, the ids a
    [DELETE] can bind): deleting an expense answers with the success message
    and removes the rows with that id, so that it leaves the store as it is
    when no expense has the id; deleting a goal whose id no stored goal has
    fails with status 404 and leaves the store as it is; deleting a goal that
    is stored succeeds and removes it. *)
Theorem delete_expense_vs_delete_goal :
  forall (Claims : Type) (user : Claims) (id : Z) (db : DB),
    in_int64 id ->
    fst (delete_expense id user db)
    = Ok (mkMessage ("Expense " ++ str_int id ++ " deleted successfully"))
    /\ expenses (snd (delete_expense id user db))
       = filter (fun row => negb (ExpenseInDB.id row =? id)%Z) (expenses db)
    /\ (~ In id (map ExpenseInDB.id (expenses db)) ->
        snd (delete_expense id user db) = db)
    /\ (~ In id (map GoalInDB.id (goals db)) ->
        delete_goal id user db = (HTTPException 404 "Goal not found", db))
    /\ (In id (map GoalInDB.id (goals db)) ->
        fst (delete_goal id user db)
        = Ok (mkMessage "Goal deleted successfully")
        /\ goals (snd (delete_goal id user db))
           = filter (fun row => negb (GoalInDB.id row =? id)%Z) (goals db)).
Proof.
  intros Claims user id db _.
  split; [reflexivity|]. split; [reflexivity|]. split; [|split].
  - intros H. unfold delete_expense. cbn [snd].
    rewrite filter_id_absent by exact H. now destruct db.
  - intros H. unfold delete_goal.
    apply (rowcount_zero GoalInDB.id) in H. now rewrite H.
  - intros H. unfold delete_goal.
    destruct (_ =? 0)%nat eqn:E; [|split; reflexivity].
    apply (rowcount_zero GoalInDB.id) in E. contradiction.
Qed.

(** ** Users: registration and login *)

Lemma find_snoc {A : Type} (f : A -> bool) (l : list A) (x : A) :
  find f (l ++ [x]) =
  match find f l with
  | Some y => Some y
  | None => if f x then Some x else None
  end.
Proof.
  induction l as [|y l IH]; simpl; [reflexivity|].
  now destruct (f y).
Qed.

Lemma lookup_password_None (email : string) (db : DB) :
  lookup_password email db = None <-> ~ In email (map fst (users db)).
Proof.
  unfold lookup_password. rewrite <- existsb_email_In.
  induction (users db) as [|r l IH]; simpl; [intuition congruence|].
  destruct (String.eqb (fst r) email); simpl.
  - intuition congruence.
  - exact IH.
Qed.



(** ** The password hash *)

Lemma hex_word_length (x : Z) (tail : string) :
  String.length (Sha256.hex_word x tail) = (8 + String.length tail)%nat.
Proof. reflexivity. Qed.

Lemma hex_digit_is_hex (n : Z) :
  In (Sha256.hex_digit n) (list_ascii_of_string "0123456789abcdef").
Proof.
  unfold Sha256.hex_digit. apply nth_In.
  change 15 with (Z.ones 4). rewrite Z.land_ones by lia.
  pose proof (Z.mod_pos_bound n (2 ^ 4) eq_refl) as B.
  change (List.length (list_ascii_of_string "0123456789abcdef")) with 16%nat.
  change (2 ^ 4) with 16 in *. lia.
Qed.

(** *** [hash_password] computes the SHA-256 of the standard *)

Lemma w32_mod (x : Z) : Sha256.w32 x = x mod 2 ^ 32.
Proof.
  unfold Sha256.w32. change 4294967295 with (Z.ones 32).
  now rewrite Z.land_ones by lia.
Qed.

Lemma add32_mod (x y : Z) : Sha256.add32 x y = (x + y) mod 2 ^ 32.
Proof. apply w32_mod. Qed.

Lemma rotr_ROTR (n x : Z) :
  0 <= n <= 32 -> Sha256.rotr n x = Fips180.ROTR n x.
Proof.
  intros Hn. unfold Sha256.rotr, Fips180.ROTR, Fips180.SHR, Fips180.SHL.
  rewrite w32_mod, Z.shiftr_div_pow2, Z.shiftl_mul_pow2 by lia. reflexivity.
Qed.

Lemma Ch_spec : Sha256.Ch = Fips180.Ch.
Proof. reflexivity. Qed.

Lemma Maj_spec : Sha256.Maj = Fips180.Maj.
Proof. reflexivity. Qed.

Lemma Sigma0_spec x : Sha256.Sigma0 x = Fips180.Sigma0 x.
Proof.
  unfold Sha256.Sigma0, Fips180.Sigma0. now rewrite !rotr_ROTR by lia.
Qed.

Lemma Sigma1_spec x : Sha256.Sigma1 x = Fips180.Sigma1 x.
Proof.
  unfold Sha256.Sigma1, Fips180.Sigma1. now rewrite !rotr_ROTR by lia.
Qed.

Lemma sigma0_spec x : Sha256.sigma0 x = Fips180.sigma0 x.
Proof.
  unfold Sha256.sigma0, Fips180.sigma0, Fips180.SHR.
  now rewrite !rotr_ROTR, Z.shiftr_div_pow2 by lia.
Qed.

Lemma sigma1_spec x : Sha256.sigma1 x = Fips180.sigma1 x.
Proof.
  unfold Sha256.sigma1, Fips180.sigma1, Fips180.SHR.
  now rewrite !rotr_ROTR, Z.shiftr_div_pow2 by lia.
Qed.

Lemma K_spec : Sha256.K = Fips180.K.
Proof. vm_compute. reflexivity. Qed.

Ltac mod_norm :=
  change (2 ^ 32) with 4294967296; Z.div_mod_to_equations; lia.

Ltac split_words :=
  repeat match goal with
         | |- (_, _) = (_, _) => apply f_equal2
         end;
  try reflexivity.

Lemma W_rec_fuel (block : nat -> Z) :
  forall f1 f2 t, (t < f1)%nat -> (t < f2)%nat ->
    Fips180.W_rec f1 block t = Fips180.W_rec f2 block t.
Proof.
  induction f1 as [|f1 IH]; intros f2 t H1 H2; [lia|].
  destruct f2 as [|f2]; [lia|]. cbn [Fips180.W_rec].
  destruct (t <? 16)%nat eqn:E; [reflexivity|].
  apply Nat.ltb_ge in E.
  rewrite (IH f2 (t - 2)%nat), (IH f2 (t - 7)%nat),
          (IH f2 (t - 15)%nat), (IH f2 (t - 16)%nat) by lia.
  reflexivity.
Qed.

Lemma W_low (block : nat -> Z) (t : nat) :
  (t < 16)%nat -> Fips180.W block t = block t.
Proof.
  intros H. unfold Fips180.W. cbn [Fips180.W_rec].
  apply Nat.ltb_lt in H. now rewrite H.
Qed.

Lemma W_high (block : nat -> Z) (t : nat) :
  (16 <= t)%nat ->
  Fips180.W block t
  = (Fips180.sigma1 (Fips180.W block (t - 2)) + Fips180.W block (t - 7)
     + Fips180.sigma0 (Fips180.W block (t - 15))
     + Fips180.W block (t - 16)) mod 2 ^ 32.
Proof.
  intros H. unfold Fips180.W. cbn [Fips180.W_rec].
  apply Nat.ltb_ge in H. rewrite H. apply Nat.ltb_ge in H.
  rewrite (W_rec_fuel block t (S (t - 2)) (t - 2)),
          (W_rec_fuel block t (S (t - 7)) (t - 7)),
          (W_rec_fuel block t (S (t - 15)) (t - 15)),
          (W_rec_fuel block t (S (t - 16)) (t - 16)) by lia.
  reflexivity.
Qed.

Lemma schedule_spec (block : nat -> Z) :
  forall (n : nat) (w : list Z),
    (16 <= List.length w)%nat ->
    (forall t, (t < List.length w)%nat -> nth t w 0 = Fips180.W block t) ->
    List.length (Sha256.schedule n w) = (n + List.length w)%nat
    /\ forall t, (t < n + List.length w)%nat ->
         nth t (Sha256.schedule n w) 0 = Fips180.W block t.
Proof.
  induction n as [|n IH]; intros w Hl Hw; cbn [Sha256.schedule].
  - split; [reflexivity|exact Hw].
  - cbv zeta.
    match goal with
    | |- context [Sha256.schedule n (w ++ [?x])] => set (x0 := x)
    end.
    destruct (IH (w ++ [x0])) as [L P].
    + rewrite length_app. simpl. lia.
    + intros t Ht. rewrite length_app in Ht. simpl in Ht.
      destruct (Nat.eq_dec t (List.length w)) as [->|Hne].
      * rewrite nth_middle. unfold x0.
        rewrite !Hw by lia. rewrite (W_high block (List.length w)) by lia.
        rewrite sigma0_spec, sigma1_spec, !add32_mod.
        rewrite <- Z.add_mod by lia. f_equal. lia.
      * rewrite app_nth1 by lia. apply Hw. lia.
    + rewrite length_app in L, P. simpl in L, P.
      split; [lia|]. intros t Ht. apply P. lia.
Qed.

Lemma firstn_snoc {A : Type} (d : A) :
  forall (n : nat) (l : list A),
    (n < List.length l)%nat -> firstn (S n) l = firstn n l ++ [nth n l d].
Proof.
  induction n as [|n IH]; intros [|x l] H; simpl in H; try lia.
  - reflexivity.
  - change (firstn (S (S n)) (x :: l)) with (x :: firstn (S n) l).
    rewrite (IH l) by lia. reflexivity.
Qed.

Lemma rounds_spec (block : nat -> Z) (ws : list Z) (s : Sha256.state) :
  List.length ws = 64%nat ->
  (forall t, (t < 64)%nat -> nth t ws 0 = Fips180.W block t) ->
  forall t, (t <= 64)%nat ->
    Fips180.rounds block (words_of s) t
    = words_of (fold_left Sha256.round (firstn t (combine Sha256.K ws)) s).
Proof.
  intros Hl Hw. induction t as [|t IH]; intros Ht; [reflexivity|].
  cbn [Fips180.rounds]. rewrite IH by lia.
  rewrite (firstn_snoc (0, 0)) by (rewrite length_combine, Hl; simpl; lia).
  rewrite fold_left_app. cbn [fold_left].
  rewrite combine_nth by (rewrite Hl; reflexivity).
  set (r := fold_left Sha256.round (firstn t (combine Sha256.K ws)) s).
  unfold words_of, Sha256.round.
  cbn [fst snd Sha256.ha Sha256.hb Sha256.hc Sha256.hd
       Sha256.he Sha256.hf Sha256.hg Sha256.hh].
  rewrite Hw by lia. rewrite <- K_spec.
  change Sha256.Ch with Fips180.Ch. change Sha256.Maj with Fips180.Maj.
  rewrite Sigma0_spec, Sigma1_spec, !add32_mod.
  split_words; mod_norm.
Qed.

Lemma compress_spec (block : nat -> Z) (b : list Z) (s : Sha256.state) :
  List.length b = 16%nat ->
  (forall t, (t < 16)%nat -> block t = nth t b 0) ->
  words_of (Sha256.compress s b) = Fips180.next_hash block (words_of s).
Proof.
  intros Hl Hb.
  destruct (schedule_spec block 48 b) as [L P].
  - lia.
  - intros t Ht. rewrite W_low by lia. symmetry. apply Hb. lia.
  - rewrite Hl in L, P. unfold Fips180.next_hash.
    rewrite (rounds_spec block (Sha256.schedule 48 b) s L P 64) by lia.
    rewrite firstn_all2 by (rewrite length_combine, L; simpl; lia).
    unfold Sha256.compress, words_of.
    cbn [Sha256.ha Sha256.hb Sha256.hc Sha256.hd
         Sha256.he Sha256.hf Sha256.hg Sha256.hh].
    rewrite !add32_mod. split_words; f_equal; lia.
Qed.

(** *** Bytes, words and blocks *)

Lemma lor_shiftl_add (hi lo n : Z) :
  0 <= n -> 0 <= lo < 2 ^ n -> Z.lor (Z.shiftl hi n) lo = hi * 2 ^ n + lo.
Proof.
  intros Hn Hlo. rewrite Z.shiftl_mul_pow2 by lia.
  assert (D : Z.land (hi * 2 ^ n) lo = 0).
  { apply Z.bits_inj'. intros m Hm. rewrite Z.land_spec, Z.bits_0.
    destruct (Z.ltb_spec m n) as [Hlt|Hge].
    - now rewrite Z.mul_pow2_bits_low by lia.
    - assert (T : Z.testbit lo m = false).
      { destruct (Z.eq_dec lo 0) as [->|Hnz]; [apply Z.bits_0|].
        apply Z.bits_above_log2; [lia|].
        assert (Z.log2 lo < n) by (apply Z.log2_lt_pow2; lia). lia. }
      rewrite T. apply andb_false_r. }
  rewrite <- (Z.lxor_lor _ _ D). symmetry. now apply Z.add_nocarry_lxor.
Qed.

Lemma be_word_spec (b0 b1 b2 b3 : Z) :
  0 <= b1 < 256 -> 0 <= b2 < 256 -> 0 <= b3 < 256 ->
  Z.lor (Z.shiftl b0 24)
        (Z.lor (Z.shiftl b1 16) (Z.lor (Z.shiftl b2 8) b3))
  = b0 * 2 ^ 24 + b1 * 2 ^ 16 + b2 * 2 ^ 8 + b3.
Proof.
  intros H1 H2 H3.
  rewrite (lor_shiftl_add b2 b3 8) by lia.
  rewrite (lor_shiftl_add b1 _ 16) by lia.
  rewrite (lor_shiftl_add b0 _ 24) by lia. lia.
Qed.

Lemma be_words_nth :
  forall (j : nat) (bs : list Z),
    Forall (fun b => 0 <= b < 256) bs ->
    (4 * j + 3 < List.length bs)%nat ->
    nth j (Sha256.be_words bs) 0
    = nth (4 * j) bs 0 * 2 ^ 24 + nth (4 * j + 1) bs 0 * 2 ^ 16
      + nth (4 * j + 2) bs 0 * 2 ^ 8 + nth (4 * j + 3) bs 0.
Proof.
  induction j as [|j IH]; intros bs HF Hl;
    destruct bs as [|b0 [|b1 [|b2 [|b3 rest]]]]; simpl in Hl; try lia;
    inversion HF as [|? ? _ HF1]; subst;
    inversion HF1 as [|? ? B1 HF2]; subst;
    inversion HF2 as [|? ? B2 HF3]; subst;
    inversion HF3 as [|? ? B3 HF4]; subst.
  - cbn [Sha256.be_words nth Nat.mul Nat.add]. now apply be_word_spec.
  - cbn [Sha256.be_words nth]. rewrite (IH rest HF4) by lia.
    replace (4 * S j)%nat with (S (S (S (S (4 * j))))) by lia.
    replace (S (S (S (S (4 * j)))) + 1)%nat
      with (S (S (S (S (4 * j + 1))))) by lia.
    replace (S (S (S (S (4 * j)))) + 2)%nat
      with (S (S (S (S (4 * j + 2))))) by lia.
    replace (S (S (S (S (4 * j)))) + 3)%nat
      with (S (S (S (S (4 * j + 3))))) by lia.
    reflexivity.
Qed.

Lemma be_words_length :
  forall (n : nat) (bs : list Z),
    List.length bs = (4 * n)%nat -> List.length (Sha256.be_words bs) = n.
Proof.
  induction n as [|n IH]; intros bs Hl;
    destruct bs as [|b0 [|b1 [|b2 [|b3 rest]]]]; simpl in Hl; try lia.
  - reflexivity.
  - cbn [Sha256.be_words List.length]. f_equal. apply IH. lia.
Qed.

Lemma blocks_spec :
  forall (n fuel : nat) (ws : list Z),
    List.length ws = (16 * n)%nat -> (n <= fuel)%nat ->
    Sha256.blocks fuel ws
    = map (fun i => firstn 16 (skipn (16 * i) ws)) (seq 0 n).
Proof.
  induction n as [|n IH]; intros fuel ws Hl Hf.
  - destruct ws; [|discriminate Hl]. now destruct fuel.
  - destruct fuel as [|fuel]; [lia|].
    destruct ws as [|x ws']; [discriminate Hl|].
    cbn [Sha256.blocks seq map]. f_equal.
    rewrite (IH fuel (skipn 16 (x :: ws')))
      by (try rewrite length_skipn; lia).
    rewrite <- seq_shift, map_map. apply map_ext. intros i.
    rewrite skipn_skipn. do 2 f_equal. lia.
Qed.

Lemma block_word (padded : list Z) (n i t : nat) :
  Forall (fun b => 0 <= b < 256) padded ->
  List.length padded = (64 * n)%nat -> (i < n)%nat -> (t < 16)%nat ->
  Fips180.M padded i t
  = nth t (firstn 16 (skipn (16 * i) (Sha256.be_words padded))) 0.
Proof.
  intros HF Hl Hi Ht. rewrite nth_firstn.
  apply Nat.ltb_lt in Ht. rewrite Ht. apply Nat.ltb_lt in Ht.
  rewrite nth_skipn, (be_words_nth _ padded HF) by lia.
  unfold Fips180.M.
  replace (4 * (16 * i + t))%nat with (64 * i + 4 * t)%nat by lia.
  now rewrite Nat.add_0_r.
Qed.

Lemma hash_value_spec (padded : list Z) (n : nat) :
  Forall (fun b => 0 <= b < 256) padded ->
  List.length padded = (64 * n)%nat ->
  forall i, (i <= n)%nat ->
    Fips180.hash_value padded i
    = words_of
        (fold_left Sha256.compress
           (map (fun i => firstn 16 (skipn (16 * i)
                                       (Sha256.be_words padded)))
                (seq 0 i))
           Sha256.H0).
Proof.
  intros HF Hl. induction i as [|i IH]; intros Hi.
  - vm_compute. reflexivity.
  - cbn [Fips180.hash_value]. rewrite IH by lia.
    rewrite seq_S, map_app, fold_left_app. cbn [map fold_left Nat.add].
    symmetry. apply compress_spec.
    + rewrite length_firstn, length_skipn,
        (be_words_length (16 * n) padded) by lia. lia.
    + intros t Ht. now apply (block_word padded n).
Qed.

(** *** Padding *)

Lemma zero_bits_mod (l : Z) :
  Fips180.zero_bits (8 * l) = Fips180.zero_bits (8 * (l mod 64)).
Proof.
  unfold Fips180.zero_bits. f_equal. apply filter_ext. intros k.
  f_equal. Z.div_mod_to_equations. lia.
Qed.

Lemma zero_bytes_spec (l : Z) :
  (Fips180.zero_bits (8 * l) - 7) / 8 = (55 - l) mod 64.
Proof.
  assert (T : forallb
                (fun r => ((Fips180.zero_bits (8 * r) - 7) / 8
                           =? (55 - r) mod 64)%Z)
                (map Z.of_nat (seq 0 64)) = true)
    by (vm_compute; reflexivity).
  rewrite forallb_forall in T.
  rewrite zero_bits_mod.
  assert (B : 0 <= l mod 64 < 64) by (apply Z.mod_pos_bound; lia).
  assert (I : In (l mod 64) (map Z.of_nat (seq 0 64))).
  { apply in_map_iff. exists (Z.to_nat (l mod 64)). split; [lia|].
    apply in_seq. lia. }
  apply T, Z.eqb_eq in I. rewrite I.
  Z.div_mod_to_equations. lia.
Qed.

Lemma base256_be_bytes (n : nat) (x : Z) :
  Fips180.base256 n x = Sha256.be_bytes n x.
Proof.
  unfold Fips180.base256, Sha256.be_bytes. apply map_ext. intros i.
  change 255 with (Z.ones 8). rewrite Z.land_ones by lia.
  rewrite Z.shiftr_div_pow2 by lia. rewrite Z.pow_mul_r by lia.
  reflexivity.
Qed.

Lemma padding_spec (msg : list Z) : Fips180.padding msg = Sha256.pad msg.
Proof.
  unfold Fips180.padding, Sha256.pad. cbv zeta.
  now rewrite zero_bytes_spec, base256_be_bytes.
Qed.

Lemma be_bytes_length (n : nat) (x : Z) :
  List.length (Sha256.be_bytes n x) = n.
Proof.
  unfold Sha256.be_bytes. now rewrite length_map, length_rev, length_seq.
Qed.

Lemma pad_length (msg : list Z) :
  exists n, List.length (Sha256.pad msg) = (64 * n)%nat.
Proof.
  unfold Sha256.pad. cbv zeta.
  rewrite !length_app, repeat_length, be_bytes_length. cbn [List.length].
  exists (Z.to_nat ((Z.of_nat (List.length msg) + 9
                     + (55 - Z.of_nat (List.length msg)) mod 64) / 64)).
  Z.div_mod_to_equations. lia.
Qed.

Lemma pad_bytes (msg : list Z) :
  Forall (fun b => 0 <= b < 256) msg ->
  Forall (fun b => 0 <= b < 256) (Sha256.pad msg).
Proof.
  intros H. unfold Sha256.pad. cbv zeta.
  repeat (apply Forall_app; split); [exact H|repeat constructor; lia| |].
  - apply Forall_forall. intros b Hb. apply repeat_spec in Hb. lia.
  - unfold Sha256.be_bytes. apply Forall_forall. intros b Hb.
    apply in_map_iff in Hb. destruct Hb as (i & <- & _).
    change 255 with (Z.ones 8). rewrite Z.land_ones by lia.
    apply Z.mod_pos_bound. lia.
Qed.

Lemma digest_spec (msg : list Z) :
  Forall (fun b => 0 <= b < 256) msg ->
  Fips180.hash_value (Fips180.padding msg) (Fips180.N (Fips180.padding msg))
  = words_of (Sha256.digest msg).
Proof.
  intros HF. rewrite padding_spec.
  destruct (pad_length msg) as [n Hn].
  assert (HN : Fips180.N (Sha256.pad msg) = n).
  { unfold Fips180.N. rewrite Hn, Nat.mul_comm. now apply Nat.div_mul. }
  rewrite HN, (hash_value_spec _ n (pad_bytes msg HF) Hn n) by lia.
  unfold Sha256.digest. cbv zeta.
  pose proof (be_words_length (16 * n) (Sha256.pad msg)) as L.
  rewrite (blocks_spec n) by lia. reflexivity.
Qed.

(** *** The hexadecimal form *)

Lemma hex_digit_char (n : Z) :
  Sha256.hex_digit n = Fips180.hex_char (n mod 16).
Proof.
  unfold Sha256.hex_digit. change 15 with (Z.ones 4).
  rewrite Z.land_ones by lia. change (2 ^ 4) with 16.
  assert (B : 0 <= n mod 16 < 16) by (apply Z.mod_pos_bound; lia).
  set (m := n mod 16) in *. clearbody m.
  assert (C : m = 0 \/ m = 1 \/ m = 2 \/ m = 3 \/ m = 4 \/ m = 5 \/ m = 6
              \/ m = 7 \/ m = 8 \/ m = 9 \/ m = 10 \/ m = 11 \/ m = 12
              \/ m = 13 \/ m = 14 \/ m = 15) by lia.
  repeat (destruct C as [->|C]; [reflexivity|]). subst m. reflexivity.
Qed.

Lemma hex_high (x k : Z) :
  0 <= k ->
  Sha256.hex_digit (Z.shiftr x (8 * k + 4))
  = Fips180.hex_char ((x / 256 ^ k) mod 256 / 16).
Proof.
  intros Hk. rewrite hex_digit_char, Z.shiftr_div_pow2 by lia. f_equal.
  rewrite Z.pow_add_r, Z.pow_mul_r, <- Z.div_div by lia.
  change (2 ^ 8) with 256. change (2 ^ 4) with 16.
  generalize (x / 256 ^ k). intros q. Z.div_mod_to_equations. lia.
Qed.

Lemma hex_low (x k : Z) :
  0 <= k ->
  Sha256.hex_digit (Z.shiftr x (8 * k))
  = Fips180.hex_char ((x / 256 ^ k) mod 256 mod 16).
Proof.
  intros Hk. rewrite hex_digit_char, Z.shiftr_div_pow2 by lia. f_equal.
  rewrite Z.pow_mul_r by lia. change (2 ^ 8) with 256.
  generalize (x / 256 ^ k). intros q. Z.div_mod_to_equations. lia.
Qed.

Lemma hex_word_spec (x : Z) (tail : list ascii) :
  Sha256.hex_word x (string_of_list_ascii tail)
  = string_of_list_ascii
      (flat_map (fun b => [Fips180.hex_char (b / 16);
                           Fips180.hex_char (b mod 16)])
                (Fips180.base256 4 x) ++ tail).
Proof.
  unfold Sha256.hex_word, Fips180.base256.
  cbn [seq rev app map flat_map string_of_list_ascii].
  change (Z.shiftr x 28) with (Z.shiftr x (8 * 3 + 4)).
  change (Z.shiftr x 24) with (Z.shiftr x (8 * 3)).
  change (Z.shiftr x 20) with (Z.shiftr x (8 * 2 + 4)).
  change (Z.shiftr x 16) with (Z.shiftr x (8 * 2)).
  change (Z.shiftr x 12) with (Z.shiftr x (8 * 1 + 4)).
  change (Z.shiftr x 8) with (Z.shiftr x (8 * 1)).
  change (Z.shiftr x 4) with (Z.shiftr x (8 * 0 + 4)).
  change (Sha256.hex_digit x) with (Sha256.hex_digit (Z.shiftr x (8 * 0))).
  rewrite !hex_high, !hex_low by lia. reflexivity.
Qed.

Lemma hash_password_is_sha256 (password : string) :
  hash_password password = Fips180.hexdigest password.
Proof.
  unfold hash_password, Sha256.hexdigest, Fips180.hexdigest, Fips180.digest.
  assert (E : map (fun c => Z.of_nat (nat_of_ascii c))
                  (list_ascii_of_string password)
              = Sha256.encode password).
  { unfold Sha256.encode. apply map_ext. intros c.
    unfold nat_of_ascii. apply N_nat_Z. }
  rewrite E, digest_spec.
  - unfold words_of, Sha256.hex_state. cbv beta iota. cbn [flat_map].
    rewrite !flat_map_app. cbn [flat_map].
    now rewrite <- !hex_word_spec.
  - unfold Sha256.encode. apply Forall_forall. intros b Hb.
    apply in_map_iff in Hb. destruct Hb as (c & <- & _).
    pose proof (nat_ascii_bounded c) as B. unfold nat_of_ascii in B. lia.
Qed.


(** ** The identity gate *)

(** C8.  On every route that depends on [verify_token]: when the verifier
    fails on the supplied token the response is status 401 with the detail
    "Invalid or expired token" and the store is unchanged, whatever the
    request asks for; when the verifier returns a claim, the response and the
    store are those of the route's handler run with that claim as [user], and
    the protected route returns the claim itself. *)
Theorem verify_token_gate :
  forall (Claims : Type) (verify_id_token : string -> option Claims)
         (req : Request) (token : string) (db : DB),
    token_of req = Some token ->
    (verify_id_token token = None ->
     handle verify_id_token req db
     = (HTTPException 401 "Invalid or expired token", db))
    /\ (forall user : Claims,
          verify_id_token token = Some user ->
          handle verify_id_token req db = endpoint req user db)
    /\ (forall user : Claims,
          verify_id_token token = Some user ->
          handle verify_id_token (GET_protected token) db
          = (Ok (ProtectedBody "Welcome to a protected route!" user), db)).
Proof.
  intros Claims verify_id_token req token db Htok.
  split; [|split].
  - intros Hfail.
    destruct req; inversion Htok; subst; cbn [handle];
      unfold verify_token; rewrite Hfail; reflexivity.
  - intros user Hok.
    destruct req; inversion Htok; subst; cbn [handle endpoint];
      unfold verify_token; rewrite Hok; reflexivity.
  - intros user Hok. cbn [handle]. unfold verify_token. rewrite Hok.
    reflexivity.
Qed.

Lemma verify_token_gate_witness :
  token_of (DELETE_expenses "expired" 1) = Some "expired"
  /\ (demo_verify "expired" = None ->
      handle demo_verify (DELETE_expenses "expired" 1) db_lunch
      = (HTTPException 401 "Invalid or expired token", db_lunch))
  /\ (forall user : string,
        demo_verify "expired" = Some user ->
        handle demo_verify (DELETE_expenses "expired" 1) db_lunch
        = endpoint (DELETE_expenses "expired" 1) user db_lunch)
  /\ (forall user : string,
        demo_verify "expired" = Some user ->
        handle demo_verify (GET_protected "expired") db_lunch
        = (Ok (ProtectedBody "Welcome to a protected route!" user), db_lunch)).
Proof.
  split; [reflexivity|].
  apply (verify_token_gate string demo_verify
           (DELETE_expenses "expired" 1) "expired" db_lunch).
  reflexivity.
Defined.

(** ** Goals: the progress field of an update *)




(** ** The statements at concrete requests *)


Lemma get_expenses_graph_totals_witness :
  In (mkGraphPoint "2024-01-01" 15)
     [mkGraphPoint "2024-01-01" 15; mkGraphPoint "2024-01-02" 2]
  /\ total (mkGraphPoint "2024-01-01" 15)
     = float_sum (map ExpenseInDB.amount
                    (filter (has_date "2024-01-01") (expenses db_three))).
Proof.
  split; [simpl; auto|].
  destruct (proj1 get_expenses_graph_totals unit tt db_three)
    as (pts & Hr & _ & _ & Htot & _).
  apply (Htot (mkGraphPoint "2024-01-01" 15)).
  assert (E : pts = [mkGraphPoint "2024-01-01" 15;
                     mkGraphPoint "2024-01-02" 2]).
  { rewrite (proj2 get_expenses_graph_totals) in Hr. now inversion Hr. }
  rewrite E. simpl. auto.
Defined.

Lemma delete_expense_vs_delete_goal_witness :
  (in_int64 7 /\ in_int64 1)
  /\ (~ In 7 (map ExpenseInDB.id (expenses db_save))
   /\ snd (delete_expense 7 tt db_save) = db_save)
  /\ (~ In 7 (map GoalInDB.id (goals db_save))
      /\ delete_goal 7 tt db_save
         = (HTTPException 404 "Goal not found", db_save))
  /\ (In 1 (map GoalInDB.id (goals db_save))
      /\ fst (delete_goal 1 tt db_save)
         = Ok (mkMessage "Goal deleted successfully")
      /\ goals (snd (delete_goal 1 tt db_save))
         = filter (fun row => negb (GoalInDB.id row =? 1)%Z) (goals db_save)).
Proof.
  assert (R7 : in_int64 7) by (unfold in_int64; lia).
  assert (R1 : in_int64 1) by (unfold in_int64; lia).
  pose proof (delete_expense_vs_delete_goal unit tt 7 db_save R7)
    as (_ & _ & He & Hg & _).
  pose proof (delete_expense_vs_delete_goal unit tt 1 db_save R1)
    as (_ & _ & _ & _ & Hd).
  assert (N1 : ~ In 7 (map ExpenseInDB.id (expenses db_save))).
  { simpl. tauto. }
  assert (N2 : ~ In 7 (map GoalInDB.id (goals db_save))).
  { simpl. intros [H|[]]. discriminate H. }
  assert (I1 : In 1 (map GoalInDB.id (goals db_save))).
  { simpl. auto. }
  split; [split; [exact R7|exact R1]|].
  split; [split; [exact N1|exact (He N1)]|].
  split; [split; [exact N2|exact (Hg N2)]|].
  split; [exact I1|exact (Hd I1)].
Defined.



Lemma get_expenses_sorted_stable_witness :
  db_ok db_three
  /\ exists l,
       get_expenses tt db_three = (Ok l, db_three)
       /\ Permutation (expenses db_three) l
       /\ StronglySorted date_le l
       /\ (forall d, filter (has_date d) l
                     = filter (has_date d) (expenses db_three))
       /\ forall d, StronglySorted expense_id_lt (filter (has_date d) l).
Proof.
  assert (Hok : db_ok db_three).
  { unfold db_ok, db_three, expense_id_lt. simpl.
    repeat split; repeat constructor; simpl; lia. }
  split; [exact Hok|].
  destruct (get_expenses_sorted_stable unit tt db_three)
    as (l & H1 & H2 & H3 & H4 & H5 & _).
  exists l. repeat split; try assumption. exact (H5 Hok).
Defined.


(** ** Test vectors and sample requests *)

Example sha_constants :
  Sha256.K = map Sha256.frac32_cbrt Sha256.primes
  /\ hd 0 Sha256.K = 0x428a2f98
  /\ last Sha256.K 0 = 0xc67178f2
  /\ Sha256.ha Sha256.H0 = 0x6a09e667.
Proof. repeat split; vm_compute; reflexivity. Qed.

Example fips180_abc :
  Fips180.hexdigest "abc"
  = "ba7816bf8f01cfea414140de5dae2223b00361a396177a9cb410ff61f20015ad".
Proof. rewrite <- hash_password_is_sha256. vm_compute. reflexivity. Qed.

Example sha_empty : hash_password "" =
  "e3b0c44298fc1c149afbf4c8996fb92427ae41e4649b934ca495991b7852b855".
Proof. vm_compute. reflexivity. Qed.

Example sha_two_blocks :
  hash_password "abcdbcdecdefdefgefghfghighijhijkijkljklmklmnlmnomnopnopq" =
  "248d6a61d20638b8e5c026930c3e6039a33ce45964ff2167f6ecedd419db06c1".
Proof. vm_compute. reflexivity. Qed.

Example strptime_invalid_month : Strptime.strptime "2024-13-01" = None.
Proof. reflexivity. Qed.

Example strptime_leap_day :
  Strptime.strptime "2024-02-29" = Some (Strptime.mkDate 2024 2 29)
  /\ Strptime.strptime "2023-02-29" = None
  /\ Strptime.strptime "1900-02-29" = None.
Proof. repeat split; reflexivity. Qed.

Example strptime_trailing_data :
  Strptime.strptime "2024-01-311" = None
  /\ Strptime.strptime "2024-01-01 " = None.
Proof. split; reflexivity. Qed.

(** [strptime] does not insist on zero padding; the row stores the date in
    ISO form and the response repeats the submitted string. *)
Example add_expense_unpadded :
  add_expense (Expense.mk "tea" 3 "food" "2024-1-5") tt init_db
  = (Ok (ExpenseInDB.mk 1 "tea" 3 "food" "2024-1-5"),
     mkDB [] [ExpenseInDB.mk 1 "tea" 3 "food" "2024-01-05"] 1 [] 0).
Proof. vm_compute. reflexivity. Qed.

Example add_expense_invalid_month :
  add_expense (Expense.mk "tea" 3 "food" "2024-13-01") tt db_lunch
  = (HTTPException 400 "Invalid date format. Use YYYY-MM-DD", db_lunch).
Proof. reflexivity. Qed.

(** Dates inserted out of order are listed in ascending order. *)
Example get_expenses_out_of_order :
  fst (get_expenses tt
         (mkDB []
            [ExpenseInDB.mk 1 "b" 4 "x" "2024-02-01";
             ExpenseInDB.mk 2 "a" 7 "x" "2024-01-15";
             ExpenseInDB.mk 3 "c" 1 "x" "2024-02-01"] 3 [] 0))
  = Ok [ExpenseInDB.mk 2 "a" 7 "x" "2024-01-15";
        ExpenseInDB.mk 1 "b" 4 "x" "2024-02-01";
        ExpenseInDB.mk 3 "c" 1 "x" "2024-02-01"].
Proof. vm_compute. reflexivity. Qed.

(** An id is not handed out again after its row is deleted. *)
Example autoincrement_not_reused :
  fst (add_expense (Expense.mk "tea" 3 "food" "2024-03-06") tt
         (snd (delete_expense 1 tt db_lunch)))
  = Ok (ExpenseInDB.mk 2 "tea" 3 "food" "2024-03-06").
Proof. vm_compute. reflexivity. Qed.

Example login_after_register :
  fst (login_user (UserLogin.mk "a@b.c" "pw")
         (snd (register_user (UserRegister.mk "a@b.c" "pw") init_db)))
  = Ok (mkMessage "Login successful")
  /\ fst (login_user (UserLogin.mk "a@b.c" "wrong")
            (snd (register_user (UserRegister.mk "a@b.c" "pw") init_db)))
     = HTTPException 401 "Invalid credentials"
  /\ fst (login_user (UserLogin.mk "x@y.z" "pw")
            (snd (register_user (UserRegister.mk "a@b.c" "pw") init_db)))
     = HTTPException 401 "Invalid credentials".
Proof. repeat split; vm_compute; reflexivity. Qed.

Example delete_expense_message :
  fst (delete_expense 42 tt init_db)
  = Ok (mkMessage "Expense 42 deleted successfully").
Proof. reflexivity. Qed.

(** * Further properties of the handlers *)

(** ** Routing: which requests touch what *)

Lemma respond_snd {Claims A : Type} (f : A -> Body Claims)
    (r : Result A * DB) :
  snd (respond f r) = snd r.
Proof. destruct r as [[b|c d| |e] db]; reflexivity. Qed.

Lemma respond_fst_401 {Claims A : Type} (f : A -> Body Claims)
    (r : Result A * DB) (detail : string) :
  fst (respond f r) = HTTPException 401 detail ->
  fst r = HTTPException 401 detail.
Proof. destruct r as [[b|c d| |e] db]; simpl; congruence. Qed.

Lemma Depends_cases {Claims A : Type}
    (verify_id_token : string -> option Claims) (token : string)
    (h : Claims -> DB -> Result A * DB) (db : DB) :
  (verify_id_token token = None
   /\ Depends (verify_token verify_id_token token) h db
      = (HTTPException 401 "Invalid or expired token", db))
  \/ (exists user, verify_id_token token = Some user
      /\ Depends (verify_token verify_id_token token) h db = h user db).
Proof.
  unfold Depends, verify_token.
  destruct (verify_id_token token) as [user|]; [right; eauto|left; auto].
Qed.

Lemma with_goal_cases {Claims A : Type} (raw : RawGoal.t)
    (h : Goal.t -> Claims -> DB -> Result A * DB) (user : Claims) (db : DB) :
  with_goal raw h user db = (RequestValidationError, db)
  \/ exists goal, RawGoal.validate raw = Some goal
                  /\ with_goal raw h user db = h goal user db.
Proof.
  unfold with_goal. destruct (RawGoal.validate raw); [right; eauto|left; auto].
Qed.

Ltac gate v :=
  match goal with
  | |- context [Depends (verify_token v ?t) ?h ?d] =>
      let user := fresh "user" in
      destruct (Depends_cases v t h d) as [[_ ->]|(user & _ & ->)]
  end.

Ltac validated :=
  match goal with
  | |- context [with_goal ?raw ?h ?u ?d] =>
      let goal := fresh "goal" in
      destruct (with_goal_cases raw h u d) as [->|(goal & _ & ->)]
  end.

Lemma login_user_snd (user : UserLogin.t) (db : DB) :
  snd (login_user user db) = db.
Proof.
  unfold login_user. destruct (find _ _) as [r|]; [|reflexivity].
  now destruct (String.eqb _ _).
Qed.

(** X1.  The four reading routes, login and root leave the whole store as it
    is; only registration changes the users, only adding and deleting an
    expense change the expenses and their id counter, and only creating,
    updating and deleting a goal change the goals and their id counter. *)
Theorem handle_frame :
  forall (Claims : Type) (verify_id_token : string -> option Claims)
         (req : Request) (db : DB),
    (read_only req = true -> snd (handle verify_id_token req db) = db)
    /\ (writes_users req = false ->
        users (snd (handle verify_id_token req db)) = users db)
    /\ (writes_expenses req = false ->
        expenses (snd (handle verify_id_token req db)) = expenses db
        /\ expenses_seq (snd (handle verify_id_token req db))
           = expenses_seq db)
    /\ (writes_goals req = false ->
        goals (snd (handle verify_id_token req db)) = goals db
        /\ goals_seq (snd (handle verify_id_token req db)) = goals_seq db).
Proof.
  intros Claims v req db.
  destruct req; cbn [handle read_only writes_users writes_expenses
                     writes_goals];
    rewrite respond_snd; try rewrite login_user_snd;
    try gate v; try validated;
    repeat split; try congruence;
    try (unfold register_user; destruct (existsb _ _); reflexivity);
    try (unfold add_expense; destruct (Strptime.strptime _);
         [destruct (binds_null _)|]; reflexivity);
    try (unfold create_goal; destruct (_ || _); reflexivity);
    try (unfold update_goal; destruct (find _ _);
         [destruct (_ || _)|]; reflexivity);
    try (unfold delete_goal; destruct (_ =? _)%nat; reflexivity).
Qed.

Lemma handle_gated {Claims : Type} (verify_id_token : string -> option Claims)
    (req : Request) (token : string) (db : DB) :
  token_of req = Some token ->
  handle verify_id_token req db =
  match verify_id_token token with
  | Some user => endpoint req user db
  | None => (HTTPException 401 "Invalid or expired token", db)
  end.
Proof.
  intros H. destruct req; inversion H; subst; cbn [handle endpoint];
    unfold verify_token; destruct (verify_id_token token); reflexivity.
Qed.

(** No handler behind the gate answers with status 401 itself. *)
Lemma endpoint_not_401 {Claims : Type} (req : Request) (token : string)
    (user : Claims) (db : DB) (detail : string) :
  token_of req = Some token ->
  fst (endpoint req user db) <> HTTPException 401 detail.
Proof.
  intros H. destruct req; inversion H; subst; cbn [endpoint]; intros E;
    apply respond_fst_401 in E; revert E; try validated;
    try (unfold add_expense; destruct (Strptime.strptime _);
         [destruct (binds_null _)|]);
    try (unfold create_goal; destruct (_ || _));
    try (unfold update_goal; destruct (find _ _); [destruct (_ || _)|]);
    try (unfold delete_goal; destruct (_ =? _)%nat);
    discriminate.
Qed.

(** X2.  The answer to a request is the same under every token verifier
    exactly for the three routes that do not depend on [verify_token]: root,
    registration and login.  Every other route tells a verifier that accepts
    the token from one that rejects it. *)
Theorem verifier_matters_iff_gated :
  forall (Claims : Type) (user : Claims) (req : Request) (db : DB),
    (forall v1 v2 : string -> option Claims,
        handle v1 req db = handle v2 req db)
    <-> token_of req = None.
Proof.
  intros Claims user req db. split.
  - intros H. destruct (token_of req) as [token|] eqn:T; [|reflexivity].
    exfalso. specialize (H reject_all (accept_all user)).
    rewrite (handle_gated reject_all req token db T) in H.
    rewrite (handle_gated (accept_all user) req token db T) in H.
    cbn [reject_all accept_all] in H.
    apply (endpoint_not_401 req token user db "Invalid or expired token" T).
    now rewrite <- H.
  - intros T v1 v2. destruct req; try discriminate T; reflexivity.
Qed.

(** ** Goals: create, update, delete and look up *)

Lemma find_key_None {A : Type} (key : A -> Z) (x : Z) (l : list A) :
  find (fun row => (key row =? x)%Z) l = None <-> ~ In x (map key l).
Proof.
  induction l as [|y l IH]; simpl; [tauto|].
  destruct (key y =? x)%Z eqn:E.
  - apply Z.eqb_eq in E. split; [discriminate|tauto].
  - apply Z.eqb_neq in E. rewrite IH. tauto.
Qed.

Lemma find_filter_same {A : Type} (key : A -> Z) (x : Z) (l : list A) :
  find (fun row => (key row =? x)%Z)
       (filter (fun row => negb (key row =? x)%Z) l) = None.
Proof.
  induction l as [|y l IH]; simpl; [reflexivity|].
  destruct (key y =? x)%Z eqn:E; simpl; [exact IH|]. now rewrite E.
Qed.

Lemma find_filter_other {A : Type} (key : A -> Z) (x y : Z) (l : list A) :
  y <> x ->
  find (fun row => (key row =? y)%Z)
       (filter (fun row => negb (key row =? x)%Z) l)
  = find (fun row => (key row =? y)%Z) l.
Proof.
  intros N. induction l as [|z l IH]; simpl; [reflexivity|].
  destruct (key z =? x)%Z eqn:E; simpl.
  - apply Z.eqb_eq in E.
    destruct (key z =? y)%Z eqn:E'; [|exact IH].
    apply Z.eqb_eq in E'. congruence.
  - destruct (key z =? y)%Z; [reflexivity|exact IH].
Qed.

Lemma goals_rebuilt (l : list GoalInDB.t) :
  map (fun row => GoalInDB.mk (GoalInDB.id row) (GoalInDB.description row)
                    (GoalInDB.amount row) (GoalInDB.progress row)) l = l.
Proof. induction l as [|[i d a p] l IH]; simpl; congruence. Qed.


Lemma map_update_ids (goal_id : Z) d a p (l : list GoalInDB.t) :
  map GoalInDB.id
      (map (fun row => if (GoalInDB.id row =? goal_id)%Z
                       then GoalInDB.mk (GoalInDB.id row) d a p else row) l)
  = map GoalInDB.id l.
Proof.
  rewrite map_map. apply map_ext. intros row. now destruct (_ =? _)%Z.
Qed.

Lemma find_update_other (goal_id other : Z) d a p (l : list GoalInDB.t) :
  other <> goal_id ->
  find (fun row => (GoalInDB.id row =? other)%Z)
       (map (fun row => if (GoalInDB.id row =? goal_id)%Z
                        then GoalInDB.mk (GoalInDB.id row) d a p else row) l)
  = find (fun row => (GoalInDB.id row =? other)%Z) l.
Proof.
  intros N. induction l as [|x l IH]; simpl; [reflexivity|].
  destruct (GoalInDB.id x =? goal_id)%Z eqn:E; simpl.
  - apply Z.eqb_eq in E.
    destruct (GoalInDB.id x =? other)%Z eqn:E'; [|exact IH].
    apply Z.eqb_eq in E'. congruence.
  - destruct (GoalInDB.id x =? other)%Z; [reflexivity|exact IH].
Qed.

(** X4.  Updating a goal under an id that is an SQLite integer (signed 64
    bits) fails with status 404 exactly when no stored goal has the id, and
    then nothing is written. *)
Theorem update_goal_not_found :
  forall (Claims : Type) (user : Claims) (goal_id : Z) (goal : Goal.t)
         (db : DB),
    in_int64 goal_id ->
    (fst (update_goal goal_id goal user db)
     = HTTPException 404 "Goal not found"
     <-> ~ In goal_id (map GoalInDB.id (goals db)))
    /\ (~ In goal_id (map GoalInDB.id (goals db)) ->
        snd (update_goal goal_id goal user db) = db).
Proof.
  intros Claims user goal_id goal db _. unfold update_goal.
  rewrite <- (find_key_None GoalInDB.id).
  destruct (find _ (goals db)) as [existing|]; [destruct (_ || _)|]; split;
    try split; try discriminate; try reflexivity; congruence.
Qed.

(** X5.  An update never adds, removes or renumbers a goal, and it leaves
    every goal with another id exactly as it was. *)
Theorem update_goal_touches_one :
  forall (Claims : Type) (user : Claims) (goal_id : Z) (goal : Goal.t)
         (db : DB),
    map GoalInDB.id (goals (snd (update_goal goal_id goal user db)))
    = map GoalInDB.id (goals db)
    /\ (forall other, other <> goal_id ->
          lookup_goal other (snd (update_goal goal_id goal user db))
          = lookup_goal other db).
Proof.
  intros Claims user goal_id goal db. unfold update_goal, lookup_goal.
  destruct (find _ (goals db)) as [existing|]; [destruct (_ || _)|];
    cbn [snd goals].
  - split; reflexivity.
  - split; [apply map_update_ids|].
    intros other N. now apply find_update_other.
  - split; reflexivity.
Qed.

Lemma map_update_twice (goal_id : Z) d a p (l : list GoalInDB.t) :
  map (fun row => if (GoalInDB.id row =? goal_id)%Z
                  then GoalInDB.mk (GoalInDB.id row) d a p else row)
      (map (fun row => if (GoalInDB.id row =? goal_id)%Z
                       then GoalInDB.mk (GoalInDB.id row) d a p else row) l)
  = map (fun row => if (GoalInDB.id row =? goal_id)%Z
                    then GoalInDB.mk (GoalInDB.id row) d a p else row) l.
Proof.
  rewrite map_map. apply map_ext. intros row.
  destruct (GoalInDB.id row =? goal_id)%Z eqn:E; cbn [GoalInDB.id];
    now rewrite E.
Qed.

(** X6.  Sending the same update twice is the same as sending it once: the
    second request gets the same answer and leaves the same store. *)
Theorem update_goal_idempotent :
  forall (Claims : Type) (user : Claims) (goal_id : Z) (goal : Goal.t)
         (db : DB),
    update_goal goal_id goal user (snd (update_goal goal_id goal user db))
    = update_goal goal_id goal user db.
Proof.
  intros Claims user goal_id goal db. unfold update_goal at 2 3.
  destruct (find _ (goals db)) as [existing|] eqn:F; cbn [snd].
  - cbv zeta. cbn [merge_progress].
    destruct (truthy_str (Goal.description goal)) eqn:Td,
             (truthy_float (Goal.amount goal)) eqn:Ta;
      match goal with
      | |- context [if ?c then (Uncaught _, _) else _] => destruct c eqn:B
      end; cbn [snd];
      unfold update_goal; cbn [goals users expenses expenses_seq goals_seq];
      try rewrite (find_goal_updated goal_id _ _ _ (goals db) existing F);
      try rewrite F;
      cbn [GoalInDB.description GoalInDB.amount GoalInDB.progress
           merge_progress];
      rewrite Td, Ta, B; try reflexivity;
      now rewrite map_update_twice.
  - unfold update_goal. now rewrite F.
Qed.

(** X7.  For an id that is an SQLite integer (signed 64 bits): after a goal
    is deleted no lookup finds its id, every goal with another id is found
    as before, and deleting the same id again fails with status 404. *)
Theorem delete_goal_then_lookup :
  forall (Claims : Type) (user : Claims) (goal_id : Z) (db : DB),
    in_int64 goal_id ->
    lookup_goal goal_id (snd (delete_goal goal_id user db)) = None
    /\ (forall other, other <> goal_id ->
          lookup_goal other (snd (delete_goal goal_id user db))
          = lookup_goal other db)
    /\ delete_goal goal_id user (snd (delete_goal goal_id user db))
       = (HTTPException 404 "Goal not found",
          snd (delete_goal goal_id user db)).
Proof.
  intros Claims user goal_id db _.
  assert (Hgone : lookup_goal goal_id (snd (delete_goal goal_id user db))
                  = None).
  { unfold delete_goal, lookup_goal.
    destruct (_ =? 0)%nat eqn:E; cbn [snd goals].
    - apply (rowcount_zero GoalInDB.id) in E.
      now apply (find_key_None GoalInDB.id).
    - apply (find_filter_same GoalInDB.id). }
  split; [exact Hgone|]. split.
  - intros other N. unfold delete_goal, lookup_goal.
    destruct (_ =? 0)%nat; cbn [snd goals]; [reflexivity|].
    now apply (find_filter_other GoalInDB.id).
  - unfold lookup_goal in Hgone. apply (find_key_None GoalInDB.id) in Hgone.
    apply (rowcount_zero GoalInDB.id) in Hgone.
    unfold delete_goal at 1. now rewrite Hgone.
Qed.

(** ** Expenses: delete, add and the ids handed out *)

(** X8.  After an expense id is deleted no stored expense has it, the stored
    expenses are exactly the previous ones with another id, and deleting the
    same id again changes nothing. *)
Theorem delete_expense_idempotent :
  forall (Claims : Type) (user : Claims) (expense_id : Z) (db : DB),
    ~ In expense_id
         (map ExpenseInDB.id
              (expenses (snd (delete_expense expense_id user db))))
    /\ (forall row,
          In row (expenses (snd (delete_expense expense_id user db)))
          <-> In row (expenses db) /\ ExpenseInDB.id row <> expense_id)
    /\ snd (delete_expense expense_id user
              (snd (delete_expense expense_id user db)))
       = snd (delete_expense expense_id user db).
Proof.
  intros Claims user expense_id db. unfold delete_expense. cbn [snd expenses].
  assert (Hgone : ~ In expense_id
            (map ExpenseInDB.id
               (filter (fun row => negb (ExpenseInDB.id row =? expense_id)%Z)
                       (expenses db)))).
  { intros H. apply in_map_iff in H. destruct H as (row & Hid & Hin).
    apply filter_In in Hin. destruct Hin as [_ Hne].
    rewrite Hid, Z.eqb_refl in Hne. discriminate. }
  split; [exact Hgone|]. split.
  - intros row. rewrite filter_In, negb_true_iff, Z.eqb_neq. tauto.
  - cbn [users expenses_seq goals goals_seq]. f_equal.
    now apply (filter_id_absent ExpenseInDB.id).
Qed.

Lemma filter_snoc_fresh (x : ExpenseInDB.t) (l : list ExpenseInDB.t) :
  ~ In (ExpenseInDB.id x) (map ExpenseInDB.id l) ->
  filter (fun row => negb (ExpenseInDB.id row =? ExpenseInDB.id x)%Z)
         (l ++ [x]) = l.
Proof.
  intros H. rewrite filter_app. simpl. rewrite Z.eqb_refl. simpl.
  rewrite app_nil_r. now apply (filter_id_absent ExpenseInDB.id).
Qed.

(** X9.  Deleting the expense that was just added, by the id the response
    carries, restores the expenses, the users and the goals; only the id
    counter keeps the id that was handed out. *)
Theorem add_expense_then_delete :
  forall (Claims : Type) (user : Claims) (expense : Expense.t) (db : DB)
         (e : ExpenseInDB.t),
    fst (add_expense expense user db) = Ok e ->
    expenses (snd (delete_expense (ExpenseInDB.id e) user
                     (snd (add_expense expense user db))))
    = expenses db
    /\ users (snd (delete_expense (ExpenseInDB.id e) user
                     (snd (add_expense expense user db))))
       = users db
    /\ goals (snd (delete_expense (ExpenseInDB.id e) user
                     (snd (add_expense expense user db))))
       = goals db
    /\ expenses_seq (snd (delete_expense (ExpenseInDB.id e) user
                            (snd (add_expense expense user db))))
       = ExpenseInDB.id e.
Proof.
  intros Claims user expense db e. unfold add_expense.
  destruct (Strptime.strptime _) as [d|]; [|discriminate].
  destruct (binds_null _); [discriminate|].
  cbn [fst snd]. intros H. inversion H; subst e. clear H.
  unfold delete_expense.
  cbn [snd expenses users goals expenses_seq ExpenseInDB.id].
  repeat split.
  match goal with
  | |- filter _ (_ ++ [?x]) = _ => apply (filter_snoc_fresh x)
  end.
  apply lastrowid_not_in.
Qed.

Lemma add_expense_then_delete_witness :
  fst (add_expense (Expense.mk "tea" 3 "food" "2024-03-06") tt db_lunch)
  = Ok (ExpenseInDB.mk 2 "tea" 3 "food" "2024-03-06")
  /\ expenses (snd (delete_expense 2 tt
                      (snd (add_expense
                              (Expense.mk "tea" 3 "food" "2024-03-06") tt
                              db_lunch))))
     = expenses db_lunch
  /\ users (snd (delete_expense 2 tt
                   (snd (add_expense
                           (Expense.mk "tea" 3 "food" "2024-03-06") tt
                           db_lunch))))
     = users db_lunch
  /\ goals (snd (delete_expense 2 tt
                   (snd (add_expense
                           (Expense.mk "tea" 3 "food" "2024-03-06") tt
                           db_lunch))))
     = goals db_lunch
  /\ expenses_seq (snd (delete_expense 2 tt
                          (snd (add_expense
                                  (Expense.mk "tea" 3 "food" "2024-03-06") tt
                                  db_lunch))))
     = 2.
Proof.
  split; [vm_compute; reflexivity|].
  apply (add_expense_then_delete unit tt
           (Expense.mk "tea" 3 "food" "2024-03-06") db_lunch
           (ExpenseInDB.mk 2 "tea" 3 "food" "2024-03-06")).
  vm_compute. reflexivity.
Defined.

Lemma lastrowid_gt_seq (seq : Z) (ids : list Z) : seq < lastrowid seq ids.
Proof. unfold lastrowid. lia. Qed.

Lemma handle_seq_mono {Claims : Type}
    (verify_id_token : string -> option Claims) (req : Request) (db : DB) :
  expenses_seq db <= expenses_seq (snd (handle verify_id_token req db))
  /\ goals_seq db <= goals_seq (snd (handle verify_id_token req db)).
Proof.
  destruct req; cbn [handle]; rewrite respond_snd;
    try rewrite login_user_snd; try gate verify_id_token; try validated;
    cbn [snd root protected_route get_expenses get_expenses_graph get_goals
         delete_expense expenses_seq goals_seq create_goal];
    try (split; lia).
  - unfold register_user. destruct (existsb _ _); simpl; lia.
  - unfold add_expense.
    destruct (Strptime.strptime _); [destruct (binds_null _)|]; simpl;
      try lia.
    pose proof (lastrowid_gt_seq (expenses_seq db)
                  (map ExpenseInDB.id (expenses db))). lia.
  - unfold create_goal. destruct (_ || _); simpl; [lia|].
    pose proof (lastrowid_gt_seq (goals_seq db)
                  (map GoalInDB.id (goals db))). lia.
  - unfold update_goal.
    destruct (find _ _); [destruct (_ || _)|]; simpl; lia.
  - unfold delete_goal. destruct (_ =? _)%nat; simpl; lia.
Qed.

Lemma run_seq_mono {Claims : Type}
    (verify_id_token : string -> option Claims) (reqs : list Request) :
  forall db,
    expenses_seq db <= expenses_seq (run verify_id_token reqs db)
    /\ goals_seq db <= goals_seq (run verify_id_token reqs db).
Proof.
  induction reqs as [|req reqs IH]; intros db; [simpl; lia|].
  change (run verify_id_token (req :: reqs) db)
    with (run verify_id_token reqs (snd (handle verify_id_token req db))).
  pose proof (handle_seq_mono verify_id_token req db).
  pose proof (IH (snd (handle verify_id_token req db))). lia.
Qed.

Lemma add_expense_ok {Claims : Type} (expense : Expense.t) (user : Claims)
    (db : DB) (e : ExpenseInDB.t) :
  fst (add_expense expense user db) = Ok e ->
  expenses_seq db < ExpenseInDB.id e
  /\ expenses_seq (snd (add_expense expense user db)) = ExpenseInDB.id e.
Proof.
  unfold add_expense. destruct (Strptime.strptime _); [|discriminate].
  destruct (binds_null _); [discriminate|].
  cbn [fst snd expenses_seq]. intros H. inversion H; subst e.
  cbn [ExpenseInDB.id]. split; [apply lastrowid_gt_seq|reflexivity].
Qed.

Lemma create_goal_ok {Claims : Type} (goal : Goal.t) (user : Claims)
    (db : DB) (g : GoalInDB.t) :
  fst (create_goal goal user db) = Ok g ->
  goals_seq db < GoalInDB.id g
  /\ goals_seq (snd (create_goal goal user db)) = GoalInDB.id g.
Proof.
  unfold create_goal. destruct (_ || _); [discriminate|].
  cbn [fst snd goals_seq]. intros H.
  inversion H; subst g. cbn [GoalInDB.id].
  split; [apply lastrowid_gt_seq|reflexivity].
Qed.

(** X10.  An id is never handed out twice: an expense added after any
    sequence of further requests, deletions included, gets a larger id than
    one added before them, and likewise for goals. *)
Theorem ids_never_reused :
  forall (Claims : Type) (verify_id_token : string -> option Claims)
         (user : Claims) (reqs : list Request) (db : DB),
    (forall (expense1 expense2 : Expense.t) (e1 e2 : ExpenseInDB.t),
        fst (add_expense expense1 user db) = Ok e1 ->
        fst (add_expense expense2 user
               (run verify_id_token reqs
                    (snd (add_expense expense1 user db)))) = Ok e2 ->
        ExpenseInDB.id e1 < ExpenseInDB.id e2)
    /\ (forall (goal1 goal2 : Goal.t) (g1 g2 : GoalInDB.t),
          fst (create_goal goal1 user db) = Ok g1 ->
          fst (create_goal goal2 user
                 (run verify_id_token reqs
                      (snd (create_goal goal1 user db)))) = Ok g2 ->
          GoalInDB.id g1 < GoalInDB.id g2).
Proof.
  intros Claims v user reqs db. split.
  - intros expense1 expense2 e1 e2 H1 H2.
    apply add_expense_ok in H1, H2.
    pose proof (proj1 (run_seq_mono v reqs
                         (snd (add_expense expense1 user db)))). lia.
  - intros goal1 goal2 g1 g2 H1 H2.
    apply create_goal_ok in H1, H2.
    pose proof (proj2 (run_seq_mono v reqs
                         (snd (create_goal goal1 user db)))). lia.
Qed.

(** ** Users: registration followed by login *)

Lemma register_user_ok (user : UserRegister.t) (db : DB) (m : Message) :
  fst (register_user user db) = Ok m ->
  lookup_password (UserRegister.email user) (snd (register_user user db))
  = Some (hash_password (UserRegister.password user)).
Proof.
  unfold register_user. destruct (existsb _ _) eqn:E; [discriminate|].
  intros _. unfold lookup_password. cbn [snd users]. rewrite find_snoc.
  assert (N : ~ In (UserRegister.email user) (map fst (users db))).
  { rewrite <- existsb_email_In. congruence. }
  apply lookup_password_None in N. unfold lookup_password in N.
  destruct (find _ (users db)); [discriminate|].
  cbn [fst]. now rewrite String.eqb_refl.
Qed.

Lemma login_user_fst (user : UserLogin.t) (db : DB) :
  fst (login_user user db) =
  match lookup_password (UserLogin.email user) db with
  | Some stored =>
      if String.eqb stored (hash_password (UserLogin.password user))
      then Ok (mkMessage "Login successful")
      else HTTPException 401 "Invalid credentials"
  | None => HTTPException 401 "Invalid credentials"
  end.
Proof.
  unfold login_user, lookup_password.
  destruct (find _ (users db)) as [r|]; [|reflexivity]. simpl.
  now destruct (String.eqb _ _).
Qed.

(** X11.  After a registration that was answered with success, logging in
    with the same email and password succeeds, and logging in with that
    email and any password of another hash is refused with status 401. *)
Theorem register_then_login :
  forall (user : UserRegister.t) (db : DB) (m : Message),
    fst (register_user user db) = Ok m ->
    fst (login_user (UserLogin.mk (UserRegister.email user)
                                  (UserRegister.password user))
                    (snd (register_user user db)))
    = Ok (mkMessage "Login successful")
    /\ (forall password,
          hash_password password
          <> hash_password (UserRegister.password user) ->
          fst (login_user (UserLogin.mk (UserRegister.email user) password)
                          (snd (register_user user db)))
          = HTTPException 401 "Invalid credentials").
Proof.
  intros user db m H. apply register_user_ok in H. split.
  - rewrite login_user_fst. cbn [UserLogin.email UserLogin.password].
    rewrite H. now rewrite String.eqb_refl.
  - intros password N. rewrite login_user_fst.
    cbn [UserLogin.email UserLogin.password]. rewrite H.
    destruct (String.eqb _ _) eqn:E; [|reflexivity].
    apply String.eqb_eq in E. congruence.
Qed.

Lemma register_then_login_witness :
  fst (register_user (UserRegister.mk "bob@example.org" "hunter2") db_alice)
  = Ok (mkMessage "User registered successfully")
  /\ fst (login_user (UserLogin.mk "bob@example.org" "hunter2")
            (snd (register_user
                    (UserRegister.mk "bob@example.org" "hunter2") db_alice)))
     = Ok (mkMessage "Login successful")
  /\ (forall password,
        hash_password password <> hash_password "hunter2" ->
        fst (login_user (UserLogin.mk "bob@example.org" password)
               (snd (register_user
                       (UserRegister.mk "bob@example.org" "hunter2")
                       db_alice)))
        = HTTPException 401 "Invalid credentials").
Proof.
  assert (H : fst (register_user
                     (UserRegister.mk "bob@example.org" "hunter2") db_alice)
              = Ok (mkMessage "User registered successfully")).
  { vm_compute. reflexivity. }
  split; [exact H|].
  exact (register_then_login
           (UserRegister.mk "bob@example.org" "hunter2") db_alice _ H).
Defined.

(** X12.  A registration, accepted or refused, does not change the answer to
    a login under any other email. *)
Theorem register_keeps_other_logins :
  forall (user : UserRegister.t) (other : UserLogin.t) (db : DB),
    UserLogin.email other <> UserRegister.email user ->
    fst (login_user other (snd (register_user user db)))
    = fst (login_user other db).
Proof.
  intros user other db N. rewrite !login_user_fst.
  assert (L : lookup_password (UserLogin.email other)
                (snd (register_user user db))
              = lookup_password (UserLogin.email other) db).
  { unfold register_user. destruct (existsb _ _); [reflexivity|].
    unfold lookup_password. cbn [snd users]. rewrite find_snoc.
    destruct (find _ (users db)); [reflexivity|]. cbn [fst].
    destruct (String.eqb _ _) eqn:E; [|reflexivity].
    apply String.eqb_eq in E. congruence. }
  now rewrite L.
Qed.

Lemma register_keeps_other_logins_witness :
  UserLogin.email (UserLogin.mk "alice@example.org" "s3cret")
  <> UserRegister.email (UserRegister.mk "bob@example.org" "hunter2")
  /\ fst (login_user (UserLogin.mk "alice@example.org" "s3cret")
            (snd (register_user
                    (UserRegister.mk "bob@example.org" "hunter2") db_alice)))
     = fst (login_user (UserLogin.mk "alice@example.org" "s3cret") db_alice).
Proof.
  assert (N : UserLogin.email (UserLogin.mk "alice@example.org" "s3cret")
              <> UserRegister.email
                   (UserRegister.mk "bob@example.org" "hunter2")).
  { simpl. discriminate. }
  split; [exact N|].
  exact (register_keeps_other_logins
           (UserRegister.mk "bob@example.org" "hunter2")
           (UserLogin.mk "alice@example.org" "s3cret") db_alice N).
Defined.

(** ** What holds in every state the service reaches *)

Lemma handle_expenses_cases {Claims : Type}
    (verify_id_token : string -> option Claims) (req : Request) (db : DB) :
  (expenses (snd (handle verify_id_token req db)) = expenses db
   /\ expenses_seq (snd (handle verify_id_token req db)) = expenses_seq db)
  \/ (exists expense d,
        Strptime.strptime (Expense.date expense) = Some d
        /\ expenses (snd (handle verify_id_token req db))
           = expenses db ++
             [ExpenseInDB.mk
                (lastrowid (expenses_seq db)
                           (map ExpenseInDB.id (expenses db)))
                (Expense.description expense) (Expense.amount expense)
                (Expense.category expense) (Strptime.isoformat d)]
        /\ expenses_seq (snd (handle verify_id_token req db))
           = lastrowid (expenses_seq db) (map ExpenseInDB.id (expenses db)))
  \/ (exists expense_id,
        expenses (snd (handle verify_id_token req db))
        = filter (fun row => negb (ExpenseInDB.id row =? expense_id)%Z)
                 (expenses db)
        /\ expenses_seq (snd (handle verify_id_token req db))
           = expenses_seq db).
Proof.
  destruct req; cbn [handle]; rewrite respond_snd;
    try rewrite login_user_snd; try gate verify_id_token; try validated;
    try (left; split; reflexivity).
  - left. unfold register_user. destruct (existsb _ _); split; reflexivity.
  - unfold add_expense.
    destruct (Strptime.strptime _) as [d|] eqn:E;
      [|left; split; reflexivity].
    destruct (binds_null _); [left; split; reflexivity|].
    right. left. exists expense, d. repeat split. exact E.
  - right. right. exists expense_id. split; reflexivity.
  - left. unfold create_goal. destruct (_ || _); split; reflexivity.
  - left. unfold update_goal.
    destruct (find _ _); [destruct (_ || _)|]; split; reflexivity.
  - left. unfold delete_goal. destruct (_ =? _)%nat; split; reflexivity.
Qed.

Lemma handle_goals_cases {Claims : Type}
    (verify_id_token : string -> option Claims) (req : Request) (db : DB) :
  (map GoalInDB.id (goals (snd (handle verify_id_token req db)))
   = map GoalInDB.id (goals db)
   /\ goals_seq (snd (handle verify_id_token req db)) = goals_seq db)
  \/ (map GoalInDB.id (goals (snd (handle verify_id_token req db)))
      = map GoalInDB.id (goals db)
        ++ [lastrowid (goals_seq db) (map GoalInDB.id (goals db))]
      /\ goals_seq (snd (handle verify_id_token req db))
         = lastrowid (goals_seq db) (map GoalInDB.id (goals db)))
  \/ (exists goal_id,
        goals (snd (handle verify_id_token req db))
        = filter (fun row => negb (GoalInDB.id row =? goal_id)%Z) (goals db)
        /\ goals_seq (snd (handle verify_id_token req db)) = goals_seq db).
Proof.
  destruct req; cbn [handle]; rewrite respond_snd;
    try rewrite login_user_snd; try gate verify_id_token; try validated;
    try (left; split; reflexivity).
  - left. unfold register_user. destruct (existsb _ _); split; reflexivity.
  - left. unfold add_expense.
    destruct (Strptime.strptime _); [destruct (binds_null _)|];
      split; reflexivity.
  - unfold create_goal.
    destruct (_ || _); [left; split; reflexivity|].
    right. left. cbn [snd goals goals_seq].
    rewrite map_app. split; reflexivity.
  - left. unfold update_goal.
    destruct (find _ _); [destruct (_ || _)|]; cbn [snd goals goals_seq];
      try (split; reflexivity).
    split; [apply map_update_ids|reflexivity].
  - unfold delete_goal. destruct (_ =? _)%nat;
      [left; split; reflexivity|].
    right. right. exists goal_id. split; reflexivity.
Qed.

Lemma sorted_lt_NoDup {A : Type} (key : A -> Z) (l : list A) :
  StronglySorted (fun x y => key x < key y) l -> NoDup (map key l).
Proof.
  induction 1 as [|x l Hs IH Hx]; simpl; constructor; [|exact IH].
  intros H. apply in_map_iff in H. destruct H as (y & E & Hin).
  rewrite Forall_forall in Hx. specialize (Hx y Hin). lia.
Qed.

Lemma lastrowid_pos (seq : Z) (ids : list Z) : 0 < lastrowid seq ids.
Proof.
  assert (H : 0 <= fold_right Z.max 0 ids).
  { induction ids as [|i ids IH]; simpl; lia. }
  unfold lastrowid. lia.
Qed.

Lemma reachable_ids_in_range {Claims : Type}
    (verify_id_token : string -> option Claims) (db : DB) :
  reachable verify_id_token db -> ids_in_range db.
Proof.
  induction 1 as [|db req Hr [IHe IHg]]; [split; constructor|].
  split.
  - destruct (handle_expenses_cases verify_id_token req db)
      as [[-> ->]|[(expense & d & _ & -> & ->)|(expense_id & -> & ->)]].
    + exact IHe.
    + pose proof (lastrowid_gt_seq (expenses_seq db)
                    (map ExpenseInDB.id (expenses db))) as G.
      pose proof (lastrowid_pos (expenses_seq db)
                    (map ExpenseInDB.id (expenses db))) as P.
      apply Forall_app. split.
      * eapply Forall_impl; [|exact IHe]. intros e He. simpl in He. lia.
      * repeat constructor; simpl; lia.
    + rewrite Forall_forall in *. intros e He.
      apply filter_In in He. now apply IHe.
  - assert (IHg' : Forall (fun i => 1 <= i <= goals_seq db)
                          (map GoalInDB.id (goals db))).
    { now rewrite Forall_map. }
    rewrite <- Forall_map with (f := GoalInDB.id)
                               (P := fun i => 1 <= i <= _).
    destruct (handle_goals_cases verify_id_token req db)
      as [[-> ->]|[[-> ->]|(goal_id & -> & ->)]].
    + exact IHg'.
    + pose proof (lastrowid_gt_seq (goals_seq db)
                    (map GoalInDB.id (goals db))) as G.
      pose proof (lastrowid_pos (goals_seq db)
                    (map GoalInDB.id (goals db))) as P.
      apply Forall_app. split.
      * eapply Forall_impl; [|exact IHg']. intros i Hi. simpl in Hi. lia.
      * repeat constructor; lia.
    + rewrite Forall_map. rewrite Forall_forall in *. intros g Hg.
      apply filter_In in Hg. now apply IHg.
Qed.

(** X13.  In every state the service reaches from the freshly initialised
    database no two expenses share an id, no two goals share an id, no two
    users share an email, and every stored id lies between 1 and the id
    counter of its table. *)
Theorem reachable_keys_unique :
  forall (Claims : Type) (verify_id_token : string -> option Claims)
         (db : DB),
    reachable verify_id_token db ->
    NoDup (map ExpenseInDB.id (expenses db))
    /\ NoDup (map GoalInDB.id (goals db))
    /\ NoDup (map fst (users db))
    /\ ids_in_range db.
Proof.
  intros Claims v db Hr.
  destruct (reachable_db_ok v db Hr) as (He & Hg & Hu).
  split; [exact (sorted_lt_NoDup ExpenseInDB.id _ He)|].
  split; [exact (sorted_lt_NoDup GoalInDB.id _ Hg)|].
  split; [exact Hu|]. now apply (reachable_ids_in_range v).
Qed.

Lemma reachable_dates_iso_aux {Claims : Type}
    (verify_id_token : string -> option Claims) (db : DB) :
  reachable verify_id_token db -> dates_iso db.
Proof.
  unfold dates_iso.
  induction 1 as [|db req Hr IH]; [constructor|].
  destruct (handle_expenses_cases verify_id_token req db)
    as [[-> _]|[(expense & d & Hd & -> & _)|(expense_id & -> & _)]].
  - exact IH.
  - apply Forall_app. split; [exact IH|]. repeat constructor.
    cbn [ExpenseInDB.date]. exists d. split; [|reflexivity].
    exact (strptime_valid _ _ Hd).
  - rewrite Forall_forall in *. intros e He.
    apply filter_In in He. now apply IH.
Qed.

(** X14.  In every reachable state each stored expense date is a date of the
    calendar in zero-padded ISO form, whatever padding the request used: it
    has ten characters and parses back to a date whose ISO form it is. *)
Theorem reachable_dates_iso :
  forall (Claims : Type) (verify_id_token : string -> option Claims)
         (db : DB) (e : ExpenseInDB.t),
    reachable verify_id_token db ->
    In e (expenses db) ->
    String.length (ExpenseInDB.date e) = 10%nat
    /\ exists d, valid_date d
                 /\ Strptime.strptime (ExpenseInDB.date e) = Some d
                 /\ ExpenseInDB.date e = Strptime.isoformat d.
Proof.
  intros Claims v db e Hr Hin.
  pose proof (reachable_dates_iso_aux v db Hr) as H.
  unfold dates_iso in H. rewrite Forall_forall in H.
  destruct (H e Hin) as (d & Hv & ->).
  split; [reflexivity|]. exists d.
  split; [exact Hv|]. split; [now apply strptime_isoformat|reflexivity].
Qed.

(** ** The byte order of ISO dates is the order of the calendar *)

Lemma digit_char_compare (p q : Z) :
  Ascii.compare (Strptime.digit_char p) (Strptime.digit_char q)
  = Z.compare (p mod 10) (q mod 10).
Proof.
  unfold Strptime.digit_char.
  pose proof (Z.mod_pos_bound p 10 eq_refl) as Bp.
  pose proof (Z.mod_pos_bound q 10 eq_refl) as Bq.
  set (i := p mod 10) in *. set (j := q mod 10) in *. clearbody i j.
  unfold Ascii.compare, ascii_of_nat.
  rewrite !N_ascii_embedding by lia.
  rewrite <- N2Z.inj_compare, !nat_N_Z, !Z2Nat.id by lia.
  apply Z.add_compare_mono_l.
Qed.

Lemma digits4 (y : Z) :
  0 <= y <= 9999 ->
  y = 1000 * ((y / 1000) mod 10) + 100 * ((y / 100) mod 10)
      + 10 * ((y / 10) mod 10) + y mod 10.
Proof. intros H. Z.to_euclidean_division_equations. lia. Qed.

Lemma digits2 (m : Z) :
  0 <= m <= 99 -> m = 10 * ((m / 10) mod 10) + m mod 10.
Proof. intros H. Z.to_euclidean_division_equations. lia. Qed.

Lemma isoformat_compare (a b : Strptime.date) :
  valid_date a -> valid_date b ->
  String.compare (Strptime.isoformat a) (Strptime.isoformat b)
  = match (Strptime.year a ?= Strptime.year b)%Z with
    | Eq => match (Strptime.month a ?= Strptime.month b)%Z with
            | Eq => (Strptime.day a ?= Strptime.day b)%Z
            | c => c
            end
    | c => c
    end.
Proof.
  destruct a as [y m d], b as [y' m' d']. unfold valid_date.
  cbn [Strptime.year Strptime.month Strptime.day].
  intros (Hy & Hm & Hd) (Hy' & Hm' & Hd').
  pose proof (days_in_month_bound y m) as Bd.
  pose proof (days_in_month_bound y' m') as Bd'.
  cbn [String.compare Strptime.isoformat Strptime.year Strptime.month
       Strptime.day].
  rewrite !digit_char_compare.
  change (Ascii.compare "-"%char "-"%char) with Eq. cbv iota.
  pose proof (digits4 y ltac:(lia)) as Ey.
  pose proof (digits4 y' ltac:(lia)) as Ey'.
  pose proof (digits2 m ltac:(lia)) as Em.
  pose proof (digits2 m' ltac:(lia)) as Em'.
  pose proof (digits2 d ltac:(lia)) as Ed.
  pose proof (digits2 d' ltac:(lia)) as Ed'.
  repeat match goal with
         | |- context [(?x / ?k) mod 10] =>
             let B := fresh "B" in
             pose proof (Z.mod_pos_bound (x / k) 10 eq_refl) as B;
             let v := fresh "v" in
             set (v := (x / k) mod 10) in *; clearbody v
         end.
  repeat match goal with
         | |- context [?x mod 10] =>
             let B := fresh "B" in
             pose proof (Z.mod_pos_bound x 10 eq_refl) as B;
             let v := fresh "v" in
             set (v := x mod 10) in *; clearbody v
         end.
  subst y y' m m' d d'.
  repeat match goal with
         | |- context [match (?x ?= ?y)%Z with _ => _ end] =>
             destruct (Z.compare_spec x y); cbv iota
         end;
    try reflexivity; try (exfalso; lia); symmetry;
    first [ apply Z.compare_eq_iff; lia
          | apply Z.compare_lt_iff; lia
          | apply Z.compare_gt_iff; lia ].
Qed.

Lemma leb_isoformat (a b : Strptime.date) :
  valid_date a -> valid_date b ->
  String.leb (Strptime.isoformat a) (Strptime.isoformat b) = true ->
  date_before_eq a b.
Proof.
  intros Ha Hb. unfold String.leb. rewrite (isoformat_compare a b Ha Hb).
  unfold date_before_eq.
  destruct (Z.compare_spec (Strptime.year a) (Strptime.year b));
    [|lia|discriminate].
  destruct (Z.compare_spec (Strptime.month a) (Strptime.month b));
    [|lia|discriminate].
  destruct (Z.compare_spec (Strptime.day a) (Strptime.day b));
    [lia|lia|discriminate].
Qed.

Lemma sorted_impl_on {A : Type} (P : A -> Prop) (R R' : A -> A -> Prop)
    (l : list A) :
  (forall x y, P x -> P y -> R x y -> R' x y) ->
  Forall P l -> StronglySorted R l -> StronglySorted R' l.
Proof.
  intros HR HP Hs. induction Hs as [|x l Hs IH Hx]; constructor.
  - apply IH. now inversion HP.
  - inversion HP; subst. rewrite Forall_forall in *.
    intros y Hy. apply HR; auto.
Qed.

Lemma expenses_rebuilt (l : list ExpenseInDB.t) :
  map (fun e => ExpenseInDB.mk (ExpenseInDB.id e)
                  (ExpenseInDB.description e) (ExpenseInDB.amount e)
                  (ExpenseInDB.category e) (ExpenseInDB.date e)) l = l.
Proof. induction l as [|[i de a c da] l IH]; simpl; congruence. Qed.

Lemma run_reachable {Claims : Type}
    (verify_id_token : string -> option Claims) (reqs : list Request) :
  forall db, reachable verify_id_token db ->
             reachable verify_id_token (run verify_id_token reqs db).
Proof.
  induction reqs as [|req reqs IH]; intros db H; [exact H|].
  apply IH. now constructor.
Qed.

(** X15.  In every reachable state the expense list is in the order of the
    calendar: every listed date parses, and no expense is listed before one
    of an earlier day. *)
Theorem get_expenses_chronological :
  forall (Claims : Type) (verify_id_token : string -> option Claims)
         (user : Claims) (db : DB),
    reachable verify_id_token db ->
    exists l,
      fst (get_expenses user db) = Ok l
      /\ StronglySorted chronological l.
Proof.
  intros Claims v user db Hr. exists (order_by_date (expenses db)). split.
  - unfold get_expenses. cbn [fst]. now rewrite expenses_rebuilt.
  - apply (sorted_impl_on (fun e => iso_date (ExpenseInDB.date e)) date_le).
    + intros x y (a & Ha & Ex) (b & Hb & Ey) Hle.
      exists a, b. unfold date_le in Hle. rewrite Ex, Ey in *.
      split; [now apply strptime_isoformat|].
      split; [now apply strptime_isoformat|].
      now apply leb_isoformat.
    + pose proof (reachable_dates_iso_aux v db Hr) as H.
      unfold dates_iso in H. rewrite Forall_forall in *.
      intros e He. apply H.
      eapply Permutation_in; [|exact He].
      symmetry. apply order_by_date_perm.
    + apply order_by_date_sorted.
Qed.

(** ** Adding an expense, as the list and the graph show it *)

Lemma add_expense_stored {Claims : Type} (expense : Expense.t) (user : Claims)
    (db : DB) (e : ExpenseInDB.t) :
  fst (add_expense expense user db) = Ok e ->
  exists d,
    Strptime.strptime (Expense.date expense) = Some d
    /\ expenses (snd (add_expense expense user db))
       = expenses db ++
         [ExpenseInDB.mk (ExpenseInDB.id e) (Expense.description expense)
            (Expense.amount expense) (Expense.category expense)
            (Strptime.isoformat d)].
Proof.
  unfold add_expense.
  destruct (Strptime.strptime _) as [d|]; [|discriminate].
  destruct (binds_null _); [discriminate|].
  cbn [fst snd expenses]. intros H. inversion H; subst e.
  exists d. split; reflexivity.
Qed.

(** X16.  After an expense is added, the expense list is the previous list
    with one more row, the new expense under its new id with its date in ISO
    form; every expense listed before is still listed. *)
Theorem add_expense_then_list :
  forall (Claims : Type) (user : Claims) (expense : Expense.t) (db : DB)
         (e : ExpenseInDB.t),
    fst (add_expense expense user db) = Ok e ->
    exists d before after,
      Strptime.strptime (Expense.date expense) = Some d
      /\ fst (get_expenses user db) = Ok before
      /\ fst (get_expenses user (snd (add_expense expense user db)))
         = Ok after
      /\ Permutation
           (ExpenseInDB.mk (ExpenseInDB.id e) (Expense.description expense)
              (Expense.amount expense) (Expense.category expense)
              (Strptime.isoformat d) :: before)
           after.
Proof.
  intros Claims user expense db e H.
  destruct (add_expense_stored expense user db e H) as (d & Hd & Hs).
  exists d, (order_by_date (expenses db)),
    (order_by_date (expenses (snd (add_expense expense user db)))).
  split; [exact Hd|].
  split; [unfold get_expenses; cbn [fst]; now rewrite expenses_rebuilt|].
  split; [unfold get_expenses; cbn [fst]; now rewrite expenses_rebuilt|].
  rewrite Hs.
  eapply Permutation_trans; [|apply order_by_date_perm].
  eapply Permutation_trans; [|apply Permutation_cons_append].
  constructor. symmetry. apply order_by_date_perm.
Qed.

Lemma find_point (acc : list (string * float)) (k : string) :
  option_map total
    (find (fun p => String.eqb (gp_date p) k)
          (map (fun item => mkGraphPoint (fst item) (snd item)) acc))
  = dict_get acc k.
Proof.
  unfold dict_get. induction acc as [|[k0 v] acc IH]; simpl; [reflexivity|].
  destruct (String.eqb k0 k); [reflexivity|exact IH].
Qed.

(** What the graph reports for a date, in terms of the table. *)
Lemma graph_total_spec {Claims : Type} (user : Claims) (db : DB) (k : string) :
  graph_total user db k =
  match filter (has_date k) (expenses db) with
  | [] => None
  | rs => Some (float_sum (map ExpenseInDB.amount rs))
  end.
Proof.
  unfold graph_total, get_expenses_graph. cbn [fst].
  rewrite find_point.
  change (fold_left _ (order_by_date (expenses db)) [])
    with (accumulate (order_by_date (expenses db)) []).
  rewrite accumulate_get, order_by_date_stable. reflexivity.
Qed.

Lemma float_sum_snoc (l : list float) (a : float) :
  float_sum (l ++ [a]) = (float_sum l + a)%float.
Proof. unfold float_sum. now rewrite fold_left_app. Qed.

(** X17.  Adding an expense adds its amount to the total the graph reports
    for its stored date, starting from [0.0] when the date had no point, and
    leaves the total of every other date as it was. *)
Theorem add_expense_then_graph :
  forall (Claims : Type) (user : Claims) (expense : Expense.t) (db : DB)
         (e : ExpenseInDB.t),
    fst (add_expense expense user db) = Ok e ->
    exists d,
      Strptime.strptime (Expense.date expense) = Some d
      /\ graph_total user (snd (add_expense expense user db))
                     (Strptime.isoformat d)
         = Some (match graph_total user db (Strptime.isoformat d) with
                 | Some t => t + Expense.amount expense
                 | None => 0 + Expense.amount expense
                 end)%float
      /\ (forall other, other <> Strptime.isoformat d ->
            graph_total user (snd (add_expense expense user db)) other
            = graph_total user db other).
Proof.
  intros Claims user expense db e H.
  destruct (add_expense_stored expense user db e H) as (d & Hd & Hs).
  exists d. split; [exact Hd|]. split.
  - rewrite !graph_total_spec, Hs, filter_app. cbn [filter].
    unfold has_date at 2. cbn [ExpenseInDB.date].
    rewrite String.eqb_refl.
    destruct (filter _ (expenses db)) as [|r rs].
    + reflexivity.
    + cbn [app]. rewrite app_comm_cons, map_app.
      cbn [map ExpenseInDB.amount]. now rewrite float_sum_snoc.
  - intros other N. rewrite !graph_total_spec, Hs, filter_app. cbn [filter].
    unfold has_date at 2. cbn [ExpenseInDB.date].
    destruct (String.eqb _ other) eqn:E.
    + apply String.eqb_eq in E. congruence.
    + now rewrite app_nil_r.
Qed.

(** ** Errors *)

(** X18.  The only errors a handler raises are: 400 for a registered email
    on registration and for an unparsable date on adding an expense, 401 for
    bad credentials on login and for a rejected token on a gated route, and
    404 for an unknown goal on update and delete. *)
Theorem error_taxonomy :
  forall (Claims : Type) (verify_id_token : string -> option Claims)
         (req : Request) (db : DB) (status_code : Z) (detail : string),
    fst (handle verify_id_token req db) = HTTPException status_code detail ->
    (status_code = 400 /\ detail = "Email already registered"
     /\ exists user, req = POST_register user)
    \/ (status_code = 400 /\ detail = "Invalid date format. Use YYYY-MM-DD"
        /\ exists token expense, req = POST_expenses token expense)
    \/ (status_code = 401 /\ detail = "Invalid credentials"
        /\ exists user, req = POST_login user)
    \/ (status_code = 401 /\ detail = "Invalid or expired token"
        /\ exists token, token_of req = Some token
                         /\ verify_id_token token = None)
    \/ (status_code = 404 /\ detail = "Goal not found"
        /\ ((exists token goal_id goal, req = PATCH_goals token goal_id goal)
            \/ exists token goal_id, req = DELETE_goals token goal_id)).
Proof.
  intros Claims v req db c detail.
  assert (R : forall A (f : A -> Body Claims) (r : Result A * DB),
             fst (respond f r) = HTTPException c detail ->
             fst r = HTTPException c detail).
  { intros A f [[b|c' d'| |e] db']; simpl; congruence. }
  assert (G : forall A token (h : Claims -> DB -> Result A * DB),
             token_of req = Some token ->
             fst (Depends (verify_token v token) h db)
             = HTTPException c detail ->
             (c = 401 /\ detail = "Invalid or expired token"
              /\ exists token, token_of req = Some token
                               /\ v token = None)
             \/ exists user, fst (h user db) = HTTPException c detail).
  { intros A token h T. unfold Depends, verify_token.
    destruct (v token) as [user|] eqn:V; cbn [fst].
    - right. now exists user.
    - intros E. inversion E; subst. left. repeat split. now exists token. }
  destruct req; cbn [handle]; intros E; apply R in E.
  - discriminate E.
  - left. revert E. unfold register_user.
    destruct (existsb _ _); cbn [fst]; intros E; inversion E; subst.
    repeat split. now exists user.
  - right. right. left. revert E. unfold login_user.
    destruct (find _ _) as [r|]; [destruct (String.eqb _ _)|];
      cbn [fst]; intros E; inversion E; subst; repeat split;
      now exists user.
  - apply (G _ token) in E; [|reflexivity].
    destruct E as [E|(user & E)]; [tauto|discriminate E].
  - apply (G _ token) in E; [|reflexivity].
    destruct E as [E|(user & E)]; [tauto|].
    right. left. revert E. unfold add_expense.
    destruct (Strptime.strptime _); [destruct (binds_null _)|];
      cbn [fst]; intros E; inversion E; subst.
    repeat split. now exists token, expense.
  - apply (G _ token) in E; [|reflexivity].
    destruct E as [E|(user & E)]; [tauto|discriminate E].
  - apply (G _ token) in E; [|reflexivity].
    destruct E as [E|(user & E)]; [tauto|discriminate E].
  - apply (G _ token) in E; [|reflexivity].
    destruct E as [E|(user & E)]; [tauto|discriminate E].
  - apply (G _ token) in E; [|reflexivity].
    destruct E as [E|(user & E)]; [tauto|]. revert E. unfold with_goal.
    destruct (RawGoal.validate _); [|discriminate].
    unfold create_goal. destruct (_ || _); discriminate.
  - apply (G _ token) in E; [|reflexivity].
    destruct E as [E|(user & E)]; [tauto|discriminate E].
  - apply (G _ token) in E; [|reflexivity].
    destruct E as [E|(user & E)]; [tauto|].
    do 4 right. revert E. unfold with_goal.
    destruct (RawGoal.validate _); [|discriminate].
    unfold update_goal. destruct (find _ _); [destruct (_ || _)|];
      cbn [fst]; intros E; inversion E; subst.
    repeat split. left. now exists token, goal_id, goal.
  - apply (G _ token) in E; [|reflexivity].
    destruct E as [E|(user & E)]; [tauto|].
    do 4 right. revert E. unfold delete_goal.
    destruct (_ =? _)%nat; cbn [fst]; intros E; inversion E; subst.
    repeat split. right. now exists token, goal_id.
Qed.

Lemma error_taxonomy_witness :
  fst (handle demo_verify (DELETE_goals "valid" 9) db_save)
  = HTTPException 404 "Goal not found"
  /\ ((404 = 400 /\ "Goal not found" = "Email already registered"
       /\ exists user, DELETE_goals "valid" 9 = POST_register user)
      \/ (404 = 400
          /\ "Goal not found" = "Invalid date format. Use YYYY-MM-DD"
          /\ exists token expense,
               DELETE_goals "valid" 9 = POST_expenses token expense)
      \/ (404 = 401 /\ "Goal not found" = "Invalid credentials"
          /\ exists user, DELETE_goals "valid" 9 = POST_login user)
      \/ (404 = 401 /\ "Goal not found" = "Invalid or expired token"
          /\ exists token, token_of (DELETE_goals "valid" 9) = Some token
                           /\ demo_verify token = None)
      \/ (404 = 404 /\ "Goal not found" = "Goal not found"
          /\ ((exists token goal_id goal,
                  DELETE_goals "valid" 9 = PATCH_goals token goal_id goal)
              \/ exists token goal_id,
                   DELETE_goals "valid" 9 = DELETE_goals token goal_id))).
Proof.
  assert (H : fst (handle demo_verify (DELETE_goals "valid" 9) db_save)
              = HTTPException 404 "Goal not found").
  { vm_compute. reflexivity. }
  split; [exact H|].
  exact (error_taxonomy string demo_verify (DELETE_goals "valid" 9) db_save
           404 "Goal not found" H).
Defined.

(** X19.  A request that is not answered with success leaves the store
    exactly as it was: no handler writes and then fails. *)
Theorem failure_writes_nothing :
  forall (Claims : Type) (verify_id_token : string -> option Claims)
         (req : Request) (db : DB),
    snd (handle verify_id_token req db) = db
    \/ exists body, fst (handle verify_id_token req db) = Ok body.
Proof.
  intros Claims v req db.
  destruct req; cbn [handle]; try (left; now rewrite respond_snd);
    try (gate v; [left; reflexivity|]); try validated;
    try (left; reflexivity).
  - unfold register_user. destruct (existsb _ _);
      [left; reflexivity|right; eexists; reflexivity].
  - left. rewrite respond_snd. apply login_user_snd.
  - unfold add_expense.
    destruct (Strptime.strptime _); [destruct (binds_null _)|];
      try (left; reflexivity).
    right. eexists. reflexivity.
  - right. eexists. reflexivity.
  - unfold create_goal. destruct (_ || _);
      [left; reflexivity|right; eexists; reflexivity].
  - unfold update_goal.
    destruct (find _ _); [destruct (_ || _)|]; try (left; reflexivity).
    right. eexists. reflexivity.
  - unfold delete_goal. destruct (_ =? _)%nat;
      [left; reflexivity|right; eexists; reflexivity].
Qed.

(** ** The [NOT NULL] columns *)

Lemma Forall_filter_keep {A : Type} (P : A -> Prop) (f : A -> bool)
    (l : list A) :
  Forall P l -> Forall P (filter f l).
Proof.
  rewrite !Forall_forall. intros H x Hx. apply filter_In in Hx. now apply H.
Qed.

Lemma handle_no_nan {Claims : Type}
    (verify_id_token : string -> option Claims) (req : Request) (db : DB) :
  no_nan db -> no_nan (snd (handle verify_id_token req db)).
Proof.
  intros [He Hg].
  destruct req; cbn [handle]; rewrite respond_snd;
    try rewrite login_user_snd; try gate verify_id_token; try validated;
    try (split; assumption).
  - unfold register_user. destruct (existsb _ _); split; assumption.
  - unfold add_expense.
    destruct (Strptime.strptime _); [|split; assumption].
    destruct (binds_null _) eqn:B; [split; assumption|].
    split; [|exact Hg]. cbn [snd expenses].
    apply Forall_app. split; [exact He|]. repeat constructor. exact B.
  - split; [|exact Hg]. cbn [snd delete_expense expenses].
    now apply Forall_filter_keep.
  - unfold create_goal.
    destruct (_ || _) eqn:B; [split; assumption|].
    apply orb_false_iff in B.
    split; [exact He|]. cbn [snd goals].
    apply Forall_app. split; [exact Hg|]. repeat constructor; apply B.
  - unfold update_goal.
    destruct (find _ _); [|split; assumption].
    destruct (_ || _) eqn:B; [split; assumption|].
    apply orb_false_iff in B.
    split; [exact He|]. cbn [snd goals].
    apply Forall_map. eapply Forall_impl; [|exact Hg].
    intros row Hrow. destruct (_ =? _)%Z; [|exact Hrow].
    cbn [GoalInDB.amount GoalInDB.progress]. exact B.
  - unfold delete_goal.
    destruct (_ =? _)%nat; [split; assumption|].
    split; [exact He|]. cbn [snd goals]. now apply Forall_filter_keep.
Qed.

Lemma reachable_no_nan_aux {Claims : Type}
    (verify_id_token : string -> option Claims) (db : DB) :
  reachable verify_id_token db -> no_nan db.
Proof.
  induction 1 as [|db req Hr IH].
  - split; constructor.
  - now apply handle_no_nan.
Qed.


(** ** The further statements at concrete requests *)

Lemma reachable_session : reachable demo_verify db_session.
Proof. apply run_reachable. constructor. Qed.

Lemma reachable_keys_unique_witness :
  reachable demo_verify db_session
  /\ NoDup (map ExpenseInDB.id (expenses db_session))
  /\ NoDup (map GoalInDB.id (goals db_session))
  /\ NoDup (map fst (users db_session))
  /\ ids_in_range db_session.
Proof.
  split; [exact reachable_session|].
  exact (reachable_keys_unique string demo_verify db_session
           reachable_session).
Defined.

Lemma reachable_dates_iso_witness :
  reachable demo_verify db_session
  /\ In (ExpenseInDB.mk 1 "tea" 3 "food" "2024-03-06") (expenses db_session)
  /\ String.length
       (ExpenseInDB.date (ExpenseInDB.mk 1 "tea" 3 "food" "2024-03-06"))
     = 10%nat
  /\ exists d,
       valid_date d
       /\ Strptime.strptime
            (ExpenseInDB.date (ExpenseInDB.mk 1 "tea" 3 "food" "2024-03-06"))
          = Some d
       /\ ExpenseInDB.date (ExpenseInDB.mk 1 "tea" 3 "food" "2024-03-06")
          = Strptime.isoformat d.
Proof.
  assert (I : In (ExpenseInDB.mk 1 "tea" 3 "food" "2024-03-06")
                 (expenses db_session)).
  { vm_compute. auto. }
  split; [exact reachable_session|]. split; [exact I|].
  exact (reachable_dates_iso string demo_verify db_session _
           reachable_session I).
Defined.

Lemma get_expenses_chronological_witness :
  reachable demo_verify db_session
  /\ exists l,
       fst (get_expenses "uid-1" db_session) = Ok l
       /\ StronglySorted chronological l.
Proof.
  split; [exact reachable_session|].
  exact (get_expenses_chronological string demo_verify "uid-1" db_session
           reachable_session).
Defined.

Lemma add_expense_then_list_witness :
  fst (add_expense (Expense.mk "tea" 3 "food" "2024-3-6") tt db_lunch)
  = Ok (ExpenseInDB.mk 2 "tea" 3 "food" "2024-3-6")
  /\ exists d before after,
       Strptime.strptime "2024-3-6" = Some d
       /\ fst (get_expenses tt db_lunch) = Ok before
       /\ fst (get_expenses tt
                 (snd (add_expense (Expense.mk "tea" 3 "food" "2024-3-6") tt
                         db_lunch)))
          = Ok after
       /\ Permutation
            (ExpenseInDB.mk 2 "tea" 3 "food" (Strptime.isoformat d) :: before)
            after.
Proof.
  assert (H : fst (add_expense (Expense.mk "tea" 3 "food" "2024-3-6") tt
                     db_lunch)
              = Ok (ExpenseInDB.mk 2 "tea" 3 "food" "2024-3-6")).
  { vm_compute. reflexivity. }
  split; [exact H|].
  exact (add_expense_then_list unit tt
           (Expense.mk "tea" 3 "food" "2024-3-6") db_lunch _ H).
Defined.

Lemma add_expense_then_graph_witness :
  fst (add_expense (Expense.mk "tea" 3 "food" "2024-3-5") tt db_lunch)
  = Ok (ExpenseInDB.mk 2 "tea" 3 "food" "2024-3-5")
  /\ exists d,
       Strptime.strptime "2024-3-5" = Some d
       /\ graph_total tt
            (snd (add_expense (Expense.mk "tea" 3 "food" "2024-3-5") tt
                    db_lunch))
            (Strptime.isoformat d)
          = Some (match graph_total tt db_lunch (Strptime.isoformat d) with
                  | Some t => t + 3
                  | None => 0 + 3
                  end)%float
       /\ (forall other, other <> Strptime.isoformat d ->
             graph_total tt
               (snd (add_expense (Expense.mk "tea" 3 "food" "2024-3-5") tt
                       db_lunch))
               other
             = graph_total tt db_lunch other).
Proof.
  assert (H : fst (add_expense (Expense.mk "tea" 3 "food" "2024-3-5") tt
                     db_lunch)
              = Ok (ExpenseInDB.mk 2 "tea" 3 "food" "2024-3-5")).
  { vm_compute. reflexivity. }
  split; [exact H|].
  exact (add_expense_then_graph unit tt
           (Expense.mk "tea" 3 "food" "2024-3-5") db_lunch _ H).
Defined.

Lemma ids_never_reused_witness :
  fst (add_expense (Expense.mk "tea" 3 "food" "2024-03-06") tt db_lunch)
  = Ok (ExpenseInDB.mk 2 "tea" 3 "food" "2024-03-06")
  /\ fst (add_expense (Expense.mk "bus" 2 "travel" "2024-03-07") tt
            (run (accept_all tt) [DELETE_expenses "t" 2]
                 (snd (add_expense (Expense.mk "tea" 3 "food" "2024-03-06")
                         tt db_lunch))))
     = Ok (ExpenseInDB.mk 3 "bus" 2 "travel" "2024-03-07")
  /\ ExpenseInDB.id (ExpenseInDB.mk 2 "tea" 3 "food" "2024-03-06")
     < ExpenseInDB.id (ExpenseInDB.mk 3 "bus" 2 "travel" "2024-03-07").
Proof.
  assert (H1 : fst (add_expense (Expense.mk "tea" 3 "food" "2024-03-06") tt
                      db_lunch)
               = Ok (ExpenseInDB.mk 2 "tea" 3 "food" "2024-03-06")).
  { vm_compute. reflexivity. }
  assert (H2 : fst (add_expense (Expense.mk "bus" 2 "travel" "2024-03-07") tt
                      (run (accept_all tt) [DELETE_expenses "t" 2]
                           (snd (add_expense
                                   (Expense.mk "tea" 3 "food" "2024-03-06")
                                   tt db_lunch))))
               = Ok (ExpenseInDB.mk 3 "bus" 2 "travel" "2024-03-07")).
  { vm_compute. reflexivity. }
  split; [exact H1|]. split; [exact H2|].
  exact (proj1 (ids_never_reused unit (accept_all tt) tt
                  [DELETE_expenses "t" 2] db_lunch) _ _ _ _ H1 H2).
Defined.

Lemma update_goal_not_found_witness :
  in_int64 9
  /\ ~ In 9 (map GoalInDB.id (goals db_save))
  /\ fst (update_goal 9 (Goal.mk "Car" 5000 10) tt db_save)
     = HTTPException 404 "Goal not found"
  /\ snd (update_goal 9 (Goal.mk "Car" 5000 10) tt db_save) = db_save.
Proof.
  assert (N : ~ In 9 (map GoalInDB.id (goals db_save))).
  { simpl. intros [H|[]]. discriminate H. }
  assert (R : in_int64 9) by (unfold in_int64; lia).
  pose proof (update_goal_not_found unit tt 9 (Goal.mk "Car" 5000 10)
                db_save R) as [Hiff Hsame].
  split; [exact R|].
  split; [exact N|]. split; [exact (proj2 Hiff N)|exact (Hsame N)].
Defined.


Lemma delete_goal_then_lookup_witness :
  in_int64 1
  /\ lookup_goal 1 (snd (delete_goal 1 tt db_save)) = None
  /\ (forall other, other <> 1 ->
        lookup_goal other (snd (delete_goal 1 tt db_save))
        = lookup_goal other db_save)
  /\ delete_goal 1 tt (snd (delete_goal 1 tt db_save))
     = (HTTPException 404 "Goal not found", snd (delete_goal 1 tt db_save)).
Proof.
  assert (R : in_int64 1) by (unfold in_int64; lia).
  split; [exact R|].
  exact (delete_goal_then_lookup unit tt 1 db_save R).
Defined.


Example session_listing :
  fst (get_expenses tt db_session)
  = Ok [ExpenseInDB.mk 2 "rent" 700 "home" "2024-03-01";
        ExpenseInDB.mk 1 "tea" 3 "food" "2024-03-06"].
Proof. vm_compute. reflexivity. Qed.
